(** * gemm15: invite redemption, invite generation, mock gate, photo paths

    A shallow embedding of the event-guest application (App.tsx and
    services/supabaseClient.ts).  The React component is modelled as a
    record of its state variables, every action ([handleAuth],
    [batchGenerate], ...) as a computation in a small state-and-exception
    monad over that record and over the hosted backend (tables, realtime
    channels and a log of every call the client issues).

    Strings are sequences of bytes (ASCII wherever the code inspects
    them); the JavaScript string functions the source uses ([includes],
    [toUpperCase], [split], [replace], [padStart], [parseInt],
    [toString]) are defined on them in [Module Js].

    Of rendering only the conditions under which a view's controls are
    on screen are modelled; timers and the delivery of realtime events
    are outside the model, the callbacks they run are in it. *)

From Stdlib Require Import String Ascii ZArith List Bool Lia.
From Stdlib Require Import Decimal DecimalString DecimalZ DecimalPos.
From Stdlib Require OrderedTypeEx Sorted Permutation.
Import ListNotations.

Open Scope list_scope.
Open Scope string_scope.

(* ================================================================== *)
(** ** JavaScript string and number primitives used by the source     *)
(* ================================================================== *)

Module Js.

(** [s.includes(sub)] *)
Fixpoint includes (sub s : string) : bool :=
  prefix sub s ||
  match s with
  | EmptyString => false
  | String _ s' => includes sub s'
  end.

(** [!s] for a value that is a string or [undefined]: true for
    [undefined] and for the empty string. *)
Definition falsy (v : option string) : bool :=
  match v with
  | None => true
  | Some EmptyString => true
  | Some (String _ _) => false
  end.

Definition in_range (lo hi : nat) (c : ascii) : bool :=
  let n := nat_of_ascii c in (lo <=? n)%nat && (n <=? hi)%nat.

Definition is_digit (c : ascii) : bool := in_range 48 57 c.
Definition is_upper (c : ascii) : bool := in_range 65 90 c.
Definition is_lower (c : ascii) : bool := in_range 97 122 c.

(** The character class [[a-zA-Z0-9]]. *)
Definition is_alnum (c : ascii) : bool :=
  is_lower c || is_upper c || is_digit c.

Definition upper_char (c : ascii) : ascii :=
  if is_lower c then ascii_of_nat (nat_of_ascii c - 32) else c.

(** [s.toUpperCase()] *)
Fixpoint toUpperCase (s : string) : string :=
  match s with
  | EmptyString => EmptyString
  | String c s' => String (upper_char c) (toUpperCase s')
  end.

(** [s.split(sep)] for a one-character separator; the result is never
    the empty array. *)
Fixpoint split (sep : ascii) (s : string) : list string :=
  match s with
  | EmptyString => [EmptyString]
  | String c s' =>
      if Ascii.eqb c sep then EmptyString :: split sep s'
      else match split sep s' with
           | [] => [String c EmptyString]
           | x :: xs => String c x :: xs
           end
  end.

(** [arr.pop()]: the last element, [undefined] on the empty array. *)
Fixpoint pop {A : Type} (l : list A) : option A :=
  match l with
  | [] => None
  | [x] => Some x
  | _ :: l' => pop l'
  end.

(** A string-or-undefined value inside a template literal. *)
Definition interpolate (v : option string) : string :=
  match v with
  | Some s => s
  | None => "undefined"
  end.

(** [s.replace(/[^a-zA-Z0-9]/g, r)] for a one-character [r]. *)
Fixpoint replace_non_alnum (r : ascii) (s : string) : string :=
  match s with
  | EmptyString => EmptyString
  | String c s' =>
      String (if is_alnum c then c else r) (replace_non_alnum r s')
  end.

Fixpoint drop (n : nat) (s : string) : string :=
  match n, s with
  | O, _ => s
  | S _, EmptyString => EmptyString
  | S n', String _ s' => drop n' s'
  end.

(** [s.replace(pat, rep)] with a string pattern: only the first
    occurrence is replaced ([rep] holds no [$] pattern in the source). *)
Fixpoint replace (pat rep s : string) : string :=
  if prefix pat s then rep ++ drop (String.length pat) s
  else match s with
       | EmptyString => EmptyString
       | String c s' => String c (replace pat rep s')
       end.

(** The first [k] characters of [pad] repeated, [cur] being what is
    left of the current copy. *)
Fixpoint fill (k : nat) (cur pad : string) : string :=
  match k with
  | O => EmptyString
  | S k' =>
      match cur with
      | String c r => String c (fill k' r pad)
      | EmptyString =>
          match pad with
          | String c r => String c (fill k' r pad)
          | EmptyString => EmptyString
          end
      end
  end.

(** [s.padStart(n, pad)] *)
Definition padStart (n : nat) (pad s : string) : string :=
  if (n <=? String.length s)%nat then s
  else fill (n - String.length s) pad pad ++ s.

(** A JavaScript number as the source uses it: an integer or [NaN].
    (Exact for the integers below 2^53, far above any invite number
    or millisecond timestamp.) *)
Inductive number : Type :=
| Num (z : Z)
| NaN.

Definition add (a b : number) : number :=
  match a, b with
  | Num x, Num y => Num (x + y)
  | _, _ => NaN
  end.

(** [n.toString()] *)
Definition toString (n : number) : string :=
  match n with
  | Num z => NilZero.string_of_int (Z.to_int z)
  | NaN => "NaN"
  end.

Definition is_space (c : ascii) : bool :=
  let n := nat_of_ascii c in
  (n =? 32)%nat || ((9 <=? n)%nat && (n <=? 13)%nat).

Fixpoint trimStart (s : string) : string :=
  match s with
  | String c s' => if is_space c then trimStart s' else s
  | EmptyString => EmptyString
  end.

(** Value of a character as a digit in bases up to 36. *)
Definition digit_value (c : ascii) : option Z :=
  let n := Z.of_nat (nat_of_ascii c) in
  if is_digit c then Some (n - 48)%Z
  else if is_upper c then Some (n - 55)%Z
  else if is_lower c then Some (n - 87)%Z
  else None.

(** Longest prefix of digits of base [radix], read left to right;
    [None] when [s] does not start with such a digit. *)
Fixpoint digits (radix : Z) (acc : option Z) (s : string) : option Z :=
  match s with
  | EmptyString => acc
  | String c s' =>
      match digit_value c with
      | Some d =>
          if (d <? radix)%Z
          then digits radix
                 (Some (match acc with Some a => a * radix + d | None => d end)%Z)
                 s'
          else acc
      | None => acc
      end
  end.

(** [parseInt(s)] without a radix argument: leading white space, an
    optional sign, an optional [0x]/[0X] prefix, then the longest run
    of digits; [NaN] when there is none. *)
Definition parseInt (s : string) : number :=
  let t := trimStart s in
  let '(sign, u) :=
    match t with
    | String "-" r => ((-1)%Z, r)
    | String "+" r => (1%Z, r)
    | _ => (1%Z, t)
    end in
  let '(radix, v) :=
    match u with
    | String "0" (String "x" r) => (16%Z, r)
    | String "0" (String "X" r) => (16%Z, r)
    | _ => (10%Z, u)
    end in
  match digits radix None v with
  | Some n => Num (sign * n)
  | None => NaN
  end.

End Js.

(* ================================================================== *)
(** ** services/supabaseClient.ts: the mock / online gate             *)
(* ================================================================== *)

Module supabaseClient.

(** [import.meta.env]: the two configuration strings, each possibly
  undefined. *)
Record Env : Type := {
VITE_SUPABASE_URL : option string;
VITE_SUPABASE_ANON_KEY : option string
}.

(** [const url = env?.VITE_SUPABASE_URL] *)
Definition url (env : option Env) : option string :=
match env with
| Some e => VITE_SUPABASE_URL e
| None => None
end.

(** [const key = env?.VITE_SUPABASE_ANON_KEY] *)
Definition key (env : option Env) : option string :=
match env with
| Some e => VITE_SUPABASE_ANON_KEY e
| None => None
end.

(** [isMockMode = !url || !key || url.includes('placeholder')] *)
Definition isMockMode (env : option Env) : bool :=
Js.falsy (url env) || Js.falsy (key env) ||
match url env with
| Some u => Js.includes "placeholder" u
| None => true
end.

(** The fallbacks the client is created with when a value is missing. *)
Definition supabaseUrl (env : option Env) : string :=
match url env with
| Some (String c u) => String c u
| _ => "https://placeholder.supabase.co"
end.

Definition supabaseAnonKey (env : option Env) : string :=
match key env with
| Some (String c k) => String c k
| _ => "placeholder-key"
end.

End supabaseClient.

(* ================================================================== *)
(** ** types.ts                                                       *)
(* ================================================================== *)

Module UserSegment.
Inductive t : Type := YOUNG | ADULT | ADMIN.

Definition eqb (a b : t) : bool :=
  match a, b with
  | YOUNG, YOUNG | ADULT, ADULT | ADMIN, ADMIN => true
  | _, _ => false
  end.
End UserSegment.

(** ['CONFIRMED' | 'DECLINED' | 'PENDING'] *)
Module RsvpStatus.
Inductive t : Type := CONFIRMED | DECLINED | PENDING.
End RsvpStatus.

(** ['PENDING' | 'APPROVED' | 'REJECTED'] *)
Module PhotoStatus.
Inductive t : Type := PENDING | APPROVED | REJECTED.

Definition is_approved (s : t) : bool :=
  match s with APPROVED => true | _ => false end.
End PhotoStatus.

Module UserProfile.
Record t : Type := {
  user_id : string;
  name : string;
  segment : UserSegment.t;
  is_celiac : bool;
  avatar_url : option string;
  created_at : string;
  table : option string;
  rsvp_status : option RsvpStatus.t;
  rsvp_updated_at : option string
}.

(** [{ ...p, table: v }] *)
Definition with_table (v : string) (p : t) : t :=
  {| user_id := user_id p; name := name p; segment := segment p;
     is_celiac := is_celiac p; avatar_url := avatar_url p;
     created_at := created_at p; table := Some v;
     rsvp_status := rsvp_status p;
     rsvp_updated_at := rsvp_updated_at p |}.
End UserProfile.

Module InviteCode.
Record t : Type := {
  code : string;
  segment : UserSegment.t;
  is_used : bool;
  used_by : option string
}.
End InviteCode.

Module RSVP.
Record t : Type := {
  user_id : string;
  status : RsvpStatus.t;
  note : option string;
  updated_at : string
}.
End RSVP.

Module ChatMessage.
Record t : Type := {
  id : Z;
  user_id : string;
  text : string;
  created_at : string;
  profiles : option UserProfile.t
}.

Definition with_profiles (p : option UserProfile.t) (m : t) : t :=
  {| id := id m; user_id := user_id m; text := text m;
     created_at := created_at m; profiles := p |}.
End ChatMessage.

Module Photo.
Record t : Type := {
  id : Z;
  user_id : string;
  storage_path : string;
  status : PhotoStatus.t;
  is_featured : bool;
  created_at : string;
  profiles : option UserProfile.t
}.

Definition with_status (s : PhotoStatus.t) (p : t) : t :=
  {| id := id p; user_id := user_id p; storage_path := storage_path p;
     status := s; is_featured := is_featured p;
     created_at := created_at p; profiles := profiles p |}.

Definition with_profiles (q : option UserProfile.t) (p : t) : t :=
  {| id := id p; user_id := user_id p; storage_path := storage_path p;
     status := status p; is_featured := is_featured p;
     created_at := created_at p; profiles := q |}.
End Photo.

Record ThemeConfig : Type := {
  theme_id : Z;
  font_family : string;
  color_bg : string;
  color_card : string;
  color_text : string;
  color_primary : string;
  color_accent : string;
  motion_level : string
}.

Record EventConfig : Type := {
  event_id : Z;
  event_date : string;
  location_name : string;
  location_address : string;
  location_maps_url : string;
  time_young : string;
  time_adult : string;
  spotify_playlist_url : string;
  rules_young : string;
  rules_adult : string;
  dress_code_young : string;
  dress_code_adult : string;
  checklist_young : string;
  welcome_message : string
}.

(* ================================================================== *)
(** ** The hosted backend                                             *)
(* ================================================================== *)

(** The backend is external to the repository.  It is modelled after the
    interface the client consumes: relational tables with [select],
    [insert], [update] and [upsert], an identity service, an object
    store and realtime channels.  Every request the client issues is
    appended to [calls], whatever its outcome. *)

Module Error.
(** What [new Error(message)] and the SDK's error objects carry. *)
Record t : Type := { message : string; code : option string }.
Definition make (m : string) : t := {| message := m; code := None |}.
End Error.

Inductive Call : Type :=
| Select (table : string)
| Insert (table : string)
| Update (table : string)
| Upsert (table : string)
| GetSession
| SignInAnonymously
| SignInWithPassword (email password : string)
| SignUp (email password : string)
| SignInWithOtp (email invite_code : string)
| SignOut
| Upload (bucket path : string)
| Subscribe (topic : string)
| RemoveChannel (id : nat).

(** Requests that change stored data. *)
Definition is_write (c : Call) : bool :=
  match c with
  | Insert _ | Update _ | Upsert _ | Upload _ _ => true
  | _ => false
  end.

(** [{ data: { user, session }, error }] of the identity calls; [user]
    is the resolved identity. *)
Module AuthResponse.
Record t : Type := {
  user : option string;
  error : option Error.t
}.
End AuthResponse.

(** A subscribed realtime channel. *)
Record Channel : Type := { channel_id : nat; topic : string }.

Record Database : Type := {
  invites : list InviteCode.t;
  profiles : list UserProfile.t;
  rsvps : list RSVP.t;
  chat_messages : list ChatMessage.t;
  photos : list Photo.t;
  theme_config : list ThemeConfig;
  event_config : list EventConfig
}.

Record Backend : Type := {
  db : Database;
  user_photos : list string;          (* object paths in the bucket *)
  channels : list Channel;            (* open subscriptions *)
  calls : list Call;                  (* most recent first *)
  (** Whether data requests reach the service.  When they do not, a
      request is still issued and logged, but it comes back with
      [data: null] and an error, and nothing is stored. *)
  reachable : bool;
  (** The identity service answers a request as a function of everything
      requested so far, the request itself being the head of the log. *)
  identity : list Call -> AuthResponse.t
}.

Definition set_invites (v : list InviteCode.t) (d : Database) : Database :=
  {| invites := v; profiles := profiles d; rsvps := rsvps d;
     chat_messages := chat_messages d; photos := photos d;
     theme_config := theme_config d; event_config := event_config d |}.

Definition set_profiles (v : list UserProfile.t) (d : Database) : Database :=
  {| invites := invites d; profiles := v; rsvps := rsvps d;
     chat_messages := chat_messages d; photos := photos d;
     theme_config := theme_config d; event_config := event_config d |}.

Definition set_rsvps (v : list RSVP.t) (d : Database) : Database :=
  {| invites := invites d; profiles := profiles d; rsvps := v;
     chat_messages := chat_messages d; photos := photos d;
     theme_config := theme_config d; event_config := event_config d |}.

Definition set_chat_messages (v : list ChatMessage.t) (d : Database)
  : Database :=
  {| invites := invites d; profiles := profiles d; rsvps := rsvps d;
     chat_messages := v; photos := photos d;
     theme_config := theme_config d; event_config := event_config d |}.

Definition set_photos (v : list Photo.t) (d : Database) : Database :=
  {| invites := invites d; profiles := profiles d; rsvps := rsvps d;
     chat_messages := chat_messages d; photos := v;
     theme_config := theme_config d; event_config := event_config d |}.

Definition set_db (v : Database) (b : Backend) : Backend :=
  {| db := v; user_photos := user_photos b; channels := channels b;
     calls := calls b; reachable := reachable b;
     identity := identity b |}.

Definition set_user_photos (v : list string) (b : Backend) : Backend :=
  {| db := db b; user_photos := v; channels := channels b;
     calls := calls b; reachable := reachable b;
     identity := identity b |}.

Definition set_channels (v : list Channel) (b : Backend) : Backend :=
  {| db := db b; user_photos := user_photos b; channels := v;
     calls := calls b; reachable := reachable b;
     identity := identity b |}.

Definition set_calls (v : list Call) (b : Backend) : Backend :=
  {| db := db b; user_photos := user_photos b; channels := channels b;
     calls := v; reachable := reachable b; identity := identity b |}.

(** [.single()]: the row when exactly one matches, [null] otherwise. *)
Definition single {A : Type} (rows : list A) : option A :=
  match rows with
  | [r] => Some r
  | _ => None
  end.

(** [.order(col, { ascending: false })] on a text column: insertion into
    a list kept in descending order. *)
Fixpoint insert_desc {A : Type} (col : A -> string) (x : A) (l : list A)
  : list A :=
  match l with
  | [] => [x]
  | y :: l' =>
      if String.ltb (col x) (col y) then y :: insert_desc col x l'
      else x :: l
  end.

Fixpoint order_desc {A : Type} (col : A -> string) (l : list A) : list A :=
  match l with
  | [] => []
  | x :: l' => insert_desc col x (order_desc col l')
  end.

(** [.like('code', `${prefix}%`)] for a prefix without wildcards. *)
Definition like_prefix (p : string) (i : InviteCode.t) : bool :=
  prefix p (InviteCode.code i).

(** Join of [profiles(...)] onto a row by its [user_id]. *)
Definition profile_of (d : Database) (uid : string)
  : option UserProfile.t :=
  find (fun p => String.eqb (UserProfile.user_id p) uid) (profiles d).

(** The invites table has a uniqueness constraint on [code]: an insert
    that would repeat a code, inside the batch or against a stored row,
    is rejected as a whole. *)
Fixpoint has_duplicate (l : list string) : bool :=
  match l with
  | [] => false
  | x :: l' => existsb (String.eqb x) l' || has_duplicate l'
  end.

Definition insert_invites (rows : list InviteCode.t) (d : Database)
  : option Error.t * Database :=
  if has_duplicate (map InviteCode.code (invites d ++ rows)%list)
  then (Some (Error.make
          "duplicate key value violates unique constraint"), d)
  else (None, set_invites (invites d ++ rows)%list d).

(** [update({ is_used: true, used_by }).eq('code', c)] *)
Definition mark_used (c uid : string) (i : InviteCode.t) : InviteCode.t :=
  if String.eqb (InviteCode.code i) c
  then {| InviteCode.code := InviteCode.code i;
          InviteCode.segment := InviteCode.segment i;
          InviteCode.is_used := true;
          InviteCode.used_by := Some uid |}
  else i.

(** [update({ table }).eq('user_id', uid)] *)
Definition assign_table (uid v : string) (p : UserProfile.t)
  : UserProfile.t :=
  if String.eqb (UserProfile.user_id p) uid
  then UserProfile.with_table v p else p.

(** [update({ status }).eq('id', n)] *)
Definition set_status (n : Z) (s : PhotoStatus.t) (p : Photo.t)
  : Photo.t :=
  if Z.eqb (Photo.id p) n then Photo.with_status s p else p.

(** [upsert(r)] on rsvps, keyed by the owner. *)
Definition upsert_rsvp (r : RSVP.t) (l : list RSVP.t) : list RSVP.t :=
  if existsb (fun x => String.eqb (RSVP.user_id x) (RSVP.user_id r)) l
  then map (fun x =>
              if String.eqb (RSVP.user_id x) (RSVP.user_id r)
              then r else x) l
  else (l ++ [r])%list.

(* ================================================================== *)
(** ** App.tsx: component state                                       *)
(* ================================================================== *)

Module View.
Inductive t : Type := AUTH | HOME | ADMIN | PROFILE_SETUP.
End View.

Module AuthMode.
Inductive t : Type := CODE | EMAIL_REQUIRED.
End AuthMode.

Inductive ToastType : Type := success | error_toast.

Record Toast : Type := { msg : string; toast_type : ToastType }.

(** The [useState] cells of [App], grouped as in the source. *)
Record GlobalState : Type := {
  user : option UserProfile.t;
  isAdmin : bool;
  loading : bool;
  view : View.t
}.

Record DataState : Type := {
  eventConfig : EventConfig;
  theme : ThemeConfig;
  rsvp : option RSVP.t;
  messages : list ChatMessage.t;
  publicPhotos : list Photo.t
}.

Record UIState : Type := {
  inviteCode : string;
  authError : string;
  toast : option Toast
}.

Record AuthFallbackState : Type := {
  authMode : AuthMode.t;
  email : string;
  password : string;
  magicLinkSent : bool
}.

Record AppState : Type := {
  global : GlobalState;
  data : DataState;
  ui : UIState;
  auth : AuthFallbackState
}.

(** A row of the admin guest list: a profile and the invite it used. *)
Record Guest : Type := {
  guest : UserProfile.t;
  invite : option InviteCode.t
}.

(** The [useState] cells of [AdminPanel]. *)
Record AdminPanelState : Type := {
  guests : list Guest;
  adminPhotos : list Photo.t;              (* [photos] *)
  genAmount : nat;
  genSegment : UserSegment.t;
  generating : bool
}.

(** Everything an action can read or change. *)
Record World : Type := {
  supabase : Backend;
  app : AppState;
  adminPanel : AdminPanelState;
  uploading : bool;                        (* PhotoUploadCard *)
  pending_invite_code : option string;     (* localStorage *)
  now : Z                                  (* [Date.now()] *)
}.

Definition with_supabase (f : Backend -> Backend) (w : World) : World :=
  {| supabase := f (supabase w); app := app w; adminPanel := adminPanel w;
     uploading := uploading w;
     pending_invite_code := pending_invite_code w; now := now w |}.

Definition with_app (f : AppState -> AppState) (w : World) : World :=
  {| supabase := supabase w; app := f (app w); adminPanel := adminPanel w;
     uploading := uploading w;
     pending_invite_code := pending_invite_code w; now := now w |}.

Definition with_adminPanel (f : AdminPanelState -> AdminPanelState)
  (w : World) : World :=
  {| supabase := supabase w; app := app w; adminPanel := f (adminPanel w);
     uploading := uploading w;
     pending_invite_code := pending_invite_code w; now := now w |}.

Definition with_uploading (v : bool) (w : World) : World :=
  {| supabase := supabase w; app := app w; adminPanel := adminPanel w;
     uploading := v;
     pending_invite_code := pending_invite_code w; now := now w |}.

Definition with_pending_invite_code (v : option string) (w : World)
  : World :=
  {| supabase := supabase w; app := app w; adminPanel := adminPanel w;
     uploading := uploading w; pending_invite_code := v; now := now w |}.

Definition with_global (f : GlobalState -> GlobalState) : World -> World :=
  with_app (fun a => {| global := f (global a); data := data a;
                        ui := ui a; auth := auth a |}).

Definition with_data (f : DataState -> DataState) : World -> World :=
  with_app (fun a => {| global := global a; data := f (data a);
                        ui := ui a; auth := auth a |}).

Definition with_ui (f : UIState -> UIState) : World -> World :=
  with_app (fun a => {| global := global a; data := data a;
                        ui := f (ui a); auth := auth a |}).

Definition with_auth (f : AuthFallbackState -> AuthFallbackState)
  : World -> World :=
  with_app (fun a => {| global := global a; data := data a;
                        ui := ui a; auth := f (auth a) |}).

(* ------------------------------------------------------------------ *)
(** *** Actions: state passing with exceptions                        *)
(* ------------------------------------------------------------------ *)

Inductive Outcome (A : Type) : Type :=
| Return (a : A)
| Throw (e : Error.t).

Arguments Return {A} a.
Arguments Throw {A} e.

Definition M (A : Type) : Type := World -> Outcome A * World.

Definition ret {A : Type} (a : A) : M A := fun w => (Return a, w).

Definition throw {A : Type} (e : Error.t) : M A := fun w => (Throw e, w).

Definition bind {A B : Type} (m : M A) (k : A -> M B) : M B :=
  fun w =>
    match m w with
    | (Return a, w') => k a w'
    | (Throw e, w') => (Throw e, w')
    end.

(** [try { m } catch (err) { h err }] *)
Definition try_catch {A : Type} (m : M A) (h : Error.t -> M A) : M A :=
  fun w =>
    match m w with
    | (Return a, w') => (Return a, w')
    | (Throw e, w') => h e w'
    end.

(** [try { m } finally { f }] *)
Definition try_finally {A : Type} (m : M A) (f : M unit) : M A :=
  fun w =>
    match m w with
    | (r, w') =>
        match f w' with
        | (Return _, w'') => (r, w'')
        | (Throw e, w'') => (Throw e, w'')
        end
    end.

Definition gets {A : Type} (f : World -> A) : M A := fun w => (Return (f w), w).

Definition modify (f : World -> World) : M unit := fun w => (Return tt, f w).

Declare Scope action_scope.
Delimit Scope action_scope with action.
Bind Scope action_scope with M.

Notation "x <- m ;; k" := (bind m (fun x => k))
  (at level 61, m at next level, right associativity) : action_scope.
Notation "m ;; k" := (bind m (fun _ => k))
  (at level 61, right associativity) : action_scope.

Open Scope action_scope.

(** The state after running an action, and what it returned. *)
Definition exec {A : Type} (m : M A) (w : World) : World := snd (m w).
Definition result {A : Type} (m : M A) (w : World) : Outcome A := fst (m w).

(** The requests an action issued, oldest first: what it added to the
    log. *)
Definition issued {A : Type} (m : M A) (w : World) : list Call :=
  List.rev (firstn (length (calls (supabase (exec m w)))
               - length (calls (supabase w)))
              (calls (supabase (exec m w)))).

(* ------------------------------------------------------------------ *)
(** *** The SDK client                                                *)
(* ------------------------------------------------------------------ *)

(** Every request goes through [request], which logs it. *)
Definition request (c : Call) : M unit :=
  modify (with_supabase (fun b => set_calls (c :: calls b) b)).

Definition database : M Database := gets (fun w => db (supabase w)).

Definition write (f : Database -> Database) : M unit :=
  modify (with_supabase (fun b => set_db (f (db b)) b)).

(** An identity request: logged, then answered by the service. *)
Definition auth_request (c : Call) : M AuthResponse.t :=
  request c ;;
  gets (fun w => identity (supabase w) (calls (supabase w))).

(** [supabase.channel(t).on(...).subscribe()]: opens a channel under a
    fresh handle. *)
Definition fresh_id (l : list Channel) : nat :=
  S (fold_right Nat.max 0 (map channel_id l)).

Definition subscribe (t : string) : M Channel :=
  request (Subscribe t) ;;
  l <- gets (fun w => channels (supabase w)) ;;
  let ch := {| channel_id := fresh_id l; topic := t |} in
  modify (with_supabase (set_channels (ch :: l))) ;;
  ret ch.

(** [supabase.removeChannel(ch)] *)
Definition removeChannel (ch : Channel) : M unit :=
  request (RemoveChannel (channel_id ch)) ;;
  modify (with_supabase (fun b =>
    set_channels
      (filter (fun c => negb (Nat.eqb (channel_id c) (channel_id ch)))
              (channels b)) b)).

Definition network_error : Error.t := Error.make "Failed to fetch".

(** A read: issues [c] and answers with [q] of the tables, or with
    [null] when the service is not reached. *)
Definition read {A : Type} (c : Call) (q : Database -> option A)
  : M (option A) :=
  request c ;;
  up <- gets (fun w => reachable (supabase w)) ;;
  if up then d <- database ;; ret (q d) else ret None.

(** A write: issues [c], applies [f] when the service is reached and
    answers with the error, if any. *)
Definition mutate (c : Call) (f : Database -> option Error.t * Database)
  : M (option Error.t) :=
  request c ;;
  up <- gets (fun w => reachable (supabase w)) ;;
  if up
  then err <- gets (fun w => fst (f (db (supabase w)))) ;;
       write (fun d => snd (f d)) ;;
       ret err
  else ret (Some network_error).

(** A write that the tables never reject. *)
Definition mutate_ok (c : Call) (f : Database -> Database)
  : M (option Error.t) :=
  mutate c (fun d => (None, f d)).

(** [supabase.storage.from(bucket).upload(path, file)]: an object that
    already exists is not overwritten. *)
Definition upload (bucket path : string) : M (option Error.t) :=
  request (Upload bucket path) ;;
  up <- gets (fun w => reachable (supabase w)) ;;
  if up
  then objs <- gets (fun w => user_photos (supabase w)) ;;
       if existsb (String.eqb path) objs
       then ret (Some (Error.make "The resource already exists"))
       else modify (with_supabase (set_user_photos (path :: objs))) ;;
            ret None
  else ret (Some network_error).

(* ------------------------------------------------------------------ *)
(** *** Constants and state setters                                   *)
(* ------------------------------------------------------------------ *)

Definition DEFAULT_THEME : ThemeConfig :=
  {| theme_id := 1;
     font_family := "Inter, sans-serif";
     color_bg := "#0f172a";
     color_card := "#1e293b";
     color_text := "#f8fafc";
     color_primary := "#ec4899";
     color_accent := "#8b5cf6";
     motion_level := "medium" |}.

Definition MOCK_EVENT_CONFIG : EventConfig :=
  {| event_id := 1;
     event_date := "2026-03-14T14:00:00-01:00";
     location_name := "Espacio de Eventos Mamá Lidia";
     location_address := "Roldán, Santa Fé, Argentina";
     location_maps_url := "https://maps.app.goo.gl/dqdYRr1XNrJgosyb7";
     time_young := "14:00";
     time_adult := "19:00";
     spotify_playlist_url := "https://open.spotify.com/";
     rules_young :=
       "Barra de tragos sin alcohol. Dress code: Semi-formal divertido.";
     rules_adult := "Recepción 19hs. Dress code: Elegante Sport.";
     dress_code_young := "Semi-formal";
     dress_code_adult := "Elegante Sport";
     checklist_young :=
       "Traé traje de baño para la Pool-party!, Ropa para la Noche!";
     welcome_message :=
       "¡Estás invitado a la mejor noche del año, Gemma 15!" |}.

(** The reserved sentinel code. *)
Definition ADMIN_SETUP : string := "ADMIN-SETUP".

(** The two validation failures, by the message they carry. *)
Definition InvalidCode : Error.t := Error.make "Código inválido".
Definition AlreadyUsed : Error.t :=
  Error.make "Este código ya fue activado. Ingresá con tu email.".

Definition setUser (v : option UserProfile.t) : M unit :=
  modify (with_global (fun g =>
    {| user := v; isAdmin := isAdmin g; loading := loading g;
       view := view g |})).

Definition setIsAdmin (v : bool) : M unit :=
  modify (with_global (fun g =>
    {| user := user g; isAdmin := v; loading := loading g;
       view := view g |})).

Definition setLoading (v : bool) : M unit :=
  modify (with_global (fun g =>
    {| user := user g; isAdmin := isAdmin g; loading := v;
       view := view g |})).

Definition setView (v : View.t) : M unit :=
  modify (with_global (fun g =>
    {| user := user g; isAdmin := isAdmin g;
       loading := loading g; view := v |})).

Definition setEventConfig (v : EventConfig) : M unit :=
  modify (with_data (fun d =>
    {| eventConfig := v; theme := theme d; rsvp := rsvp d;
       messages := messages d; publicPhotos := publicPhotos d |})).

Definition setTheme (v : ThemeConfig) : M unit :=
  modify (with_data (fun d =>
    {| eventConfig := eventConfig d; theme := v; rsvp := rsvp d;
       messages := messages d; publicPhotos := publicPhotos d |})).

Definition setRsvp (v : option RSVP.t) : M unit :=
  modify (with_data (fun d =>
    {| eventConfig := eventConfig d; theme := theme d; rsvp := v;
       messages := messages d; publicPhotos := publicPhotos d |})).

Definition setMessages (f : list ChatMessage.t -> list ChatMessage.t)
  : M unit :=
  modify (with_data (fun d =>
    {| eventConfig := eventConfig d; theme := theme d; rsvp := rsvp d;
       messages := f (messages d); publicPhotos := publicPhotos d |})).

Definition setPublicPhotos (v : list Photo.t) : M unit :=
  modify (with_data (fun d =>
    {| eventConfig := eventConfig d; theme := theme d; rsvp := rsvp d;
       messages := messages d; publicPhotos := v |})).

Definition setInviteCode (v : string) : M unit :=
  modify (with_ui (fun u =>
    {| inviteCode := v; authError := authError u; toast := toast u |})).

Definition setAuthError (v : string) : M unit :=
  modify (with_ui (fun u =>
    {| inviteCode := inviteCode u; authError := v; toast := toast u |})).

Definition setToast (v : option Toast) : M unit :=
  modify (with_ui (fun u =>
    {| inviteCode := inviteCode u; authError := authError u;
       toast := v |})).

Definition setAuthMode (v : AuthMode.t) : M unit :=
  modify (with_auth (fun a =>
    {| authMode := v; email := email a; password := password a;
       magicLinkSent := magicLinkSent a |})).

Definition setEmail (v : string) : M unit :=
  modify (with_auth (fun a =>
    {| authMode := authMode a; email := v; password := password a;
       magicLinkSent := magicLinkSent a |})).

Definition setPassword (v : string) : M unit :=
  modify (with_auth (fun a =>
    {| authMode := authMode a; email := email a; password := v;
       magicLinkSent := magicLinkSent a |})).

Definition setMagicLinkSent (v : bool) : M unit :=
  modify (with_auth (fun a =>
    {| authMode := authMode a; email := email a; password := password a;
       magicLinkSent := v |})).

Definition setGuests (f : list Guest -> list Guest) : M unit :=
  modify (with_adminPanel (fun p =>
    {| guests := f (guests p); adminPhotos := adminPhotos p;
       genAmount := genAmount p; genSegment := genSegment p;
       generating := generating p |})).

Definition setPhotos (v : list Photo.t) : M unit :=
  modify (with_adminPanel (fun p =>
    {| guests := guests p; adminPhotos := v;
       genAmount := genAmount p; genSegment := genSegment p;
       generating := generating p |})).

Definition setGenerating (v : bool) : M unit :=
  modify (with_adminPanel (fun p =>
    {| guests := guests p; adminPhotos := adminPhotos p;
       genAmount := genAmount p; genSegment := genSegment p;
       generating := v |})).

Definition setUploading (v : bool) : M unit :=
  modify (with_uploading v).

(** [showToast(msg, type)]; the timer that clears the toast three
    seconds later is not part of the action. *)
Definition showToast (m : string) (t : ToastType) : M unit :=
  setToast (Some {| msg := m; toast_type := t |}).

(** [x || d] on strings. *)
Definition or_else (x d : string) : string :=
  match x with
  | EmptyString => d
  | _ => x
  end.

Definition when (b : bool) (m : M unit) : M unit :=
  if b then m else ret tt.

(* ================================================================== *)
(** ** App.tsx: actions                                               *)
(* ================================================================== *)

(** Asynchronous continuations are run to completion in program order;
    rendering, timers and the delivery of realtime events to the
    subscription callbacks are outside the model. *)

Section App.

(** The gate of [supabaseClient], fixed when the module is loaded. *)
Variable isMockMode : bool.

(** [new Date(ms).toISOString()] *)
Variable toISOString : Z -> string.

(** The invite the code builds without consulting the table. *)
Definition virtual_invite (code : string) (s : UserSegment.t)
  : InviteCode.t :=
  {| InviteCode.code := code; InviteCode.segment := s;
     InviteCode.is_used := false; InviteCode.used_by := None |}.

(** [validateCode] (App.tsx, lines 232-243) *)
Definition validateCode (code : string) : M (option InviteCode.t) :=
  if isMockMode then
    if String.eqb code "ADMIN-SETUP"
    then ret (Some (virtual_invite code UserSegment.ADMIN))
    else ret (Some (virtual_invite code UserSegment.YOUNG))
  else if String.eqb code "ADMIN-SETUP"
  then ret (Some (virtual_invite code UserSegment.ADMIN))
  else
    invite <- read (Select "invites")
                (fun d => single (filter
                   (fun i => String.eqb (InviteCode.code i) code)
                   (invites d))) ;;
    match invite with
    | None => throw InvalidCode
    | Some i =>
        if InviteCode.is_used i then throw AlreadyUsed
        else ret (Some i)
    end.

(** The welcome message of the offline demo. *)
Definition bot_message (t : Z) : ChatMessage.t :=
  {| ChatMessage.id := 1;
     ChatMessage.user_id := "system";
     ChatMessage.text := "¡Bienvenid@s a la demo offline!";
     ChatMessage.created_at := toISOString t;
     ChatMessage.profiles := Some
       {| UserProfile.user_id := "bot";
          UserProfile.name := "Bot";
          UserProfile.segment := UserSegment.ADULT;
          UserProfile.is_celiac := false;
          UserProfile.avatar_url := None;
          UserProfile.created_at := "";
          UserProfile.table := None;
          UserProfile.rsvp_status := None;
          UserProfile.rsvp_updated_at := None |} |}.

(** [loadUserData] (lines 190-218) *)
Definition loadUserData (userId : string) : M unit :=
  if isMockMode then
    t <- gets now ;;
    setMessages (fun _ => [bot_message t])
  else
    rsvpData <- read (Select "rsvps")
                  (fun d => single (filter
                     (fun r => String.eqb (RSVP.user_id r) userId)
                     (rsvps d))) ;;
    match rsvpData with
    | Some r => setRsvp (Some r)
    | None => ret tt
    end ;;
    chatData <- read (Select "chat_messages")
                  (fun d => Some (firstn 50
                     (order_desc ChatMessage.created_at
                        (map (fun m => ChatMessage.with_profiles
                                (profile_of d (ChatMessage.user_id m)) m)
                             (chat_messages d))))) ;;
    match chatData with
    | Some l => setMessages (fun _ => List.rev l)
    | None => ret tt
    end ;;
    photosData <- read (Select "photos")
                    (fun d => Some
                       (order_desc Photo.created_at
                          (map (fun p => Photo.with_profiles
                                  (profile_of d (Photo.user_id p)) p)
                               (filter (fun p =>
                                  PhotoStatus.is_approved (Photo.status p))
                                  (photos d))))) ;;
    match photosData with
    | Some l => setPublicPhotos l
    | None => ret tt
    end ;;
    _ <- subscribe "public:chat_messages" ;;
    ret tt.

(** [loginUser] (lines 177-188) *)
Definition loginUser (profile : UserProfile.t) : M unit :=
  setUser (Some profile) ;;
  if (match UserProfile.name profile with
      | EmptyString => true
      | n => prefix "Invitado " n
      end)
     && negb (UserSegment.eqb (UserProfile.segment profile)
                UserSegment.ADMIN)
  then setView View.PROFILE_SETUP
  else
    when (UserSegment.eqb (UserProfile.segment profile)
            UserSegment.ADMIN)
         (setIsAdmin true) ;;
    setView View.HOME ;;
    loadUserData (UserProfile.user_id profile).

(** [handleLogout] (lines 221-230) *)
Definition handleLogout : M unit :=
  (if isMockMode then ret tt
   else _ <- auth_request SignOut ;; ret tt) ;;
  setUser None ;;
  setIsAdmin false ;;
  setInviteCode "" ;;
  setEmail "" ;;
  setPassword "" ;;
  setView View.AUTH ;;
  setAuthMode AuthMode.CODE.

(** [handleAuth] (lines 245-262): the button of the code form. *)
Definition handleAuth : M unit :=
  inviteCode <- gets (fun w => inviteCode (ui (app w))) ;;
  match inviteCode with
  | EmptyString => setAuthError "Ingresá tu código"
  | _ =>
      setLoading true ;;
      setAuthError "" ;;
      try_catch
        (let code := Js.toUpperCase inviteCode in
         invite <- validateCode code ;;
         match invite with
         | None => throw (Error.make "Error validando código")
         | Some _ =>
             setAuthMode AuthMode.EMAIL_REQUIRED ;;
             setLoading false
         end)
        (fun err =>
           setAuthError (or_else (Error.message err) "Error de conexión") ;;
           setLoading false)
  end.

(** [createProfileAndEnter] (lines 312-338) *)
Definition createProfileAndEnter (userId : string) (invite : InviteCode.t)
  : M unit :=
  let isAdminLogin :=
    UserSegment.eqb (InviteCode.segment invite) UserSegment.ADMIN in
  t <- gets now ;;
  let newProfile :=
    {| UserProfile.user_id := userId;
       UserProfile.name := if isAdminLogin then "Administrador" else "";
       UserProfile.segment := InviteCode.segment invite;
       UserProfile.is_celiac := false;
       UserProfile.avatar_url := None;
       UserProfile.created_at := toISOString t;
       UserProfile.table := None;
       UserProfile.rsvp_status := None;
       UserProfile.rsvp_updated_at := None |} in
  existing <-
    (if isMockMode then ret None
     else
       existing <- read (Select "profiles")
                     (fun d => single (filter
                        (fun p => String.eqb (UserProfile.user_id p) userId)
                        (profiles d))) ;;
       match existing with
       | Some _ => ret tt
       | None =>
           _ <- mutate_ok (Insert "profiles")
                  (fun d => set_profiles (profiles d ++ [newProfile])%list d) ;;
           if negb isAdminLogin
              && negb (String.eqb (InviteCode.code invite) "ADMIN-SETUP")
           then
             _ <- mutate_ok (Update "invites")
                    (fun d => set_invites
                       (map (mark_used (InviteCode.code invite) userId)
                            (invites d)) d) ;;
             ret tt
           else ret tt
       end ;;
       ret existing) ;;
  loginUser (match existing with Some p => p | None => newProfile end) ;;
  setLoading false.

(** [handleEmailAuth] (lines 264-310): the button of the e-mail form. *)
Definition handleEmailAuth : M unit :=
  email <- gets (fun w => email (auth (app w))) ;;
  password <- gets (fun w => password (auth (app w))) ;;
  inviteCode <- gets (fun w => inviteCode (ui (app w))) ;;
  match email with
  | EmptyString => setAuthError "Ingresá tu email"
  | _ =>
      setLoading true ;;
      setAuthError "" ;;
      try_catch
        (let code := Js.toUpperCase inviteCode in
         invite <- validateCode code ;;
         match invite with
         | None => throw (Error.make "Código inválido")
         | Some invite =>
             if String.eqb (InviteCode.code invite) "ADMIN-SETUP" then
               match password with
               | EmptyString =>
                   setAuthError "Ingresá una contraseña" ;;
                   setLoading false
               | _ =>
                   r <- auth_request (SignInWithPassword email password) ;;
                   match AuthResponse.error r with
                   | Some err =>
                       if Js.includes "Invalid login" (Error.message err)
                       then
                         up <- auth_request (SignUp email password) ;;
                         match AuthResponse.error up with
                         | Some upError => throw upError
                         | None =>
                             match AuthResponse.user up with
                             | Some uid => createProfileAndEnter uid invite
                             | None =>
                                 throw (Error.make "Verificá tu email.")
                             end
                         end
                       else throw err
                   | None =>
                       match AuthResponse.user r with
                       | Some uid => createProfileAndEnter uid invite
                       | None => ret tt
                       end
                   end
               end
             else
               r <- auth_request (SignInWithOtp email code) ;;
               match AuthResponse.error r with
               | Some err => throw err
               | None =>
                   modify (with_pending_invite_code (Some code)) ;;
                   setMagicLinkSent true ;;
                   setLoading false
               end
         end)
        (fun err =>
           setAuthError (or_else (Error.message err) "Error") ;;
           setLoading false)
  end.

(** [initApp] (lines 113-146) *)
Definition initApp : M unit :=
  (if isMockMode then
     setTheme DEFAULT_THEME ;;
     setEventConfig MOCK_EVENT_CONFIG
   else
     themeRes <- read (Select "theme_config")
                   (fun d => single (theme_config d)) ;;
     eventRes <- read (Select "event_config")
                   (fun d => single (event_config d)) ;;
     match themeRes with Some t => setTheme t | None => ret tt end ;;
     match eventRes with Some e => setEventConfig e | None => ret tt end) ;;
  (if negb isMockMode then
     session <- auth_request GetSession ;;
     match AuthResponse.user session with
     | Some uid =>
         profile <- read (Select "profiles")
                      (fun d => single (filter
                         (fun p => String.eqb (UserProfile.user_id p) uid)
                         (profiles d))) ;;
         match profile with
         | Some p => loginUser p
         | None => ret tt
         end
     | None => ret tt
     end
   else ret tt) ;;
  setLoading false.

(** The mount effect (lines 112-158): [initApp()], then the theme
    subscription; the value is what the cleanup closure holds. *)
Definition mount : M (option Channel) :=
  initApp ;;
  if negb isMockMode then
    channel <- subscribe "public:theme_config" ;;
    ret (Some channel)
  else ret None.

(** The effect's cleanup, run when [App] unmounts. *)
Definition unmount (cleanup : option Channel) : M unit :=
  match cleanup with
  | Some channel => removeChannel channel
  | None => ret tt
  end.

End App.

(* ------------------------------------------------------------------ *)
(** *** AdminPanel and the feature cards                              *)
(* ------------------------------------------------------------------ *)

(** The invite rows [batchGenerate] builds in its loop. *)
Definition newInvites (prefix : string) (startNum : Js.number)
  (genSegment : UserSegment.t) (genAmount : nat) : list InviteCode.t :=
  map (fun i =>
         let currentNum := Js.add startNum (Js.Num (Z.of_nat i)) in
         let paddedNum := Js.padStart 2 "0" (Js.toString currentNum) in
         let code := prefix ++ paddedNum in
         {| InviteCode.code := code;
            InviteCode.segment := genSegment;
            InviteCode.is_used := false;
            InviteCode.used_by := None |})
      (seq 0 genAmount).

(** The query for the last code of a prefix: [like], [order] descending,
    [limit(1)], [single()]. *)
Definition lastInvite (prefix : string) (d : Database)
  : option InviteCode.t :=
  single (firstn 1 (order_desc InviteCode.code
                      (filter (like_prefix prefix) (invites d)))).

(** The storage path [handleUpload] builds for a file name. *)
Definition storagePath (user_id : string) (timestamp : Z) (name : string)
  : string :=
  let fileExt := Js.pop (Js.split "." name) in
  let cleanName := Js.replace_non_alnum "_" name in
  user_id ++ "/" ++ Js.toString (Js.Num timestamp) ++ "_" ++ cleanName
          ++ "." ++ Js.interpolate fileExt.

Section Panels.

Variable isMockMode : bool.
Variable toISOString : Z -> string.

(** The prefix of a segment's codes. *)
Definition prefix_of (genSegment : UserSegment.t) : string :=
  if UserSegment.eqb genSegment UserSegment.YOUNG
  then "G15-J" else "G15-A".

(** [batchGenerate] (lines 445-492) *)
Definition batchGenerate : M unit :=
  setGenerating true ;;
  genSegment <- gets (fun w => genSegment (adminPanel w)) ;;
  genAmount <- gets (fun w => genAmount (adminPanel w)) ;;
  let prefix := prefix_of genSegment in
  startNum <-
    (if negb isMockMode then
       last <- read (Select "invites") (lastInvite prefix) ;;
       match last with
       | Some i =>
           let numPart := Js.replace prefix "" (InviteCode.code i) in
           ret (Js.add (Js.parseInt numPart) (Js.Num 1))
       | None => ret (Js.Num 1)
       end
     else ret (Js.Num 1)) ;;
  let rows := newInvites prefix startNum genSegment genAmount in
  let amount := Js.toString (Js.Num (Z.of_nat genAmount)) in
  (if negb isMockMode then
     err <- mutate (Insert "invites") (insert_invites rows) ;;
     match err with
     | Some e =>
         showToast ("Error generando: " ++ Error.message e) error_toast
     | None =>
         showToast ("Generados " ++ amount ++ " códigos (" ++ prefix
                      ++ "...)") success
     end
   else showToast ("Simulado: " ++ amount ++ " códigos") success) ;;
  setGenerating false.

(** [updateTable] (lines 494-504) *)
Definition updateTable (userId newTable : string) : M unit :=
  match userId with
  | EmptyString => ret tt
  | _ =>
      err <- mutate_ok (Update "profiles")
               (fun d => set_profiles
                  (map (assign_table userId newTable) (profiles d)) d) ;;
      match err with
      | None =>
          showToast "Mesa actualizada" success ;;
          setGuests (map (fun g =>
            if String.eqb (UserProfile.user_id (guest g)) userId
            then {| guest := UserProfile.with_table newTable (guest g);
                    invite := invite g |}
            else g))
      | Some _ => showToast "Error al actualizar" error_toast
      end
  end.

(** [fetchPhotos] (lines 440-443) *)
Definition fetchPhotos : M unit :=
  rows <- read (Select "photos")
            (fun d => Some
               (order_desc Photo.created_at
                  (map (fun p => Photo.with_profiles
                          (profile_of d (Photo.user_id p)) p)
                       (photos d)))) ;;
  match rows with
  | Some l => setPhotos l
  | None => ret tt
  end.

(** [moderatePhoto] (lines 527-530) *)
Definition moderatePhoto (photoId : Z) (status : PhotoStatus.t)
  : M unit :=
  _ <- mutate_ok (Update "photos")
         (fun d => set_photos (map (set_status photoId status) (photos d)) d) ;;
  fetchPhotos.

(** [RSVPCard.updateRsvp] *)
Definition updateRsvp (status : RsvpStatus.t) : M unit :=
  user <- gets (fun w => user (global (app w))) ;;
  match user with
  | None => ret tt
  | Some u =>
      t <- gets now ;;
      let newRsvp :=
        {| RSVP.user_id := UserProfile.user_id u; RSVP.status := status;
           RSVP.note := None; RSVP.updated_at := toISOString t |} in
      setRsvp (Some newRsvp) ;;
      if negb isMockMode then
        err <- mutate_ok (Upsert "rsvps")
                 (fun d => set_rsvps (upsert_rsvp newRsvp (rsvps d)) d) ;;
        match err with
        | Some _ =>
            showToast "Error de red: No se pudo guardar" error_toast
        | None => showToast "Asistencia actualizada" success
        end
      else ret tt
  end.

(** [user!.user_id]: a [TypeError] when there is no user. *)
Definition the_user_id : M string :=
  user <- gets (fun w => user (global (app w))) ;;
  match user with
  | Some u => ret (UserProfile.user_id u)
  | None => throw (Error.make
              "Cannot read properties of null (reading 'user_id')")
  end.

(** The row the table stores for an inserted photo: the key and the
    creation time are filled in by the table. *)
Definition new_photo (d : Database) (t : Z) (uid path : string)
  : Photo.t :=
  {| Photo.id := Z.of_nat (List.length (photos d)) + 1;
     Photo.user_id := uid;
     Photo.storage_path := path;
     Photo.status := PhotoStatus.PENDING;
     Photo.is_featured := false;
     Photo.created_at := toISOString t;
     Photo.profiles := None |}.

(** [PhotoUploadCard.handleUpload]; [file] is the name of the first
    selected file, if any.  In mock mode the timer's callback is run
    at once. *)
Definition handleUpload (file : option string) : M unit :=
  match file with
  | None => ret tt
  | Some name =>
      setUploading true ;;
      if isMockMode then
        setUploading false ;;
        showToast "Foto subida (Modo Demo)" success
      else
        try_finally
          (try_catch
             (uid <- the_user_id ;;
              t <- gets now ;;
              let fileName := storagePath uid t name in
              uploadError <- upload "user_photos" fileName ;;
              match uploadError with
              | Some e => throw e
              | None =>
                  dbError <- mutate_ok (Insert "photos")
                               (fun d => set_photos
                                  (photos d ++
                                   [new_photo d t uid fileName])%list
                                  d) ;;
                  match dbError with
                  | Some e => throw e
                  | None =>
                      showToast "¡Foto enviada! El admin la revisará."
                        success
                  end
              end)
             (fun e => showToast ("Error: " ++ Error.message e)
                         error_toast))
          (setUploading false)
  end.

(** [ChatCard.sendMessage]; [text] is the card's input. *)
Definition sendMessage (text : string) : M unit :=
  match Js.trimStart text with
  | EmptyString => ret tt
  | _ =>
      if isMockMode then
        user <- gets (fun w => user (global (app w))) ;;
        match user with
        | None => throw (Error.make
                    "Cannot read properties of null (reading 'user_id')")
        | Some u =>
            t <- gets now ;;
            setMessages (fun prev => (prev ++
              [{| ChatMessage.id := t;
                  ChatMessage.user_id := UserProfile.user_id u;
                  ChatMessage.text := text;
                  ChatMessage.created_at := toISOString t;
                  ChatMessage.profiles := Some u |}])%list)
        end
      else
        uid <- the_user_id ;;
        t <- gets now ;;
        _ <- mutate_ok (Insert "chat_messages")
               (fun d => set_chat_messages
                  (chat_messages d ++
                   [{| ChatMessage.id :=
                         Z.of_nat (List.length (chat_messages d)) + 1;
                       ChatMessage.user_id := uid;
                       ChatMessage.text := text;
                       ChatMessage.created_at := toISOString t;
                       ChatMessage.profiles := None |}])%list d) ;;
        ret tt
  end.

End Panels.

(* ================================================================== *)
(** ** The earlier revision of App.tsx                                *)
(* ================================================================== *)

Module Earlier.
Section Earlier.

Variable isMockMode : bool.

(** The revision's message for a used code. *)
Definition AlreadyUsed : Error.t := Error.make "Este código ya fue usado".

(** [validateCode] of the revision: the same but for that message. *)
Definition validateCode (code : string) : M (option InviteCode.t) :=
  if isMockMode then
    if String.eqb code "ADMIN-SETUP"
    then ret (Some (virtual_invite code UserSegment.ADMIN))
    else ret (Some (virtual_invite code UserSegment.YOUNG))
  else if String.eqb code "ADMIN-SETUP"
  then ret (Some (virtual_invite code UserSegment.ADMIN))
  else
    invite <- read (Select "invites")
                (fun d => single (filter
                   (fun i => String.eqb (InviteCode.code i) code)
                   (invites d))) ;;
    match invite with
    | None => throw InvalidCode
    | Some i =>
        if InviteCode.is_used i then throw AlreadyUsed
        else ret (Some i)
    end.

(** The revision's own [createProfileAndEnter], which [handleAuth]
    calls once an identity is resolved; [handleAuth] is embedded over
    any such continuation. *)
Variable createProfileAndEnter : string -> InviteCode.t -> M unit.

(** [authErr.message?.includes('Anonymous sign-ins are disabled')
     || authErr.code === 'not_allowed'] *)
Definition anonymous_disabled (authErr : Error.t) : bool :=
  Js.includes "Anonymous sign-ins are disabled" (Error.message authErr)
  || match Error.code authErr with
     | Some c => String.eqb c "not_allowed"
     | None => false
     end.

(** [handleAuth] of the revision: validation, then an anonymous
    session, with the e-mail form as the fallback. *)
Definition handleAuth : M unit :=
  inviteCode <- gets (fun w => inviteCode (ui (app w))) ;;
  match inviteCode with
  | EmptyString => setAuthError "Ingresá tu código"
  | _ =>
      setLoading true ;;
      setAuthError "" ;;
      try_catch
        (let code := Js.toUpperCase inviteCode in
         invite <- validateCode code ;;
         match invite with
         | None => throw (Error.make "Error validando código")
         | Some invite =>
             if negb isMockMode then
               r <- auth_request SignInAnonymously ;;
               match AuthResponse.error r with
               | Some authErr =>
                   if anonymous_disabled authErr then
                     setAuthMode AuthMode.EMAIL_REQUIRED ;;
                     setLoading false
                   else throw authErr
               | None =>
                   createProfileAndEnter
                     (match AuthResponse.user r with Some uid => uid | None => "" end)
                     invite
               end
             else
               t <- gets now ;;
               createProfileAndEnter
                 ("mock-user-" ++ Js.toString (Js.Num t)) invite
         end)
        (fun err =>
           setAuthError (or_else (Error.message err) "Error de conexión") ;;
           setLoading false)
  end.

End Earlier.
End Earlier.

(* ================================================================== *)
(** ** Initial states                                                 *)
(* ================================================================== *)

(** The initial values of the [useState] cells. *)
Definition initialApp : AppState :=
  {| global := {| user := None; isAdmin := false; loading := true;
                  view := View.AUTH |};
     data := {| eventConfig := MOCK_EVENT_CONFIG; theme := DEFAULT_THEME;
                rsvp := None; messages := []; publicPhotos := [] |};
     ui := {| inviteCode := ""; authError := ""; toast := None |};
     auth := {| authMode := AuthMode.CODE; email := ""; password := "";
                magicLinkSent := false |} |}.

Definition initialAdminPanel : AdminPanelState :=
  {| guests := []; adminPhotos := []; genAmount := 10;
     genSegment := UserSegment.YOUNG; generating := false |}.

(** A freshly loaded page in front of backend [b] at time [t]. *)
Definition page (b : Backend) (t : Z) : World :=
  {| supabase := b; app := initialApp; adminPanel := initialAdminPanel;
     uploading := false; pending_invite_code := None; now := t |}.

(** A backend holding the given invites and nothing else, whose
    identity service answers every request with [r]. *)
Definition backend_with (rows : list InviteCode.t) (r : AuthResponse.t)
  : Backend :=
  {| db := {| invites := rows; profiles := []; rsvps := [];
              chat_messages := []; photos := []; theme_config := [];
              event_config := [] |};
     user_photos := []; channels := []; calls := []; reachable := true;
     identity := fun _ => r |}.

(** The form fields as the user fills them in. *)
Definition typing (code mail pass : string) (w : World) : World :=
  with_auth (fun a => {| authMode := authMode a; email := mail;
                         password := pass;
                         magicLinkSent := magicLinkSent a |})
    (with_ui (fun u => {| inviteCode := Js.toUpperCase code;
                          authError := authError u; toast := toast u |}) w).

(** The admin's choice in the generation form. *)
Definition choosing (s : UserSegment.t) (n : nat) (w : World) : World :=
  with_adminPanel (fun p =>
    {| guests := guests p; adminPhotos := adminPhotos p; genAmount := n;
       genSegment := s; generating := generating p |}) w.

(** An unused invite row. *)
Definition unused (c : string) (s : UserSegment.t) : InviteCode.t :=
  virtual_invite c s.

(* ================================================================== *)
(** ** Vocabulary of the properties                                   *)
(* ================================================================== *)

(** Whether character [c] occurs in [s]. *)
Fixpoint has_char (c : ascii) (s : string) : bool :=
  match s with
  | EmptyString => false
  | String x s' => Ascii.eqb x c || has_char c s'
  end.

(** Every character of [s] satisfies [p]. *)
Fixpoint all_chars (p : ascii -> bool) (s : string) : bool :=
  match s with
  | EmptyString => true
  | String x s' => p x && all_chars p s'
  end.

(** The mock gate as the specification words it: a value is absent, or
    a value equals one of the known placeholder strings. *)
Definition known_placeholders : list string :=
  ["https://placeholder.supabase.co"; "placeholder-key"].

Definition equals_placeholder (v : option string) : bool :=
  match v with
  | Some s => existsb (String.eqb s) known_placeholders
  | None => false
  end.

Definition absent (v : option string) : bool :=
  match v with
  | Some _ => false
  | None => true
  end.

Definition mock_as_specified (env : option supabaseClient.Env) : bool :=
  absent (supabaseClient.url env) || absent (supabaseClient.key env)
  || equals_placeholder (supabaseClient.url env)
  || equals_placeholder (supabaseClient.key env).

(** An action keeps an observation [q] of the backend when [q] reads
    the same before and after it, however the action ends. *)
Definition keeps {A B : Type} (q : Backend -> B) (m : M A) : Prop :=
  forall w, q (supabase (exec m w)) = q (supabase w).

(** What is stored: the tables and the bucket. *)
Definition stored (b : Backend) : Database * list string :=
  (db b, user_photos b).

(** An observation that does not depend on the request log. *)
Definition ignores_log {B : Type} (q : Backend -> B) : Prop :=
  forall l b, q (set_calls l b) = q b.

(** An observation that does not depend on the open channels. *)
Definition ignores_channels {B : Type} (q : Backend -> B) : Prop :=
  forall l b, q (set_channels l b) = q b.

(** A change to the tables that an observation does not see. *)
Definition unseen {B : Type} (q : Backend -> B) (f : Database -> Database)
  : Prop :=
  forall b, q (set_db (f (db b)) b) = q b.

(** The invites table as the backend holds it. *)
Definition invites_of (b : Backend) : list InviteCode.t := invites (db b).

(** One redemption of a code through the two forms: the code form,
    then, when it leads there, the e-mail form; optionally followed by a
    logout. *)
Record Attempt : Type := {
  typed_email : string;
  typed_password : string;
  then_logout : bool
}.

Definition redeem (isMockMode : bool) (toISOString : Z -> string)
  (code : string) (a : Attempt) (w : World) : World :=
  let w1 := exec (handleAuth isMockMode)
              (typing code (typed_email a) (typed_password a) w) in
  let w2 :=
    match authMode (auth (app w1)) with
    | AuthMode.EMAIL_REQUIRED =>
        exec (handleEmailAuth isMockMode toISOString) w1
    | AuthMode.CODE => w1
    end in
  if then_logout a then exec (handleLogout isMockMode) w2 else w2.

(** The same code redeemed over and over. *)
Definition redeem_many (isMockMode : bool) (toISOString : Z -> string)
  (code : string) (l : list Attempt) (w : World) : World :=
  fold_left (fun w a => redeem isMockMode toISOString code a w) l w.

(** The state after request [c] went out. *)
Definition logged (c : Call) (w : World) : World :=
  with_supabase (fun b => set_calls (c :: calls b) b) w.

(** An action that writes nothing: what is stored is the same afterwards
    and none of the requests it issued is a write. *)
Definition writes_nothing {A : Type} (m : M A) (w : World) : Prop :=
  stored (supabase (exec m w)) = stored (supabase w)
  /\ Forall (fun c => is_write c = false) (issued m w).

(** The rows of the invites table carrying a code. *)
Definition rows_with (code : string) (b : Backend) : list InviteCode.t :=
  filter (fun i => String.eqb (InviteCode.code i) code) (invites (db b)).

(* ------------------------------------------------------------------ *)
(** *** Example states                                                *)
(* ------------------------------------------------------------------ *)

(** A small guest list: one unused code per segment, one used code. *)
Definition guest_list : list InviteCode.t :=
  [ unused "G15-J01" UserSegment.YOUNG;
    {| InviteCode.code := "G15-J02";
       InviteCode.segment := UserSegment.YOUNG;
       InviteCode.is_used := true;
       InviteCode.used_by := Some "u-17" |};
    unused "G15-A01" UserSegment.ADULT ].

(** An identity service that accepts every request, anonymous sign-in
    included, as user [u-42]. *)
Definition accepting : AuthResponse.t :=
  {| AuthResponse.user := Some "u-42"; AuthResponse.error := None |}.

Definition demo_backend : Backend := backend_with guest_list accepting.

Definition demo_clock : Z -> string := fun _ => "2026-03-14T17:00:00.000Z".

(** A guest in front of the login form, having typed a code and an
    e-mail address. *)
Definition guest_typing (code : string) : World :=
  typing code "guest@example.com" "" (page demo_backend 1773507600000).

(** An action that always returns: no exception escapes it. *)
Definition returns {A : Type} (m : M A) : Prop :=
  forall w, exists a, result m w = Return a.

(** A session of the administrator: the page is loaded and mounted
    online, the administrator enters through the sentinel code and is
    taken home, then logs out. *)
Definition admin_attempt : Attempt :=
  {| typed_email := "admin@example.com"; typed_password := "secret";
     then_logout := false |}.

Definition mounted : World :=
  exec (mount false demo_clock) (page demo_backend 1773507600000).

Definition logged_in : World :=
  redeem false demo_clock "admin-setup" admin_attempt mounted.

Definition logged_out : World := exec (handleLogout false) logged_in.

Definition theme_topic : string := "public:theme_config".
Definition chat_topic : string := "public:chat_messages".

(** The environment holding the two values. *)
Definition env_of (u k : option string) : option supabaseClient.Env :=
  Some {| supabaseClient.VITE_SUPABASE_URL := u;
          supabaseClient.VITE_SUPABASE_ANON_KEY := k |}.

(** [m] is a row whose column value no row of [l] exceeds. *)
Definition tops {A : Type} (col : A -> string) (m : A) (l : list A) : Prop :=
  forall y, In y l -> String.ltb (col m) (col y) = false.

(** The codes [first .. first + count - 1] of a prefix, as unused rows
    of a segment. *)
Definition unused_rows (s : UserSegment.t) (codes : list string)
  : list InviteCode.t :=
  map (fun c => unused c s) codes.



(** The code of number [k] under a prefix, as generation prints it. *)
Definition code_of (p : string) (k : nat) : string :=
  p ++ Js.padStart 2 "0" (Js.toString (Js.Num (Z.of_nat k))).

(* ================================================================== *)
(** ** More of App.tsx: profile setup, guest list, callbacks          *)
(* ================================================================== *)

Module JsArray.
(** [arr.join(sep)] on an array of strings. *)
Fixpoint join (sep : string) (l : list string) : string :=
  match l with
  | [] => EmptyString
  | x :: l' =>
      match l' with
      | [] => x
      | _ :: _ => x ++ sep ++ join sep l'
      end
  end.
End JsArray.

(** The [useState] cells of [ProfileSetup]; the form's handler takes
    them in and hands them back. *)
Module ProfileSetup.
Record state : Type := {
  name : string;
  isCeliac : bool;
  saving : bool
}.

Definition setSaving (v : bool) (s : state) : state :=
  {| name := name s; isCeliac := isCeliac s; saving := v |}.
End ProfileSetup.

(** [{ ...user, name, is_celiac: isCeliac }] *)
Definition renamed (n : string) (celiac : bool) (p : UserProfile.t)
  : UserProfile.t :=
  {| UserProfile.user_id := UserProfile.user_id p;
     UserProfile.name := n;
     UserProfile.segment := UserProfile.segment p;
     UserProfile.is_celiac := celiac;
     UserProfile.avatar_url := UserProfile.avatar_url p;
     UserProfile.created_at := UserProfile.created_at p;
     UserProfile.table := UserProfile.table p;
     UserProfile.rsvp_status := UserProfile.rsvp_status p;
     UserProfile.rsvp_updated_at := UserProfile.rsvp_updated_at p |}.

(** [update({ name, is_celiac }).eq('user_id', uid)] *)
Definition rename_row (uid n : string) (celiac : bool) (p : UserProfile.t)
  : UserProfile.t :=
  if String.eqb (UserProfile.user_id p) uid then renamed n celiac p else p.

(** [inviteMap[key]] after the [forEach] that files every invite with a
    non-empty [used_by] under that identity: the last such invite.
    (Identities are taken not to be names of [Object.prototype]
    members.) *)
Definition inviteMap (invites : list InviteCode.t) (key : string)
  : option InviteCode.t :=
  fold_left
    (fun m i =>
       match InviteCode.used_by i with
       | Some (String c u) =>
           if String.eqb (String c u) key then Some i else m
       | _ => m
       end)
    invites None.

(** The tabs of the admin panel. *)
Module Tab.
Inductive t : Type := GUESTS | PHOTOS | CONFIG.
End Tab.

(** The values of the [UserSegment] enum. *)
Definition segment_value (s : UserSegment.t) : string :=
  match s with
  | UserSegment.YOUNG => "YOUNG"
  | UserSegment.ADULT => "ADULT"
  | UserSegment.ADMIN => "ADMIN"
  end.

Definition newline : string := String "010" EmptyString.

(** [downloadCSV] (lines 506-525), up to the text handed to
    [encodeURI]. *)
Definition csvHeaders : list string :=
  ["Nombre"; "Código"; "Segmento"; "Celíaco"; "Mesa"].

Definition csvRow (g : Guest) : list string :=
  [ UserProfile.name (guest g);
    match invite g with
    | Some i => or_else (InviteCode.code i) "N/A"
    | None => "N/A"
    end;
    segment_value (UserProfile.segment (guest g));
    if UserProfile.is_celiac (guest g) then "SI" else "NO";
    match UserProfile.table (guest g) with
    | Some t => or_else t "-"
    | None => "-"
    end ].

Definition csvBody (guests : list Guest) : string :=
  JsArray.join newline
    (JsArray.join "," csvHeaders
       :: map (fun e => JsArray.join "," e) (map csvRow guests)).

Definition csvContent (guests : list Guest) : string :=
  "data:text/csv;charset=utf-8," ++ csvBody guests.

Section MoreApp.

Variable isMockMode : bool.
Variable toISOString : Z -> string.

(** [String.prototype.localeCompare] on creation times. *)
Variable localeCompare : string -> string -> Z.

(** [ProfileSetup.saveProfile] (lines 346-370).  The form is on screen
    only in view [PROFILE_SETUP], which [loginUser] enters right after
    [setUser(profile)]; [user] is that profile. *)
Definition saveProfile (user : UserProfile.t) (s : ProfileSetup.state)
  : M ProfileSetup.state :=
  match Js.trimStart (ProfileSetup.name s) with
  | EmptyString => showToast "Ingresá tu nombre" error_toast ;; ret s
  | _ =>
      let updated :=
        renamed (ProfileSetup.name s) (ProfileSetup.isCeliac s) user in
      if isMockMode then
        setUser (Some updated) ;;
        setView View.HOME ;;
        ret (ProfileSetup.setSaving true s)
      else
        err <- mutate_ok (Update "profiles")
                 (fun d => set_profiles
                    (map (rename_row (UserProfile.user_id user)
                            (ProfileSetup.name s) (ProfileSetup.isCeliac s))
                         (profiles d)) d) ;;
        match err with
        | Some _ =>
            showToast "Error guardando perfil" error_toast ;;
            ret (ProfileSetup.setSaving false s)
        | None =>
            setUser (Some updated) ;;
            setView View.HOME ;;
            loadUserData isMockMode toISOString (UserProfile.user_id user) ;;
            ret (ProfileSetup.setSaving true s)
        end
  end.

(** [arr.sort((a, b) => (b.created_at || '').localeCompare(a.created_at
    || ''))]: a stable sort by that comparison. *)
Fixpoint insert_guest (x : Guest) (l : list Guest) : list Guest :=
  match l with
  | [] => [x]
  | y :: l' =>
      if (localeCompare (UserProfile.created_at (guest y))
                        (UserProfile.created_at (guest x)) <=? 0)%Z
      then x :: l
      else y :: insert_guest x l'
  end.

Fixpoint sort_guests (l : list Guest) : list Guest :=
  match l with
  | [] => []
  | x :: l' => insert_guest x (sort_guests l')
  end.

(** The rows [fetchGuests] builds: every profile with the invite filed
    under its identity. *)
Definition combined (ps : list UserProfile.t) (ivs : list InviteCode.t)
  : list Guest :=
  sort_guests
    (map (fun p => {| guest := p;
                      invite := inviteMap ivs (UserProfile.user_id p) |})
         ps).

(** [fetchGuests] (lines 418-438); the value is what [loadingData] is
    left at. *)
Definition fetchGuests : M bool :=
  ps <- read (Select "profiles") (fun d => Some (profiles d)) ;;
  ivs <- read (Select "invites") (fun d => Some (invites d)) ;;
  match ps with
  | Some ps =>
      setGuests (fun _ =>
        combined ps (match ivs with Some l => l | None => [] end))
  | None => ret tt
  end ;;
  ret false.

(** The effect of [AdminPanel] on its active tab (lines 413-416). *)
Definition onActiveTab (activeTab : Tab.t) : M unit :=
  match activeTab with
  | Tab.GUESTS => if negb isMockMode then _ <- fetchGuests ;; ret tt
                  else ret tt
  | Tab.PHOTOS => if negb isMockMode then fetchPhotos else ret tt
  | Tab.CONFIG => ret tt
  end.

(** The callback of the chat subscription (lines 210-213), run on a
    delivered row. *)
Definition onChatInsert (payload : ChatMessage.t) : M unit :=
  sender <- read (Select "profiles")
              (fun d => single (filter
                 (fun p => String.eqb (UserProfile.user_id p)
                             (ChatMessage.user_id payload))
                 (profiles d))) ;;
  setMessages (fun prev =>
    (prev ++ [ChatMessage.with_profiles sender payload])%list).

(** The callback of the theme subscription (lines 152-154). *)
Definition onThemeUpdate (payload : ThemeConfig) : M unit :=
  setTheme payload.

(** The buttons that carry their handler inline. *)

(** "Volver", under the notice that the link was sent (line 866). *)
Definition volver : M unit :=
  setMagicLinkSent false ;; setAuthMode AuthMode.CODE.

(** "Cambiar Código" (line 880). *)
Definition cambiarCodigo : M unit :=
  setAuthMode AuthMode.CODE ;; setAuthError "".

(** The settings button of the header (line 901). *)
Definition openAdmin : M unit := setView View.ADMIN.

(** "Volver a Home" of the admin panel (line 536). *)
Definition volverAHome : M unit :=
  setView View.HOME ;;
  uid <- the_user_id ;;
  loadUserData isMockMode toISOString uid.

End MoreApp.

(** [handleLogout] of the earlier revision. *)
Module EarlierSession.
Section EarlierSession.

Variable isMockMode : bool.

Definition handleLogout : M unit :=
  (if isMockMode then ret tt
   else _ <- auth_request SignOut ;; ret tt) ;;
  setUser None ;;
  setIsAdmin false ;;
  setRsvp None ;;
  setMessages (fun _ => []) ;;
  setInviteCode "" ;;
  setAuthMode AuthMode.CODE ;;
  setMagicLinkSent false ;;
  setEmail "" ;;
  setPassword "" ;;
  setView View.AUTH.

End EarlierSession.
End EarlierSession.

(* ------------------------------------------------------------------ *)
(** *** The page as a transition system                               *)
(* ------------------------------------------------------------------ *)

(** A control fires only while the page shows it: [App] renders the
    spinner alone while [loading] is set, and otherwise the form, the
    cards or the panel of the current [view] (lines 828-939).  The
    settings button is rendered for an administrator only.  Further
    conditions the render puts on single controls of a view are left
    out: they can only take transitions away.  The effect of the panel
    on its tab is a transition of its own, possible whenever the panel
    is shown. *)
Module Control.

(** The login form. *)
Inductive auth : Type :=
| inputCode (v : string)
| inputEmail (v : string)
| inputPassword (v : string)
| validarCodigo
| enviar
| volver
| cambiarCodigo.

(** The header and the cards of the home view. *)
Inductive home : Type :=
| settings
| logout
| rsvp (status : RsvpStatus.t)
| chat (text : string)
| upload (file : option string).

(** The admin panel. *)
Inductive panel : Type :=
| volverAHome
| tab (t : Tab.t)
| elegir (genSegment : UserSegment.t) (genAmount : nat)
| generar
| mesa (userId newTable : string)
| moderar (photoId : Z) (status : PhotoStatus.t).

(** What reaches the page from outside. *)
Inductive callback : Type :=
| chatInsert (payload : ChatMessage.t)
| themeUpdate (payload : ThemeConfig)
| toastTimeout.

End Control.

Section Page.

Variable isMockMode : bool.
Variable toISOString : Z -> string.
Variable localeCompare : string -> string -> Z.

Definition on_auth (c : Control.auth) : M unit :=
  match c with
  | Control.inputCode v => setInviteCode (Js.toUpperCase v)
  | Control.inputEmail v => setEmail v
  | Control.inputPassword v => setPassword v
  | Control.validarCodigo => handleAuth isMockMode
  | Control.enviar => handleEmailAuth isMockMode toISOString
  | Control.volver => volver
  | Control.cambiarCodigo => cambiarCodigo
  end.

Definition on_home (c : Control.home) : M unit :=
  match c with
  | Control.settings => openAdmin
  | Control.logout => handleLogout isMockMode
  | Control.rsvp status => updateRsvp isMockMode toISOString status
  | Control.chat text => sendMessage isMockMode toISOString text
  | Control.upload file => handleUpload isMockMode toISOString file
  end.

Definition on_panel (c : Control.panel) : M unit :=
  match c with
  | Control.volverAHome => volverAHome isMockMode toISOString
  | Control.tab t => onActiveTab isMockMode localeCompare t
  | Control.elegir s n => modify (choosing s n)
  | Control.generar => batchGenerate isMockMode
  | Control.mesa userId newTable => updateTable userId newTable
  | Control.moderar photoId status => moderatePhoto photoId status
  end.

Definition on_callback (c : Control.callback) : M unit :=
  match c with
  | Control.chatInsert payload => onChatInsert payload
  | Control.themeUpdate payload => onThemeUpdate payload
  | Control.toastTimeout => setToast None
  end.

(** The page shows view [v]. *)
Definition shows (v : View.t) (w : World) : Prop :=
  loading (global (app w)) = false /\ view (global (app w)) = v.

(** One transition of the page.  The setup form is shown for the user
    of the session, whose profile its handler spreads. *)
Inductive step : World -> World -> Prop :=
| step_auth (w : World) (c : Control.auth) :
    shows View.AUTH w -> step w (exec (on_auth c) w)
| step_setup (w : World) (u : UserProfile.t) (form : ProfileSetup.state) :
    shows View.PROFILE_SETUP w ->
    user (global (app w)) = Some u ->
    step w (exec (saveProfile isMockMode toISOString u form) w)
| step_home (w : World) (c : Control.home) :
    shows View.HOME w ->
    (c = Control.settings -> isAdmin (global (app w)) = true) ->
    step w (exec (on_home c) w)
| step_panel (w : World) (c : Control.panel) :
    shows View.ADMIN w -> step w (exec (on_panel c) w)
| step_callback (w : World) (c : Control.callback) :
    step w (exec (on_callback c) w).

(** The states the page goes through from [w0]. *)
Inductive reaches (w0 : World) : World -> Prop :=
| reaches_here : reaches w0 w0
| reaches_step (w w' : World) :
    reaches w0 w -> step w w' -> reaches w0 w'.

End Page.

(* ================================================================== *)
(** ** More vocabulary                                                *)
(* ================================================================== *)

(** The table after an insert of [rows]: as it was, or with all of
    [rows] at its end. *)
Definition appended (rows existing : list InviteCode.t)
  : list InviteCode.t :=
  if has_duplicate (map InviteCode.code (existing ++ rows)%list)
  then existing else (existing ++ rows)%list.

(** No two stored invites carry the same code. *)
Definition distinct_codes (b : Backend) : Prop :=
  has_duplicate (map InviteCode.code (invites (db b))) = false.

(** A row as generation builds it: unused, of segment [seg], its code
    under the segment's prefix. *)
Definition fresh_row (seg : UserSegment.t) (i : InviteCode.t) : Prop :=
  InviteCode.segment i = seg
  /\ InviteCode.is_used i = false
  /\ InviteCode.used_by i = None
  /\ prefix (prefix_of seg) (InviteCode.code i) = true.

(** The tables other than [invites]. *)
Definition other_tables (d : Database)
  : list UserProfile.t * list RSVP.t * list ChatMessage.t * list Photo.t
    * list ThemeConfig * list EventConfig :=
  (profiles d, rsvps d, chat_messages d, photos d, theme_config d,
   event_config d).

(** The kind of the toast on screen, if any. *)
Definition toast_type_of (t : option Toast) : option ToastType :=
  option_map toast_type t.

(** An action leaves an observation [q] of the whole state as it was,
    however the action ends. *)
Definition leaves {A B : Type} (q : World -> B) (m : M A) : Prop :=
  forall w, q (exec m w) = q w.

(** An observation of the page alone: it reads the same whatever the
    backend holds. *)
Definition local {B : Type} (q : World -> B) : Prop :=
  forall f w, q (with_supabase f w) = q w.

(** The profile [createProfileAndEnter] builds for an identity. *)
Definition newProfile (toISOString : Z -> string) (t : Z) (userId : string)
  (invite : InviteCode.t) : UserProfile.t :=
  {| UserProfile.user_id := userId;
     UserProfile.name :=
       if UserSegment.eqb (InviteCode.segment invite) UserSegment.ADMIN
       then "Administrador" else "";
     UserProfile.segment := InviteCode.segment invite;
     UserProfile.is_celiac := false;
     UserProfile.avatar_url := None;
     UserProfile.created_at := toISOString t;
     UserProfile.table := None;
     UserProfile.rsvp_status := None;
     UserProfile.rsvp_updated_at := None |}.

(** The profiles stored under an identity. *)
Definition profiles_of (uid : string) (b : Backend) : list UserProfile.t :=
  filter (fun p => String.eqb (UserProfile.user_id p) uid) (profiles (db b)).

(** Whether [loginUser] sends a profile to the setup form: no name yet,
    or a placeholder name, and not an administrator. *)
Definition needs_setup (p : UserProfile.t) : bool :=
  (match UserProfile.name p with
   | EmptyString => true
   | n => prefix "Invitado " n
   end)
  && negb (UserSegment.eqb (UserProfile.segment p) UserSegment.ADMIN).

(** Whether [createProfileAndEnter] marks an invite as used. *)
Definition consumes (invite : InviteCode.t) : bool :=
  negb (UserSegment.eqb (InviteCode.segment invite) UserSegment.ADMIN)
  && negb (String.eqb (InviteCode.code invite) "ADMIN-SETUP").

(** The state after the requests [l] (most recent first) went out and
    the tables became [f] of what they were. *)
Definition served (l : list Call) (f : Database -> Database) (w : World)
  : World :=
  with_supabase (fun b => set_calls (l ++ calls b)%list (set_db (f (db b)) b)) w.

(** An identity service that knows no password but lets anybody sign
    up, as identity [u-new]. *)
Definition open_signup_service (asked : list Call) : AuthResponse.t :=
  match asked with
  | SignUp _ _ :: _ =>
      {| AuthResponse.user := Some "u-new"; AuthResponse.error := None |}
  | _ =>
      {| AuthResponse.user := None;
         AuthResponse.error := Some (Error.make "Invalid login credentials") |}
  end.

(** A backend holding the given invites, in front of that service. *)
Definition open_backend (rows : list InviteCode.t) : Backend :=
  {| db := {| invites := rows; profiles := []; rsvps := [];
              chat_messages := []; photos := []; theme_config := [];
              event_config := [] |};
     user_photos := []; channels := []; calls := []; reachable := true;
     identity := open_signup_service |}.

(** An identity service that refuses every request for an unconfirmed
    address. *)
Definition locked_out : AuthResponse.t :=
  {| AuthResponse.user := None;
     AuthResponse.error := Some (Error.make "Email not confirmed") |}.

(** The answer a guest has stored, as [loadUserData] asks for it. *)
Definition stored_rsvp (uid : string) (b : Backend) : option RSVP.t :=
  if reachable b
  then single (filter (fun r => String.eqb (RSVP.user_id r) uid)
                 (rsvps (db b)))
  else None.

(** The demo backend while the service cannot be reached. *)
Definition offline_backend : Backend :=
  {| db := db demo_backend; user_photos := []; channels := []; calls := [];
     reachable := false; identity := fun _ => accepting |}.








(** The session as the views depend on it. *)
Definition session (w : World) : option UserProfile.t * bool * View.t :=
  (user (global (app w)), isAdmin (global (app w)), view (global (app w))).

(** The session after [loginUser] of a profile. *)
Definition entered_as (p : UserProfile.t) (w : World)
  : option UserProfile.t * bool * View.t :=
  (Some p,
   if needs_setup p then isAdmin (global (app w))
   else UserSegment.eqb (UserProfile.segment p) UserSegment.ADMIN
        || isAdmin (global (app w)),
   if needs_setup p then View.PROFILE_SETUP else View.HOME).

(** An action that leaves the session as it was or enters with some
    profile. *)
Definition enters {A : Type} (m : M A) : Prop :=
  forall w, session (exec m w) = session w
            \/ exists p, session (exec m w) = entered_as p w.

(** The session is coherent: nobody is logged in on the login form,
    somebody is elsewhere, the administrator flag is set for a profile
    of the administrator segment only, and the panel is shown under
    that flag only. *)
Definition session_ok (w : World) : Prop :=
  let g := global (app w) in
  (view g = View.AUTH -> user g = None /\ isAdmin g = false)
  /\ (view g <> View.AUTH -> user g <> None)
  /\ (isAdmin g = true ->
      exists u, user g = Some u
                /\ UserProfile.segment u = UserSegment.ADMIN)
  /\ (view g = View.ADMIN -> isAdmin g = true).

(** A walk of the administrator through the page, online: the sentinel,
    an address and a password are typed, the code is validated, the
    e-mail form is sent. *)
Definition admin_at_home : World :=
  exec (on_auth false demo_clock Control.enviar)
    (exec (on_auth false demo_clock Control.validarCodigo)
       (exec (on_auth false demo_clock (Control.inputPassword "secret"))
          (exec (on_auth false demo_clock
                   (Control.inputEmail "admin@example.com"))
             (exec (on_auth false demo_clock
                      (Control.inputCode "admin-setup"))
                mounted)))).

(** ... and the settings button is pressed. *)
Definition admin_in_panel : World :=
  exec (on_home false demo_clock Control.settings) admin_at_home.

(** An identity service on which anonymous sign-ins are switched off. *)
Definition anonymous_off : AuthResponse.t :=
  {| AuthResponse.user := None;
     AuthResponse.error :=
       Some (Error.make "Anonymous sign-ins are disabled") |}.

(** An identity service that answers with neither an error nor an
    identity. *)
Definition silent : AuthResponse.t :=
  {| AuthResponse.user := None; AuthResponse.error := None |}.

(* ================================================================== *)
(** ** Facts about the string primitives                              *)
(* ================================================================== *)

Lemma prefix_iff (p s : string) :
  prefix p s = true <-> exists b, s = p ++ b.
Proof.
  revert s; induction p as [|c p IH]; intros s; simpl.
  - split; [intros _; now exists s | intros _; now destruct s].
  - destruct s as [|x s]; simpl.
    + split; [discriminate | intros [b Hb]; discriminate].
    + destruct (ascii_dec c x) as [->|Hne].
      * rewrite IH. split; intros [b Hb]; exists b; congruence.
      * split; [discriminate | intros [b Hb]; congruence].
Qed.


Lemma append_empty_r (a : string) : a ++ "" = a.
Proof. induction a; simpl; congruence. Qed.

Lemma includes_cons (sub : string) (x : ascii) (s : string) :
  Js.includes sub (String x s)
  = prefix sub (String x s) || Js.includes sub s.
Proof. reflexivity. Qed.

Lemma includes_iff (sub s : string) :
  Js.includes sub s = true <-> exists a b, s = a ++ sub ++ b.
Proof.
  induction s as [|x s IH].
  - change (Js.includes sub "") with (prefix sub "" || false).
    rewrite orb_false_r, prefix_iff. split.
    + intros [b Hb]. now exists "", b.
    + intros (a & b & H). destruct a; [now exists b|discriminate].
  - rewrite includes_cons, orb_true_iff, prefix_iff, IH. split.
    + intros [[b Hb]|(a & b & H)].
      * now exists "", b.
      * exists (String x a), b. simpl. congruence.
    + intros (a & b & H). destruct a as [|y a]; simpl in H.
      * left. now exists b.
      * right. exists a, b. congruence.
Qed.

(* ================================================================== *)
(** ** The mock gate                                                  *)
(* ================================================================== *)

Section MockGate.
Import supabaseClient.

(** A missing environment object is a missing pair of values. *)
Lemma isMockMode_no_env : isMockMode None = true.
Proof. reflexivity. Qed.

(** The gate, unfolded: a value is falsy, or the URL mentions
    "placeholder". *)
Lemma isMockMode_iff (env : option Env) :
  isMockMode env = true <->
  Js.falsy (url env) = true \/ Js.falsy (key env) = true \/
  exists u a b, url env = Some u /\ u = a ++ "placeholder" ++ b.
Proof.
  unfold isMockMode. rewrite !orb_true_iff.
  destruct (url env) as [u|] eqn:Hu.
  - rewrite includes_iff. split.
    + intros [[H|H]|(a & b & H)]; auto. right; right. now exists u, a, b.
    + intros [H|[H|(u' & a & b & H1 & H2)]]; auto.
      right. injection H1 as <-. now exists a, b.
  - simpl. split; auto.
Qed.

End MockGate.

Section MockGateClaims.
Import supabaseClient.

(** C4, as stated, fails: a URL that merely mentions "placeholder"
    switches mock mode on although neither value is absent and
    neither equals a known placeholder string. *)
Lemma isMockMode_not_as_specified :
  let env := env_of (Some "https://placeholder-demo.supabase.co")
                    (Some "anon-key") in
  isMockMode env = true /\ mock_as_specified env = false.
Proof. split; reflexivity. Qed.

(** C4, amended: mock mode is on whenever the URL or the key is
    missing or empty, or the URL contains "placeholder"; it is off
    when both values are present and non-empty and neither contains
    "placeholder".  The gate is a function of the two values only. *)
Theorem isMockMode_gate (u k : option string) :
  isMockMode None = true
  /\
  (Js.falsy u = true \/ Js.falsy k = true \/
   (exists s a b, u = Some s /\ s = a ++ "placeholder" ++ b)
   -> isMockMode (env_of u k) = true)
  /\
  (forall s t,
      u = Some s -> k = Some t -> s <> "" -> t <> "" ->
      Js.includes "placeholder" s = false ->
      Js.includes "placeholder" t = false ->
      isMockMode (env_of u k) = false).
Proof.
  split; [reflexivity|]. split.
  - intros H. apply isMockMode_iff. exact H.
  - intros s t -> -> Hs Ht Hsp _.
    unfold isMockMode; simpl. rewrite Hsp.
    destruct s; [contradiction|]. destruct t; [contradiction|].
    reflexivity.
Qed.

Lemma isMockMode_gate_witness :
  isMockMode (env_of (Some "https://placeholder.supabase.co")
                     (Some "anon-key")) = true
  /\ isMockMode (env_of (Some "https://gemma15.supabase.co")
                        (Some "anon-key")) = false.
Proof.
  split.
  - apply (isMockMode_gate (Some "https://placeholder.supabase.co")
                           (Some "anon-key")).
    right; right.
    exists "https://placeholder.supabase.co", "https://", ".supabase.co".
    split; reflexivity.
  - apply (proj2 (proj2 (isMockMode_gate (Some "https://gemma15.supabase.co")
                                         (Some "anon-key")))
             "https://gemma15.supabase.co" "anon-key");
      try reflexivity; discriminate.
Defined.

(** The access key is never compared with a placeholder: next to a
    real URL, the fallback key itself leaves mock mode off. *)
Lemma isMockMode_placeholder_key :
  isMockMode (env_of (Some "https://gemma15.supabase.co")
                     (Some "placeholder-key")) = false.
Proof. reflexivity. Qed.

End MockGateClaims.

(* ================================================================== *)
(** ** Reasoning about actions                                        *)
(* ================================================================== *)

Lemma exec_bind {A B : Type} (m : M A) (k : A -> M B) (w : World) :
  exec (bind m k) w =
  match result m w with
  | Return a => exec (k a) (exec m w)
  | Throw _ => exec m w
  end.
Proof.
  unfold exec, result, bind. destruct (m w) as [[a|e] w']; reflexivity.
Qed.

Lemma result_bind {A B : Type} (m : M A) (k : A -> M B) (w : World) :
  result (bind m k) w =
  match result m w with
  | Return a => result (k a) (exec m w)
  | Throw e => Throw e
  end.
Proof.
  unfold exec, result, bind. destruct (m w) as [[a|e] w']; reflexivity.
Qed.

Lemma exec_try_catch {A : Type} (m : M A) (h : Error.t -> M A) (w : World) :
  exec (try_catch m h) w =
  match result m w with
  | Return _ => exec m w
  | Throw e => exec (h e) (exec m w)
  end.
Proof.
  unfold exec, result, try_catch. destruct (m w) as [[a|e] w']; reflexivity.
Qed.

Lemma exec_bind_modify {B : Type} (f : World -> World) (k : unit -> M B)
  (w : World) :
  exec (bind (modify f) k) w = exec (k tt) (f w).
Proof. reflexivity. Qed.

Lemma exec_bind_gets {A B : Type} (f : World -> A) (k : A -> M B)
  (w : World) :
  exec (bind (gets f) k) w = exec (k (f w)) w.
Proof. reflexivity. Qed.

Section Keeps.
Context {B : Type} (q : Backend -> B).

Lemma keeps_ret {A : Type} (a : A) : keeps q (ret a).
Proof. intros w; reflexivity. Qed.

Lemma keeps_throw {A : Type} (e : Error.t) : keeps q (@throw A e).
Proof. intros w; reflexivity. Qed.

Lemma keeps_gets {A : Type} (f : World -> A) : keeps q (gets f).
Proof. intros w; reflexivity. Qed.

Lemma keeps_bind {A C : Type} (m : M A) (k : A -> M C) :
  keeps q m -> (forall a, keeps q (k a)) -> keeps q (bind m k).
Proof.
  intros Hm Hk w. rewrite exec_bind.
  destruct (result m w); [rewrite Hk|]; apply Hm.
Qed.

Lemma keeps_try_catch {A : Type} (m : M A) (h : Error.t -> M A) :
  keeps q m -> (forall e, keeps q (h e)) -> keeps q (try_catch m h).
Proof.
  intros Hm Hh w. rewrite exec_try_catch.
  destruct (result m w); [|rewrite Hh]; apply Hm.
Qed.

Lemma keeps_try_finally {A : Type} (m : M A) (f : M unit) :
  keeps q m -> keeps q f -> keeps q (try_finally m f).
Proof.
  intros Hm Hf w. specialize (Hm w). specialize (Hf (exec m w)).
  unfold exec, try_finally in *.
  destruct (m w) as [r w']; simpl in *.
  destruct (f w') as [[[]|e] w'']; simpl in *; congruence.
Qed.

Lemma keeps_modify (f : World -> World) :
  (forall w, supabase (f w) = supabase w) -> keeps q (modify f).
Proof. intros H w. unfold exec, modify; simpl. now rewrite H. Qed.

Lemma keeps_when (b : bool) (m : M unit) :
  keeps q m -> keeps q (when b m).
Proof. destruct b; [trivial|intros _; apply keeps_ret]. Qed.

Hypothesis q_log : ignores_log q.

Lemma keeps_request (c : Call) : keeps q (request c).
Proof. intros w. unfold exec, request, modify; simpl. apply q_log. Qed.

Lemma keeps_auth_request (c : Call) : keeps q (auth_request c).
Proof.
  unfold auth_request. apply keeps_bind; [apply keeps_request|].
  intros _. apply keeps_gets.
Qed.

Lemma keeps_read {A : Type} (c : Call) (r : Database -> option A) :
  keeps q (read c r).
Proof.
  unfold read, database. apply keeps_bind; [apply keeps_request|].
  intros _. apply keeps_bind; [apply keeps_gets|]. intros [|].
  - apply keeps_bind; [apply keeps_gets|]. intros d. apply keeps_ret.
  - apply keeps_ret.
Qed.

Lemma keeps_write (f : Database -> Database) :
  unseen q f -> keeps q (write f).
Proof. intros H w. unfold exec, write, modify; simpl. apply H. Qed.

Lemma keeps_mutate (c : Call) (f : Database -> option Error.t * Database) :
  unseen q (fun d => snd (f d)) -> keeps q (mutate c f).
Proof.
  intros H. unfold mutate.
  apply keeps_bind; [apply keeps_request|].
  intros _. apply keeps_bind; [apply keeps_gets|]. intros [|].
  - apply keeps_bind; [apply keeps_gets|]. intros err.
    apply keeps_bind; [now apply keeps_write|].
    intros _. apply keeps_ret.
  - apply keeps_ret.
Qed.

Lemma keeps_mutate_ok (c : Call) (f : Database -> Database) :
  unseen q f -> keeps q (mutate_ok c f).
Proof. intros H. unfold mutate_ok. now apply keeps_mutate. Qed.

Hypothesis q_channels : ignores_channels q.

Lemma keeps_subscribe (t : string) : keeps q (subscribe t).
Proof.
  unfold subscribe.
  apply keeps_bind; [apply keeps_request|].
  intros _. apply keeps_bind; [apply keeps_gets|]. intros l.
  apply keeps_bind; [|intros; apply keeps_ret].
  intros w. unfold exec, modify; simpl. apply q_channels.
Qed.

End Keeps.

(** Side conditions of the rules above hold by computation for the
    observations used below. *)
Ltac side :=
  solve [ unfold ignores_log, ignores_channels, unseen; intros; reflexivity ].

Ltac keeps_step :=
  lazymatch goal with
  | |- keeps _ (bind _ _) => apply keeps_bind; [|intros ?]
  | |- keeps _ (ret _) => apply keeps_ret
  | |- keeps _ (throw _) => apply keeps_throw
  | |- keeps _ (gets _) => apply keeps_gets
  | |- keeps _ (try_catch _ _) => apply keeps_try_catch; [|intros ?]
  | |- keeps _ (try_finally _ _) => apply keeps_try_finally
  | |- keeps _ (when _ _) => apply keeps_when
  | |- keeps _ (modify _) => apply keeps_modify; side
  | |- keeps _ (request _) => apply keeps_request; side
  | |- keeps _ (auth_request _) => apply keeps_auth_request; side
  | |- keeps _ (read _ _) => apply keeps_read; side
  | |- keeps _ (mutate_ok _ _) => apply keeps_mutate_ok; side
  | |- keeps _ (mutate _ _) => apply keeps_mutate; side
  | |- keeps _ (subscribe _) => apply keeps_subscribe; side
  | |- keeps _ (match ?x with _ => _ end) => destruct x eqn:?
  | |- keeps _ (let _ := _ in _) => cbv zeta
  | |- keeps _ _ => solve [ intros ?; reflexivity ]
  end.

Ltac keeps_tac := repeat keeps_step.

(* ================================================================== *)
(** ** Redemption                                                     *)
(* ================================================================== *)

Section Redemption.

Variable isMockMode : bool.
Variable toISOString : Z -> string.

(** No lookup, validation or profile load touches the invites. *)
Lemma validateCode_keeps_stored (code : string) :
  keeps stored (validateCode isMockMode code).
Proof. unfold validateCode. keeps_tac. Qed.

Lemma loadUserData_keeps_stored (userId : string) :
  keeps stored (loadUserData isMockMode toISOString userId).
Proof. unfold loadUserData. keeps_tac. Qed.

Lemma loginUser_keeps_stored (p : UserProfile.t) :
  keeps stored (loginUser isMockMode toISOString p).
Proof.
  unfold loginUser. keeps_tac; apply loadUserData_keeps_stored.
Qed.

Lemma keeps_stored_invites {A : Type} (m : M A) :
  keeps stored m -> keeps invites_of m.
Proof.
  intros H w. specialize (H w). unfold stored, invites_of in *.
  congruence.
Qed.

(** [handleAuth] only validates: it stores nothing. *)
Lemma handleAuth_keeps_stored : keeps stored (handleAuth isMockMode).
Proof.
  unfold handleAuth. keeps_tac; apply validateCode_keeps_stored.
Qed.

Lemma handleLogout_keeps_stored : keeps stored (handleLogout isMockMode).
Proof. unfold handleLogout. keeps_tac. Qed.

(** Profile creation leaves the invites alone for an admin-segment
    invite and for the sentinel code. *)
Lemma createProfileAndEnter_keeps_invites (userId : string)
  (invite : InviteCode.t) :
  InviteCode.segment invite = UserSegment.ADMIN
  \/ InviteCode.code invite = ADMIN_SETUP ->
  keeps invites_of (createProfileAndEnter isMockMode toISOString userId invite).
Proof.
  intros H. unfold createProfileAndEnter. keeps_tac;
    try (apply keeps_stored_invites, loginUser_keeps_stored).
  exfalso.
  match goal with
  | E : negb _ && negb _ = true |- _ =>
      apply andb_true_iff in E; destruct E as [E1 E2];
      apply negb_true_iff in E1, E2
  end.
  destruct H as [H|H].
  - rewrite H in E1. discriminate.
  - rewrite H in E2. discriminate.
Qed.

(** The e-mail form creates a profile for the sentinel code only, so
    it never changes an invite row, whatever the code. *)
Lemma handleEmailAuth_keeps_invites :
  keeps invites_of (handleEmailAuth isMockMode toISOString).
Proof.
  unfold handleEmailAuth. keeps_tac;
    try (apply keeps_stored_invites, validateCode_keeps_stored);
    apply createProfileAndEnter_keeps_invites; right;
    now apply String.eqb_eq.
Qed.

Lemma redeem_keeps_invites (code : string) (a : Attempt) (w : World) :
  invites_of (supabase (redeem isMockMode toISOString code a w))
  = invites_of (supabase w).
Proof.
  unfold redeem.
  set (w0 := typing code (typed_email a) (typed_password a) w).
  assert (H1 : invites_of (supabase (exec (handleAuth isMockMode) w0))
               = invites_of (supabase w)).
  { now rewrite (keeps_stored_invites _ handleAuth_keeps_stored w0). }
  set (w1 := exec (handleAuth isMockMode) w0) in *.
  set (w2 := match authMode (auth (app w1)) with
             | AuthMode.CODE => w1
             | AuthMode.EMAIL_REQUIRED =>
                 exec (handleEmailAuth isMockMode toISOString) w1
             end).
  assert (H2 : invites_of (supabase w2) = invites_of (supabase w)).
  { subst w2. destruct (authMode (auth (app w1))); [exact H1|].
    now rewrite handleEmailAuth_keeps_invites. }
  destruct (then_logout a); [|exact H2].
  now rewrite (keeps_stored_invites _ handleLogout_keeps_stored w2).
Qed.

(** C2: the sentinel code resolves to an admin-segment virtual invite
    without any request, in either mode; creating the admin's profile
    leaves the invites table alone; and redeeming the sentinel any
    number of times, with any credentials and whatever the identity
    service answers, leaves the invites table exactly as it was: no
    row is marked used, none records a redeemer. *)
Theorem sentinel_never_consumes_an_invite :
  (forall w,
      validateCode isMockMode ADMIN_SETUP w
      = (Return (Some {| InviteCode.code := ADMIN_SETUP;
                         InviteCode.segment := UserSegment.ADMIN;
                         InviteCode.is_used := false;
                         InviteCode.used_by := None |}), w))
  /\ (forall userId w,
        invites_of
          (supabase
             (exec (createProfileAndEnter isMockMode toISOString userId
                      (virtual_invite ADMIN_SETUP UserSegment.ADMIN)) w))
        = invites_of (supabase w))
  /\ (forall (attempts : list Attempt) (w : World),
        invites_of
          (supabase
             (redeem_many isMockMode toISOString ADMIN_SETUP attempts w))
        = invites_of (supabase w)).
Proof.
  split; [|split].
  - intros w. unfold validateCode. destruct isMockMode; reflexivity.
  - intros userId w.
    apply createProfileAndEnter_keeps_invites. now left.
  - intros attempts. unfold redeem_many.
    induction attempts as [|a l IH]; intros w; simpl.
    + reflexivity.
    + rewrite IH. apply redeem_keeps_invites.
Qed.

End Redemption.

Lemma issued_of {A : Type} (m : M A) (w : World) (l : list Call) :
  calls (supabase (exec m w)) = (l ++ calls (supabase w))%list ->
  issued m w = List.rev l.
Proof.
  intros H. unfold issued. rewrite H. f_equal.
  rewrite length_app, Nat.add_sub.
  rewrite firstn_app, Nat.sub_diag, firstn_all. simpl.
  apply app_nil_r.
Qed.

Section Validation.

Variable toISOString : Z -> string.

(** What online validation of a non-sentinel code comes to: one
    lookup, then a verdict on the row found. *)
Lemma validateCode_online (code : string) (w : World) :
  code <> ADMIN_SETUP ->
  validateCode false code w =
  (match (if reachable (supabase w)
          then single (rows_with code (supabase w)) else None) with
   | None => Throw InvalidCode
   | Some i => if InviteCode.is_used i then Throw AlreadyUsed
               else Return (Some i)
   end,
   logged (Select "invites") w).
Proof.
  intros H. apply String.eqb_neq in H. unfold validateCode, ADMIN_SETUP in *.
  rewrite H.
  unfold read, bind, request, gets, modify, database, ret, throw, rows_with.
  cbn.
  destruct (reachable (supabase w)); cbn; [|reflexivity].
  destruct (single _) as [i|]; [|reflexivity].
  destruct (InviteCode.is_used i); reflexivity.
Qed.

Lemma validateCode_result_frame (code : string) (w w' : World) :
  code <> ADMIN_SETUP ->
  supabase w' = supabase w ->
  result (validateCode false code) w' = result (validateCode false code) w.
Proof.
  intros H E. unfold result. rewrite !validateCode_online by exact H.
  simpl. now rewrite E.
Qed.

Lemma validateCode_exec (code : string) (w : World) :
  code <> ADMIN_SETUP ->
  exec (validateCode false code) w = logged (Select "invites") w.
Proof.
  intros H. unfold exec. now rewrite validateCode_online.
Qed.

(** The only ways validation fails. *)
Lemma validateCode_throws (code : string) (w : World) (e : Error.t) :
  code <> ADMIN_SETUP ->
  result (validateCode false code) w = Throw e ->
  e = InvalidCode \/ e = AlreadyUsed.
Proof.
  intros H. unfold result. rewrite validateCode_online by exact H. simpl.
  destruct (if reachable (supabase w) then _ else _) as [i|].
  - destruct (InviteCode.is_used i); [|discriminate].
    intros [= <-]. now right.
  - intros [= <-]. now left.
Qed.

Lemma handleAuth_failure (w : World) (e : Error.t) :
  let code := Js.toUpperCase (inviteCode (ui (app w))) in
  code <> ADMIN_SETUP ->
  inviteCode (ui (app w)) <> "" ->
  result (validateCode false code) w = Throw e ->
  exec (handleAuth false) w
  = exec (setAuthError (or_else (Error.message e) "Error de conexión") ;;
          setLoading false)
      (logged (Select "invites")
         (exec (setLoading true ;; setAuthError "") w)).
Proof.
  intros code Hc Hne He.
  unfold handleAuth.
  rewrite exec_bind. cbn [result gets fst exec snd].
  fold code.
  destruct (inviteCode (ui (app w))) as [|a s] eqn:E; [contradiction|].
  unfold setLoading at 1. rewrite exec_bind_modify.
  unfold setAuthError at 1. rewrite exec_bind_modify.
  match goal with |- exec _ ?w1 = _ => set (w1' := w1) end.
  assert (He' : result (validateCode false code) w1' = Throw e).
  { rewrite <- He. now apply validateCode_result_frame. }
  rewrite exec_try_catch, result_bind, He'. cbv iota.
  rewrite (exec_bind (validateCode false code)), He'.
  rewrite validateCode_exec by exact Hc.
  reflexivity.
Qed.

Lemma handleEmailAuth_failure (w : World) (e : Error.t) :
  let code := Js.toUpperCase (inviteCode (ui (app w))) in
  code <> ADMIN_SETUP ->
  email (auth (app w)) <> "" ->
  result (validateCode false code) w = Throw e ->
  exec (handleEmailAuth false toISOString) w
  = exec (setAuthError (or_else (Error.message e) "Error") ;;
          setLoading false)
      (logged (Select "invites")
         (exec (setLoading true ;; setAuthError "") w)).
Proof.
  intros code Hc Hne He.
  unfold handleEmailAuth.
  rewrite !exec_bind_gets. fold code.
  destruct (email (auth (app w))) as [|a s] eqn:E; [contradiction|].
  unfold setLoading at 1. rewrite exec_bind_modify.
  unfold setAuthError at 1. rewrite exec_bind_modify.
  match goal with |- exec _ ?w1 = _ => set (w1' := w1) end.
  assert (He' : result (validateCode false code) w1' = Throw e).
  { rewrite <- He. now apply validateCode_result_frame. }
  rewrite exec_try_catch, result_bind, He'. cbv iota.
  rewrite (exec_bind (validateCode false code)), He'.
  rewrite validateCode_exec by exact Hc.
  reflexivity.
Qed.

Lemma no_write_select (t : string) :
  Forall (fun c => is_write c = false) [Select t].
Proof. repeat constructor. Qed.

(** C1: online, every code other than the sentinel is looked up; the
    lookup fails with [InvalidCode] when no row carries the code and
    with [AlreadyUsed] when the row found is marked used; and whenever
    validation fails, validation itself and, for the code typed into the
    form, both forms of the redemption store nothing (tables and bucket
    are as before, no write request is issued); the forms show the
    failure's message and stay where they were. *)
Theorem failed_redemption_writes_nothing (code : string) (w : World) :
  code <> ADMIN_SETUP ->
  issued (validateCode false code) w = [Select "invites"]
  /\ (rows_with code (supabase w) = [] ->
      result (validateCode false code) w = Throw InvalidCode)
  /\ (forall i,
        reachable (supabase w) = true ->
        rows_with code (supabase w) = [i] ->
        InviteCode.is_used i = true ->
        result (validateCode false code) w = Throw AlreadyUsed)
  /\ (forall e,
        result (validateCode false code) w = Throw e ->
        (e = InvalidCode \/ e = AlreadyUsed)
        /\ writes_nothing (validateCode false code) w
        /\ (Js.toUpperCase (inviteCode (ui (app w))) = code ->
            writes_nothing (handleAuth false) w
            /\ writes_nothing (handleEmailAuth false toISOString) w
            /\ (inviteCode (ui (app w)) <> "" ->
                authError (ui (app (exec (handleAuth false) w)))
                = Error.message e
                /\ authMode (auth (app (exec (handleAuth false) w)))
                   = authMode (auth (app w)))
            /\ (email (auth (app w)) <> "" ->
                authError
                  (ui (app (exec (handleEmailAuth false toISOString) w)))
                = Error.message e
                /\ magicLinkSent
                     (auth (app (exec (handleEmailAuth false toISOString) w)))
                   = magicLinkSent (auth (app w))))).
Proof.
  intros Hc.
  assert (Hlook : issued (validateCode false code) w = [Select "invites"]).
  { apply (issued_of _ _ [Select "invites"]).
    now rewrite validateCode_exec. }
  split; [exact Hlook|]. split; [|split].
  - intros Hrows. unfold result.
    rewrite validateCode_online by exact Hc. simpl. rewrite Hrows.
    now destruct (reachable (supabase w)).
  - intros i Hup Hrows Hused. unfold result.
    rewrite validateCode_online by exact Hc. simpl.
    now rewrite Hup, Hrows; simpl; rewrite Hused.
  - intros e He.
    assert (Hmsg : e = InvalidCode \/ e = AlreadyUsed)
      by (eapply validateCode_throws; eauto).
    split; [exact Hmsg|]. split.
    { split.
      - apply validateCode_keeps_stored.
      - rewrite Hlook. apply no_write_select. }
    intros Htyped. subst code. split; [|split; [|split]].
    + split; [apply handleAuth_keeps_stored|].
      destruct (inviteCode (ui (app w))) as [|a s] eqn:E.
      * rewrite (issued_of _ _ []); [constructor|].
        unfold handleAuth. rewrite exec_bind_gets, E. reflexivity.
      * rewrite (issued_of _ _ [Select "invites"]);
          [apply no_write_select|].
        rewrite (handleAuth_failure w e); try rewrite E; try assumption;
          [reflexivity|discriminate].
    + destruct (email (auth (app w))) as [|a s] eqn:E.
      * assert (Hx : exec (handleEmailAuth false toISOString) w
                     = exec (setAuthError "Ingresá tu email") w).
        { unfold handleEmailAuth. rewrite !exec_bind_gets, E.
          reflexivity. }
        split; [now rewrite Hx|].
        rewrite (issued_of _ _ []); [constructor|]. now rewrite Hx.
      * assert (Hx := handleEmailAuth_failure w e Hc).
        rewrite E in Hx. specialize (Hx ltac:(discriminate) He).
        split; [now rewrite Hx|].
        rewrite (issued_of _ _ [Select "invites"]);
          [apply no_write_select|].
        now rewrite Hx.
    + intros Hne. rewrite (handleAuth_failure w e Hc Hne He).
      split; [|reflexivity].
      destruct Hmsg as [-> | ->]; reflexivity.
    + intros Hne. rewrite (handleEmailAuth_failure w e Hc Hne He).
      split; [|reflexivity].
      destruct Hmsg as [-> | ->]; reflexivity.
Qed.

End Validation.

Lemma failed_redemption_witness :
  result (validateCode false "G15-J02") (guest_typing "g15-j02")
  = Throw AlreadyUsed
  /\ result (validateCode false "G15-J99") (guest_typing "g15-j99")
     = Throw InvalidCode
  /\ writes_nothing (handleEmailAuth false demo_clock)
       (guest_typing "g15-j02").
Proof.
  assert (H2 : "G15-J02" <> ADMIN_SETUP) by discriminate.
  assert (H9 : "G15-J99" <> ADMIN_SETUP) by discriminate.
  destruct (failed_redemption_writes_nothing demo_clock "G15-J02"
              (guest_typing "g15-j02") H2)
    as (_ & _ & Hused & Hw).
  destruct (failed_redemption_writes_nothing demo_clock "G15-J99"
              (guest_typing "g15-j99") H9)
    as (_ & Hunknown & _).
  split; [|split].
  - exact (Hused _ eq_refl eq_refl eq_refl).
  - exact (Hunknown eq_refl).
  - destruct (Hw AlreadyUsed (Hused _ eq_refl eq_refl eq_refl))
      as (_ & _ & Hforms).
    apply (Hforms eq_refl).
Defined.


(* ================================================================== *)
(** ** Mock mode validation                                           *)
(* ================================================================== *)

Section MockValidation.


(** The earlier revision, in mock mode: an identity is made up from
    the clock without any request, and the profile step is entered
    with the invite validation returned. *)
Lemma earlier_handleAuth_mock
  (createProfileAndEnter : string -> InviteCode.t -> M unit) (w : World) :
  inviteCode (ui (app w)) <> "" ->
  let code := Js.toUpperCase (inviteCode (ui (app w))) in
  Earlier.handleAuth true createProfileAndEnter w
  = try_catch
      (createProfileAndEnter
         ("mock-user-" ++ Js.toString (Js.Num (now w)))
         (virtual_invite code
            (if String.eqb code ADMIN_SETUP
             then UserSegment.ADMIN else UserSegment.YOUNG)))
      (fun err =>
         setAuthError (or_else (Error.message err) "Error de conexión") ;;
         setLoading false)
      (exec (setLoading true ;; setAuthError "") w).
Proof.
  intros Hne code. unfold Earlier.handleAuth, bind at 1, gets at 1.
  fold code.
  destruct (inviteCode (ui (app w))) as [|a s]; [contradiction|].
  unfold Earlier.validateCode, ADMIN_SETUP.
  destruct (String.eqb code "ADMIN-SETUP"); reflexivity.
Qed.


End MockValidation.


(* ================================================================== *)
(** ** Identity resolution after a valid code                         *)
(* ================================================================== *)

Section IdentityResolution.

(** C5, as stated, fails on the current [handleAuth]: with a valid
    unused code and an identity service that accepts anonymous
    sign-ins, the flow still moves to [EMAIL_REQUIRED], and the only
    request it made is the invite lookup; no anonymous session was
    attempted. *)
Lemma handleAuth_skips_anonymous_session :
  let w := guest_typing "g15-j01" in
  result (validateCode false "G15-J01") w
  = Return (Some (unused "G15-J01" UserSegment.YOUNG))
  /\ AuthResponse.error (identity (supabase w)
             (SignInAnonymously :: Select "invites" :: calls (supabase w)))
     = None
  /\ authMode (auth (app (exec (handleAuth false) w)))
     = AuthMode.EMAIL_REQUIRED
  /\ issued (handleAuth false) w = [Select "invites"]
  /\ ~ In SignInAnonymously (issued (handleAuth false) w).
Proof.
  repeat split; try reflexivity.
  vm_compute. intros [H|[]]. discriminate.
Qed.

Lemma handleAuth_valid (w : World) (i : InviteCode.t) :
  let code := Js.toUpperCase (inviteCode (ui (app w))) in
  code <> ADMIN_SETUP ->
  inviteCode (ui (app w)) <> "" ->
  result (validateCode false code) w = Return (Some i) ->
  exec (handleAuth false) w
  = exec (setAuthMode AuthMode.EMAIL_REQUIRED ;; setLoading false)
      (logged (Select "invites")
         (exec (setLoading true ;; setAuthError "") w)).
Proof.
  intros code Hc Hne He.
  unfold handleAuth.
  rewrite exec_bind_gets. fold code.
  destruct (inviteCode (ui (app w))) as [|a s] eqn:E; [contradiction|].
  unfold setLoading at 1. rewrite exec_bind_modify.
  unfold setAuthError at 1. rewrite exec_bind_modify.
  match goal with |- exec _ ?w1 = _ => set (w1' := w1) end.
  assert (He' : result (validateCode false code) w1' = Return (Some i)).
  { rewrite <- He. now apply validateCode_result_frame. }
  rewrite exec_try_catch, result_bind, He'. cbv iota.
  assert (Hr : result (setAuthMode AuthMode.EMAIL_REQUIRED ;; setLoading false)
                 (exec (validateCode false code) w1') = Return tt)
    by reflexivity.
  rewrite Hr. rewrite (exec_bind (validateCode false code)), He'.
  rewrite validateCode_exec by exact Hc.
  reflexivity.
Qed.

(** C5, amended: online, for a code other than the sentinel that
    passes validation, the code form makes no sign-in attempt of any
    kind: its only request is the invite lookup, it writes nothing,
    and it always moves to [EMAIL_REQUIRED].  The typed code is kept,
    and validating it again, as the e-mail form does, finds the same
    invite. *)
Theorem handleAuth_goes_to_email (w : World) (i : InviteCode.t) :
  let code := Js.toUpperCase (inviteCode (ui (app w))) in
  code <> ADMIN_SETUP ->
  inviteCode (ui (app w)) <> "" ->
  result (validateCode false code) w = Return (Some i) ->
  let w' := exec (handleAuth false) w in
  issued (handleAuth false) w = [Select "invites"]
  /\ writes_nothing (handleAuth false) w
  /\ authMode (auth (app w')) = AuthMode.EMAIL_REQUIRED
  /\ authError (ui (app w')) = ""
  /\ loading (global (app w')) = false
  /\ inviteCode (ui (app w')) = inviteCode (ui (app w))
  /\ result (validateCode false code) w' = Return (Some i).
Proof.
  intros code Hc Hne He w'.
  assert (Hx := handleAuth_valid w i Hc Hne He). fold w' in Hx.
  assert (Hi : issued (handleAuth false) w = [Select "invites"]).
  { apply (issued_of _ _ [Select "invites"]). fold w'. now rewrite Hx. }
  split; [exact Hi|]. split; [|rewrite Hx; repeat split].
  - split; [apply handleAuth_keeps_stored|].
    rewrite Hi. apply no_write_select.
  - rewrite <- He. unfold result.
    rewrite !validateCode_online by exact Hc. reflexivity.
Qed.

(** X28: the earlier revision did what C5 describes: right after a
    successful validation it asks for an anonymous session, and it
    moves to [EMAIL_REQUIRED] exactly when that request is rejected
    because anonymous sign-ins are disabled. *)
Lemma earlier_handleAuth_anonymous_first
  (createProfileAndEnter : string -> InviteCode.t -> M unit)
  (w : World) (i : InviteCode.t) (authErr : Error.t) :
  let code := Js.toUpperCase (inviteCode (ui (app w))) in
  inviteCode (ui (app w)) <> "" ->
  result (Earlier.validateCode false code) w = Return (Some i) ->
  let asked := SignInAnonymously
                 :: calls (supabase (exec (Earlier.validateCode false code) w)) in
  AuthResponse.error (identity (supabase w) asked) = Some authErr ->
  let w' := exec (Earlier.handleAuth false createProfileAndEnter) w in
  calls (supabase w') = asked
  /\ authMode (auth (app w'))
     = (if Earlier.anonymous_disabled authErr
        then AuthMode.EMAIL_REQUIRED else authMode (auth (app w))).
Proof.
  intros code Hne He asked Herr w'. subst w'.
  unfold Earlier.handleAuth. rewrite exec_bind_gets. fold code.
  destruct (inviteCode (ui (app w))) as [|a s] eqn:E; [contradiction|].
  unfold setLoading at 1. rewrite exec_bind_modify.
  unfold setAuthError at 1. rewrite exec_bind_modify.
  match goal with |- context [exec _ ?w1] => set (w1' := w1) end.
  revert He Herr. subst asked.
  unfold exec, result, try_catch, bind.
  unfold Earlier.validateCode.
  destruct (String.eqb code "ADMIN-SETUP").
  - simpl. intros [= <-]. unfold auth_request, request, bind, modify, gets.
    simpl. intros ->. simpl.
    destruct (Earlier.anonymous_disabled authErr); simpl; split; reflexivity.
  - unfold read,  request, bind, modify, gets, database, ret, throw. simpl.
    destruct (reachable (supabase w)); simpl; [|discriminate].
    destruct (single _) as [j|]; [|discriminate].
    destruct (InviteCode.is_used j); [discriminate|].
    intros [= <-]. unfold auth_request, request, bind, modify, gets.
    simpl. intros ->. simpl.
    destruct (Earlier.anonymous_disabled authErr); simpl; split; reflexivity.
Qed.

End IdentityResolution.

Lemma handleAuth_goes_to_email_witness :
  issued (handleAuth false) (guest_typing "g15-j01") = [Select "invites"]
  /\ authMode (auth (app (exec (handleAuth false) (guest_typing "g15-j01"))))
     = AuthMode.EMAIL_REQUIRED.
Proof.
  assert (Hc : Js.toUpperCase (inviteCode (ui (app (guest_typing "g15-j01"))))
               <> ADMIN_SETUP) by (vm_compute; discriminate).
  assert (Hne : inviteCode (ui (app (guest_typing "g15-j01"))) <> "")
    by (vm_compute; discriminate).
  destruct (handleAuth_goes_to_email (guest_typing "g15-j01")
              (unused "G15-J01" UserSegment.YOUNG) Hc Hne eq_refl)
    as (Hi & _ & Hm & _).
  split; [exact Hi | exact Hm].
Defined.

(* ================================================================== *)
(** ** Backend requests in mock mode                                  *)
(* ================================================================== *)

Section MockModeRequests.

Variable toISOString : Z -> string.

Ltac mock_gated :=
  keeps_tac;
  repeat match goal with
         | H : negb true = true |- _ => discriminate H
         end.

(** X27: the actions that consult the gate issue nothing in mock mode. *)
Lemma gated_actions_issue_nothing :
  (forall code, keeps calls (validateCode true code))
  /\ (forall userId, keeps calls (loadUserData true toISOString userId))
  /\ (forall userId invite,
         keeps calls (createProfileAndEnter true toISOString userId invite))
  /\ keeps calls (handleAuth true)
  /\ keeps calls (handleLogout true)
  /\ keeps calls (initApp true toISOString)
  /\ keeps calls (batchGenerate true)
  /\ (forall status, keeps calls (updateRsvp true toISOString status))
  /\ (forall file, keeps calls (handleUpload true toISOString file))
  /\ (forall text, keeps calls (sendMessage true toISOString text)).
Proof.
  assert (Hv : forall code, keeps calls (validateCode true code)).
  { intros code. unfold validateCode. keeps_tac. }
  assert (Hl : forall u, keeps calls (loadUserData true toISOString u)).
  { intros u. unfold loadUserData. keeps_tac. }
  repeat apply conj; auto.
  - intros userId invite. unfold createProfileAndEnter, loginUser.
    mock_gated; apply Hl.
  - unfold handleAuth. mock_gated; apply Hv.
  - unfold handleLogout. mock_gated.
  - unfold initApp. mock_gated.
  - unfold batchGenerate. mock_gated.
  - intros status. unfold updateRsvp. mock_gated.
  - intros file. unfold handleUpload. mock_gated.
  - intros text. unfold sendMessage. mock_gated.
Qed.

Lemma moderatePhoto_calls (photoId : Z) (status : PhotoStatus.t)
  (w : World) :
  calls (supabase (exec (moderatePhoto photoId status) w))
  = Select "photos" :: Update "photos" :: calls (supabase w).
Proof.
  unfold moderatePhoto, fetchPhotos, mutate_ok, mutate, read, exec, bind,
    request, gets, modify, write, database, ret.
  destruct (reachable (supabase w)) eqn:E;
    repeat (cbn; rewrite ?E); reflexivity.
Qed.

Lemma updateTable_calls (a : ascii) (s newTable : string) (w : World) :
  calls (supabase (exec (updateTable (String a s) newTable) w))
  = Update "profiles" :: calls (supabase w).
Proof.
  unfold updateTable, mutate_ok, mutate, exec, bind,
    request, gets, modify, write, database, ret.
  destruct (reachable (supabase w)) eqn:E;
    repeat (cbn; rewrite ?E); reflexivity.
Qed.

Lemma handleEmailAuth_mock_guest_calls (w : World) :
  email (auth (app w)) <> "" ->
  Js.toUpperCase (inviteCode (ui (app w))) <> ADMIN_SETUP ->
  calls (supabase (exec (handleEmailAuth true toISOString) w))
  = SignInWithOtp (email (auth (app w)))
      (Js.toUpperCase (inviteCode (ui (app w))))
    :: calls (supabase w).
Proof.
  intros Hm Hc. apply String.eqb_neq in Hc. unfold ADMIN_SETUP in Hc.
  unfold handleEmailAuth. rewrite !exec_bind_gets.
  destruct (email (auth (app w))) as [|a s]; [contradiction|].
  unfold validateCode. rewrite Hc.
  unfold exec, bind, try_catch, ret, auth_request, request, gets, modify,
    setLoading, setAuthError.
  simpl. rewrite Hc. simpl.
  destruct (AuthResponse.error _); reflexivity.
Qed.

End MockModeRequests.

(** C6 fails on the code: with mock mode on, the e-mail form sends the
    one-time-link request, photo moderation sends an update and a
    select, and table assignment sends an update.  Neither
    [moderatePhoto] nor [updateTable] consults the gate at all. *)
Theorem mock_mode_still_issues_requests :
  issued (handleEmailAuth true demo_clock) (guest_typing "g15-j01")
  = [SignInWithOtp "guest@example.com" "G15-J01"]
  /\ (forall photoId status w,
         issued (moderatePhoto photoId status) w
         = [Update "photos"; Select "photos"])
  /\ (forall newTable w,
         issued (updateTable "u-42" newTable) w = [Update "profiles"]).
Proof.
  split; [|split].
  - apply (issued_of _ _ [SignInWithOtp "guest@example.com" "G15-J01"]).
    reflexivity.
  - intros photoId status w.
    apply (issued_of _ _ [Select "photos"; Update "photos"]).
    apply moderatePhoto_calls.
  - intros newTable w. apply (issued_of _ _ [Update "profiles"]).
    apply updateTable_calls.
Qed.

(* ================================================================== *)
(** ** Subscriptions and logout                                       *)
(* ================================================================== *)

Section Returns.

Lemma returns_ret {A : Type} (a : A) : returns (ret a).
Proof. intros w. now exists a. Qed.

Lemma returns_gets {A : Type} (f : World -> A) : returns (gets f).
Proof. intros w. now exists (f w). Qed.

Lemma returns_modify (f : World -> World) : returns (modify f).
Proof. intros w. now exists tt. Qed.

Lemma returns_bind {A B : Type} (m : M A) (k : A -> M B) :
  returns m -> (forall a, returns (k a)) -> returns (bind m k).
Proof.
  intros Hm Hk w. destruct (Hm w) as [a Ha].
  rewrite result_bind, Ha. apply Hk.
Qed.

Lemma returns_when (b : bool) (m : M unit) :
  returns m -> returns (when b m).
Proof. destruct b; [trivial|intros _; apply returns_ret]. Qed.

Lemma returns_request (c : Call) : returns (request c).
Proof. apply returns_modify. Qed.

Lemma returns_auth_request (c : Call) : returns (auth_request c).
Proof.
  apply returns_bind; [apply returns_request|intros; apply returns_gets].
Qed.

Lemma returns_read {A : Type} (c : Call) (q : Database -> option A) :
  returns (read c q).
Proof.
  unfold read, database.
  apply returns_bind; [apply returns_request|]. intros _.
  apply returns_bind; [apply returns_gets|]. intros [|].
  - apply returns_bind; [apply returns_gets|intros; apply returns_ret].
  - apply returns_ret.
Qed.

Lemma returns_subscribe (t : string) : returns (subscribe t).
Proof.
  unfold subscribe.
  apply returns_bind; [apply returns_request|]. intros _.
  apply returns_bind; [apply returns_gets|]. intros l.
  apply returns_bind; [apply returns_modify|intros; apply returns_ret].
Qed.

End Returns.

Ltac returns_step :=
  lazymatch goal with
  | |- returns (bind _ _) => apply returns_bind; [|intros ?]
  | |- returns (ret _) => apply returns_ret
  | |- returns (gets _) => apply returns_gets
  | |- returns (modify _) => apply returns_modify
  | |- returns (when _ _) => apply returns_when
  | |- returns (request _) => apply returns_request
  | |- returns (auth_request _) => apply returns_auth_request
  | |- returns (read _ _) => apply returns_read
  | |- returns (subscribe _) => apply returns_subscribe
  | |- returns (match ?x with _ => _ end) => destruct x
  | |- returns _ => solve [ apply returns_modify ]
  end.

Section Subscriptions.

Variable isMockMode : bool.
Variable toISOString : Z -> string.

Lemma loadUserData_returns (userId : string) :
  returns (loadUserData isMockMode toISOString userId).
Proof. unfold loadUserData. repeat returns_step. Qed.

Lemma loginUser_returns (p : UserProfile.t) :
  returns (loginUser isMockMode toISOString p).
Proof.
  unfold loginUser. repeat returns_step; apply loadUserData_returns.
Qed.

Lemma initApp_returns : returns (initApp isMockMode toISOString).
Proof.
  unfold initApp. repeat returns_step; apply loginUser_returns.
Qed.

(** Logout closes no channel: it signs out and resets the forms. *)
Lemma handleLogout_keeps_channels : keeps channels (handleLogout isMockMode).
Proof. unfold handleLogout. keeps_tac. Qed.

End Subscriptions.

Section ThemeSubscription.

Variable toISOString : Z -> string.

Lemma mount_online (w : World) :
  let w1 := exec (initApp false toISOString) w in
  let ch := {| channel_id := fresh_id (channels (supabase w1));
               topic := theme_topic |} in
  result (mount false toISOString) w = Return (Some ch)
  /\ channels (supabase (exec (mount false toISOString) w))
     = ch :: channels (supabase w1).
Proof.
  intros w1 ch. unfold mount.
  destruct (initApp_returns false toISOString w) as [[] Hr].
  rewrite result_bind, exec_bind, Hr. fold w1. split; reflexivity.
Qed.

(** C7, as stated, fails: in an online session where the
    administrator entered and then logged out, the two channels that
    were open before the logout are open after it, and no request to
    remove a channel was ever issued. *)
Lemma logout_releases_no_subscription :
  map topic (channels (supabase logged_in)) = [chat_topic; theme_topic]
  /\ view (global (app logged_in)) = View.HOME
  /\ view (global (app logged_out)) = View.AUTH
  /\ user (global (app logged_out)) = None
  /\ channels (supabase logged_out) = channels (supabase logged_in)
  /\ forall id, ~ In (RemoveChannel id) (calls (supabase logged_out)).
Proof.
  repeat split; try reflexivity.
  intros id. vm_compute.
  intros H. repeat destruct H as [H|H]; try discriminate H. exact H.
Qed.

(** C7, amended: the theme-config subscription belongs to the page,
    not to the session.  Online, the mount effect opens it and hands
    its channel to the cleanup; in mock mode none is opened.  A logout
    leaves an open theme-config channel open; it is the cleanup, run
    when the page unmounts, that closes it.  (Nothing is said here
    about the chat-message subscription.) *)
Theorem theme_subscription_outlives_logout (isMockMode : bool) :
  (forall w, exists ch,
      result (mount false toISOString) w = Return (Some ch)
      /\ topic ch = theme_topic
      /\ In ch (channels (supabase (exec (mount false toISOString) w))))
  /\ (forall w,
         result (mount true toISOString) w = Return None
         /\ channels (supabase (exec (mount true toISOString) w))
            = channels (supabase w))
  /\ (forall w ch,
         topic ch = theme_topic ->
         In ch (channels (supabase w)) ->
         In ch (channels (supabase (exec (handleLogout isMockMode) w))))
  /\ (forall w ch,
         ~ In ch (channels (supabase (exec (unmount (Some ch)) w)))).
Proof.
  split; [|split; [|split]].
  - intros w. destruct (mount_online w) as [Hr Hc].
    eexists. split; [exact Hr|]. split; [reflexivity|].
    rewrite Hc. now left.
  - intros w. unfold mount.
    destruct (initApp_returns true toISOString w) as [[] Hr].
    rewrite result_bind, exec_bind, Hr. split; reflexivity.
  - intros w ch _ Hin. now rewrite handleLogout_keeps_channels.
  - intros w ch. unfold unmount, removeChannel, exec, bind, request, modify.
    simpl. intros Hin. apply filter_In in Hin. destruct Hin as [_ Hin].
    now rewrite Nat.eqb_refl in Hin.
Qed.

End ThemeSubscription.

Lemma theme_subscription_witness :
  In {| channel_id := 1; topic := theme_topic |}
     (channels (supabase logged_in))
  /\ In {| channel_id := 1; topic := theme_topic |}
        (channels (supabase logged_out)).
Proof.
  assert (Hin : In {| channel_id := 1; topic := theme_topic |}
                   (channels (supabase logged_in)))
    by (vm_compute; right; left; reflexivity).
  split; [exact Hin|].
  destruct (theme_subscription_outlives_logout demo_clock false)
    as (_ & _ & Hlogout & _).
  exact (Hlogout logged_in {| channel_id := 1; topic := theme_topic |}
           eq_refl Hin).
Defined.

(* ================================================================== *)
(** ** Invite generation                                              *)
(* ================================================================== *)

Section StringOrder.

Import OrderedTypeEx.

Lemma ltb_lt (a b : string) :
  String.ltb a b = true <-> String_as_OT.lt a b.
Proof.
  rewrite <- String_as_OT.cmp_lt. unfold String.ltb, String_as_OT.cmp.
  destruct (String.compare a b); split; congruence.
Qed.

Lemma ltb_irrefl (a : string) : String.ltb a a = false.
Proof.
  unfold String.ltb.
  assert (H : String.compare a a = Eq) by now apply String_as_OT.cmp_eq.
  now rewrite H.
Qed.

Lemma ltb_asym (a b : string) :
  String.ltb a b = true -> String.ltb b a = false.
Proof.
  unfold String.ltb. rewrite (String.compare_antisym a b).
  destruct (String.compare b a); simpl; congruence.
Qed.

Lemma ltb_trans (a b c : string) :
  String.ltb a b = true -> String.ltb b c = true -> String.ltb a c = true.
Proof.
  rewrite !ltb_lt. apply String_as_OT.lt_trans.
Qed.

(** Either one string is below the other, or they are equal. *)
Lemma ltb_total (a b : string) :
  String.ltb a b = true \/ a = b \/ String.ltb b a = true.
Proof.
  unfold String.ltb. rewrite (String.compare_antisym b a).
  destruct (String.compare a b) eqn:E; simpl; auto.
  right; left. now apply String.compare_eq_iff.
Qed.

Lemma not_ltb_trans (x y z : string) :
  String.ltb x y = false -> String.ltb y z = false ->
  String.ltb x z = false.
Proof.
  intros Hxy Hyz. destruct (String.ltb x z) eqn:Hxz; [|reflexivity].
  destruct (ltb_total y x) as [H|[H|H]].
  - rewrite (ltb_trans _ _ _ H Hxz) in Hyz. discriminate.
  - subst. congruence.
  - congruence.
Qed.

End StringOrder.

Section OrderDesc.

Context {A : Type} (col : A -> string).

Lemma insert_desc_In (x y : A) (l : list A) :
  In y (insert_desc col x l) <-> y = x \/ In y l.
Proof.
  induction l as [|z l IH]; simpl.
  - intuition.
  - destruct (String.ltb (col x) (col z)); simpl; rewrite ?IH; intuition.
Qed.

Lemma order_desc_In (y : A) (l : list A) :
  In y (order_desc col l) <-> In y l.
Proof.
  induction l as [|x l IH]; simpl; [tauto|].
  rewrite insert_desc_In, IH. intuition.
Qed.

Lemma order_desc_nil (l : list A) : order_desc col l = [] -> l = [].
Proof.
  destruct l as [|x l]; [trivial|]. intros H. exfalso.
  assert (Hin : In x (order_desc col (x :: l)))
    by (apply order_desc_In; now left).
  rewrite H in Hin. exact Hin.
Qed.

Lemma insert_desc_head (x m : A) (l r : list A) :
  (forall h t, l = h :: t -> tops col h l) ->
  insert_desc col x l = m :: r ->
  tops col m (x :: l).
Proof.
  intros Hl. destruct l as [|z l]; simpl.
  - intros [= <- <-] y [<-|[]]. apply ltb_irrefl.
  - destruct (String.ltb (col x) (col z)) eqn:E.
    + intros [= <- _] y [<-|Hy].
      * now apply ltb_asym.
      * now apply (Hl z l eq_refl).
    + intros [= <- _] y [<-|Hy].
      * apply ltb_irrefl.
      * eapply not_ltb_trans; [exact E|]. now apply (Hl z l eq_refl).
Qed.

(** The first row after ordering is in the list and tops col it. *)
Lemma order_desc_head (l : list A) (m : A) (r : list A) :
  order_desc col l = m :: r -> In m l /\ tops col m l.
Proof.
  intros H. split.
  - apply order_desc_In. rewrite H. now left.
  - revert m r H. induction l as [|x l IH]; intros m r H; [discriminate|].
    simpl in H.
    assert (Hl : forall h t, order_desc col l = h :: t ->
                             tops col h (order_desc col l)).
    { intros h t E y Hy. apply (IH h t E). now apply order_desc_In. }
    intros y Hy.
    apply (insert_desc_head x m (order_desc col l) r Hl H).
    destruct Hy as [<-|Hy]; [now left|right; now apply order_desc_In].
Qed.

End OrderDesc.

Section LastInvite.

(** Without a row of the prefix there is no last invite. *)
Lemma lastInvite_none (p : string) (d : Database) :
  (forall i, In i (invites d) -> prefix p (InviteCode.code i) = false) ->
  lastInvite p d = None.
Proof.
  intros H. unfold lastInvite.
  assert (E : filter (like_prefix p) (invites d) = []).
  { induction (invites d) as [|i l IH]; [reflexivity|]. simpl.
    unfold like_prefix at 1. rewrite (H i) by now left.
    apply IH. intros j Hj. apply H. now right. }
  now rewrite E.
Qed.

(** The last invite of a prefix is a row of that prefix whose code no
    other row of the prefix exceeds. *)
Lemma lastInvite_some (p : string) (d : Database) (i : InviteCode.t) :
  lastInvite p d = Some i ->
  In i (invites d) /\ prefix p (InviteCode.code i) = true
  /\ forall j, In j (invites d) -> prefix p (InviteCode.code j) = true ->
               String.ltb (InviteCode.code i) (InviteCode.code j) = false.
Proof.
  unfold lastInvite. intros H.
  destruct (order_desc InviteCode.code (filter (like_prefix p) (invites d)))
    as [|m r] eqn:E; [discriminate|].
  assert (m = i) as -> by (destruct r; simpl in H; congruence).
  destruct (order_desc_head _ _ _ _ E) as [Hin Htop].
  apply filter_In in Hin. destruct Hin as [Hin Hp].
  repeat split; auto.
  intros j Hj Hpj. apply Htop. apply filter_In. now split.
Qed.

(** With a row of the prefix there is a last invite. *)
Lemma lastInvite_exists (p : string) (d : Database) (i : InviteCode.t) :
  In i (invites d) -> prefix p (InviteCode.code i) = true ->
  exists m, lastInvite p d = Some m.
Proof.
  intros Hin Hp. unfold lastInvite.
  destruct (order_desc InviteCode.code (filter (like_prefix p) (invites d)))
    as [|m r] eqn:E.
  - apply order_desc_nil in E.
    assert (H : In i (filter (like_prefix p) (invites d)))
      by (apply filter_In; now split).
    rewrite E in H. destruct H.
  - exists m. now destruct r.
Qed.

End LastInvite.

Section Generation.

Lemma has_duplicate_false_iff (l : list string) :
  has_duplicate l = false <-> NoDup l.
Proof.
  induction l as [|x l IH]; simpl.
  - split; [constructor|reflexivity].
  - rewrite orb_false_iff, IH. split.
    + intros [Hx Hl]. constructor; [|exact Hl].
      intros Hin. assert (E : existsb (String.eqb x) l = true).
      { apply existsb_exists. exists x. split; [exact Hin|].
        apply String.eqb_refl. }
      congruence.
    + intros H. inversion H as [|? ? Hx Hl]; subst. split; [|exact Hl].
      destruct (existsb (String.eqb x) l) eqn:E; [|reflexivity].
      apply existsb_exists in E. destruct E as (y & Hy & Exy).
      apply String.eqb_eq in Exy. subst. contradiction.
Qed.

Lemma has_duplicate_app (a b : list string) :
  has_duplicate a = false -> has_duplicate b = false ->
  (forall x, In x a -> ~ In x b) ->
  has_duplicate (a ++ b) = false.
Proof.
  rewrite !has_duplicate_false_iff. intros Ha Hb Hab.
  induction a as [|x a IH]; simpl; [exact Hb|].
  inversion Ha as [|? ? Hx Ha']; subst. constructor.
  - rewrite in_app_iff. intros [H|H]; [contradiction|].
    apply (Hab x); [now left|exact H].
  - apply IH; [exact Ha'|]. intros y Hy. apply Hab. now right.
Qed.

(** What an online generation stores, when the service is reached. *)
Lemma batchGenerate_online (w : World) :
  reachable (supabase w) = true ->
  let d := db (supabase w) in
  let genSegment := genSegment (adminPanel w) in
  let p := prefix_of genSegment in
  let startNum :=
    match lastInvite p d with
    | Some i =>
        Js.add (Js.parseInt (Js.replace p "" (InviteCode.code i))) (Js.Num 1)
    | None => Js.Num 1
    end in
  db (supabase (exec (batchGenerate false) w))
  = snd (insert_invites
           (newInvites p startNum genSegment (genAmount (adminPanel w))) d).
Proof.
  intros Hup d seg p startNum.
  unfold batchGenerate. unfold setGenerating at 1.
  rewrite exec_bind_modify, !exec_bind_gets.
  cbn [adminPanel with_adminPanel genSegment genAmount negb].
  fold seg p.
  unfold read, mutate, request, database, write, showToast, setToast,
    setGenerating.
  unfold exec, bind, gets, modify, ret. cbn. rewrite Hup. cbn.
  fold d. subst startNum.
  destruct (lastInvite p d) as [i|]; cbn; rewrite Hup; cbn; fold d;
    match goal with
    | |- context [fst (insert_invites ?r ?d)] =>
        destruct (fst (insert_invites r d)); reflexivity
    end.
Qed.

End Generation.

Section GenerationExamples.

Lemma prefix_false_not_in (p : string) (l : list InviteCode.t)
  (codes : list string) :
  (forall i, In i l -> prefix p (InviteCode.code i) = false) ->
  forallb (prefix p) codes = true ->
  forall x, In x (map InviteCode.code l) -> ~ In x codes.
Proof.
  intros Hl Hc x Hx Hin.
  apply in_map_iff in Hx. destruct Hx as (i & <- & Hi).
  rewrite forallb_forall in Hc. specialize (Hc _ Hin).
  rewrite (Hl i Hi) in Hc. discriminate.
Qed.

Lemma above_not_in (p top : string) (l : list InviteCode.t)
  (codes : list string) :
  (forall i, In i l -> prefix p (InviteCode.code i) = true ->
             String.ltb top (InviteCode.code i) = false) ->
  forallb (fun c => prefix p c && String.ltb top c) codes = true ->
  forall x, In x (map InviteCode.code l) -> ~ In x codes.
Proof.
  intros Hl Hc x Hx Hin.
  apply in_map_iff in Hx. destruct Hx as (i & <- & Hi).
  rewrite forallb_forall in Hc. specialize (Hc _ Hin).
  apply andb_true_iff in Hc. destruct Hc as [Hp Hlt].
  rewrite (Hl i Hi Hp) in Hlt. discriminate.
Qed.

(** C8: online, with the service reached and distinct codes in the
    table, generation for segment YOUNG with count 10 when no code of
    the prefix exists appends exactly G15-J01 .. G15-J10, and with count
    5 when G15-J10 is the highest code of the prefix appends exactly
    G15-J11 .. G15-J15; every appended row is unused and of segment
    YOUNG.  ("Highest" is in the order the query sorts by, the order of
    the code strings.) *)
Theorem batchGenerate_young_examples (w : World) :
  let existing := invites (db (supabase w)) in
  let after n :=
    invites (db (supabase (exec (batchGenerate false)
                             (choosing UserSegment.YOUNG n w)))) in
  reachable (supabase w) = true ->
  has_duplicate (map InviteCode.code existing) = false ->
  ((forall i, In i existing -> prefix "G15-J" (InviteCode.code i) = false) ->
   after 10%nat
   = (existing ++
      unused_rows UserSegment.YOUNG
        ["G15-J01"; "G15-J02"; "G15-J03"; "G15-J04"; "G15-J05";
         "G15-J06"; "G15-J07"; "G15-J08"; "G15-J09"; "G15-J10"])%list)
  /\
  (In "G15-J10" (map InviteCode.code existing) ->
   (forall i, In i existing -> prefix "G15-J" (InviteCode.code i) = true ->
              String.ltb "G15-J10" (InviteCode.code i) = false) ->
   after 5%nat
   = (existing ++
      unused_rows UserSegment.YOUNG
        ["G15-J11"; "G15-J12"; "G15-J13"; "G15-J14"; "G15-J15"])%list).
Proof.
  intros existing after Hup Hdup. subst after. split.
  - intros Hnone.
    rewrite (batchGenerate_online (choosing UserSegment.YOUNG 10 w) Hup).
    cbn [choosing adminPanel with_adminPanel genSegment genAmount supabase].
    change (prefix_of UserSegment.YOUNG) with "G15-J".
    rewrite lastInvite_none by exact Hnone.
    unfold insert_invites. fold existing.
    rewrite map_app, has_duplicate_app; [reflexivity|exact Hdup|reflexivity|].
    apply (prefix_false_not_in "G15-J" existing); [exact Hnone|reflexivity].
  - intros Hin Htop.
    rewrite (batchGenerate_online (choosing UserSegment.YOUNG 5 w) Hup).
    cbn [choosing adminPanel with_adminPanel genSegment genAmount supabase].
    change (prefix_of UserSegment.YOUNG) with "G15-J".
    apply in_map_iff in Hin. destruct Hin as (r & Hr & Hin).
    destruct (lastInvite_exists "G15-J" (db (supabase w)) r Hin) as [m Hm].
    { now rewrite Hr. }
    destruct (lastInvite_some _ _ _ Hm) as (Hmin & Hmp & Hmtop).
    assert (Hcode : InviteCode.code m = "G15-J10").
    { destruct (ltb_total (InviteCode.code m) "G15-J10") as [H|[H|H]].
      - rewrite <- Hr in H. rewrite (Hmtop r Hin) in H; [discriminate|].
        now rewrite Hr.
      - exact H.
      - rewrite (Htop m Hmin Hmp) in H. discriminate. }
    rewrite Hm, Hcode.
    unfold insert_invites. fold existing.
    rewrite map_app, has_duplicate_app; [reflexivity|exact Hdup|reflexivity|].
    apply (above_not_in "G15-J" "G15-J10" existing);
      [exact Htop|reflexivity].
Qed.

End GenerationExamples.

Lemma batchGenerate_young_witness :
  map InviteCode.code
    (invites (db (supabase
       (exec (batchGenerate false)
          (choosing UserSegment.YOUNG 10
             (page (backend_with [] accepting) 0))))))
  = ["G15-J01"; "G15-J02"; "G15-J03"; "G15-J04"; "G15-J05";
     "G15-J06"; "G15-J07"; "G15-J08"; "G15-J09"; "G15-J10"]
  /\
  map InviteCode.code
    (invites (db (supabase
       (exec (batchGenerate false)
          (choosing UserSegment.YOUNG 5
             (page (backend_with
                      [unused "G15-J09" UserSegment.YOUNG;
                       unused "G15-A31" UserSegment.ADULT;
                       unused "G15-J10" UserSegment.YOUNG] accepting) 0))))))
  = ["G15-J09"; "G15-A31"; "G15-J10";
     "G15-J11"; "G15-J12"; "G15-J13"; "G15-J14"; "G15-J15"].
Proof.
  split.
  - destruct (batchGenerate_young_examples
                (page (backend_with [] accepting) 0) eq_refl eq_refl)
      as [H _].
    rewrite H; [reflexivity|]. intros i [].
  - destruct (batchGenerate_young_examples
                (page (backend_with
                         [unused "G15-J09" UserSegment.YOUNG;
                          unused "G15-A31" UserSegment.ADULT;
                          unused "G15-J10" UserSegment.YOUNG] accepting) 0)
                eq_refl eq_refl)
      as [_ H].
    rewrite H; [reflexivity| |].
    + simpl. auto.
    + intros i [<-|[<-|[<-|[]]]]; intros _; reflexivity.
Defined.

Section Reuse.

(** C3 fails on the code once the numbers pass 99.  Starting from an
    empty table, generating 100 codes for YOUNG stores G15-J01 ..
    G15-J100.  The next generation sorts the codes as strings, takes
    G15-J99 for the last one and starts again at 100: the first code it
    builds is the existing G15-J100, and the insert is refused. *)
Theorem batchGenerate_reuses_100 :
  let w100 := exec (batchGenerate false)
                (choosing UserSegment.YOUNG 100
                   (page (backend_with [] accepting) 0)) in
  let d := db (supabase w100) in
  let w' := exec (batchGenerate false) (choosing UserSegment.YOUNG 10 w100) in
  List.length (invites d) = 100%nat
  /\ In "G15-J99" (map InviteCode.code (invites d))
  /\ In "G15-J100" (map InviteCode.code (invites d))
  /\ option_map InviteCode.code (lastInvite "G15-J" d) = Some "G15-J99"
  /\ map InviteCode.code
       (newInvites "G15-J"
          (Js.add (Js.parseInt (Js.replace "G15-J" "" "G15-J99")) (Js.Num 1))
          UserSegment.YOUNG 10)
     = ["G15-J100"; "G15-J101"; "G15-J102"; "G15-J103"; "G15-J104";
        "G15-J105"; "G15-J106"; "G15-J107"; "G15-J108"; "G15-J109"]
  /\ invites (db (supabase w')) = invites d
  /\ toast (ui (app w'))
     = Some {| msg := "Error generando: duplicate key value violates unique constraint";
               toast_type := error_toast |}.
Proof.
  vm_compute. repeat split; try reflexivity.
  - do 98 right. left. reflexivity.
  - do 99 right. left. reflexivity.
Qed.

(** The same on a table holding just the two codes of different
    widths. *)
Lemma lastInvite_mixed_width :
  let d := db (backend_with [unused "G15-J99" UserSegment.YOUNG;
                             unused "G15-J100" UserSegment.YOUNG] accepting) in
  option_map InviteCode.code (lastInvite "G15-J" d) = Some "G15-J99"
  /\ String.ltb "G15-J100" "G15-J99" = true.
Proof. split; reflexivity. Qed.

End Reuse.

(* ================================================================== *)
(** ** Photo storage paths                                            *)
(* ================================================================== *)

Section Characters.

Lemma has_char_app (c : ascii) (a b : string) :
  has_char c (a ++ b) = has_char c a || has_char c b.
Proof.
  induction a as [|x a IH]; simpl; [reflexivity|].
  now rewrite IH, orb_assoc.
Qed.




End Characters.

Section Sanitizing.




(** The pieces of a split hold no separator. *)
Lemma split_no_sep (sep : ascii) (s : string) :
  Forall (fun x => has_char sep x = false) (Js.split sep s).
Proof.
  induction s as [|c s IH]; simpl.
  - repeat constructor.
  - destruct (Ascii.eqb_spec c sep) as [->|Hne].
    + constructor; [reflexivity|exact IH].
    + destruct (Js.split sep s) as [|x xs].
      * repeat constructor. simpl.
        destruct (Ascii.eqb_spec c sep); [contradiction|reflexivity].
      * inversion IH; subst. constructor; [|assumption]. simpl.
        destruct (Ascii.eqb_spec c sep); [contradiction|assumption].
Qed.


Lemma pop_In {A : Type} (l : list A) (x : A) : Js.pop l = Some x -> In x l.
Proof.
  induction l as [|y l IH]; simpl; [discriminate|].
  destruct l as [|z l]; [intros [= ->]; now left|].
  intros H. right. now apply IH.
Qed.

Lemma pop_some {A : Type} (l : list A) : l <> [] -> exists x, Js.pop l = Some x.
Proof.
  induction l as [|y l IH]; [contradiction|]. intros _.
  destruct l as [|z l]; [now exists y|].
  destruct IH as [x Hx]; [discriminate|]. now exists x.
Qed.

Lemma split_without_sep (sep : ascii) (s : string) :
  has_char sep s = false -> Js.split sep s = [s].
Proof.
  induction s as [|c s IH]; simpl; [reflexivity|].
  intros H. apply orb_false_iff in H. destruct H as [Hc Hs].
  now rewrite Hc, (IH Hs).
Qed.




End Sanitizing.

Section Numbers.





End Numbers.

Section StoragePath.




End StoragePath.


(* ================================================================== *)
(** ** Generation while the numbers have two digits                   *)
(* ================================================================== *)

Section TwoDigits.

(** Below 100 the string order of the codes is the order of their
    numbers, and the number is read back from the code.  Checked on
    every pair of numbers, for both prefixes. *)
Lemma two_digit_table :
  forallb (fun p =>
    forallb (fun a =>
      match Js.parseInt (Js.replace p "" (code_of p a)) with
      | Js.Num z => Z.eqb z (Z.of_nat a)
      | Js.NaN => false
      end
      && forallb (fun b =>
           Bool.eqb (String.ltb (code_of p a) (code_of p b)) (a <? b)%nat)
           (seq 0 100))
      (seq 0 100))
    ["G15-J"; "G15-A"] = true.
Proof. vm_compute. reflexivity. Qed.

Lemma prefix_of_cases (seg : UserSegment.t) :
  In (prefix_of seg) ["G15-J"; "G15-A"].
Proof. destruct seg; simpl; auto. Qed.

Lemma two_digit_facts (seg : UserSegment.t) (a : nat) :
  (a < 100)%nat ->
  Js.parseInt (Js.replace (prefix_of seg) "" (code_of (prefix_of seg) a))
  = Js.Num (Z.of_nat a)
  /\ forall b, (b < 100)%nat ->
       String.ltb (code_of (prefix_of seg) a) (code_of (prefix_of seg) b)
       = (a <? b)%nat.
Proof.
  intros Ha.
  assert (H := two_digit_table). rewrite forallb_forall in H.
  specialize (H _ (prefix_of_cases seg)). rewrite forallb_forall in H.
  specialize (H a). rewrite in_seq in H. specialize (H ltac:(lia)).
  apply andb_true_iff in H. destruct H as [Hp Ho]. split.
  - destruct (Js.parseInt _) as [z|]; [|discriminate].
    apply Z.eqb_eq in Hp. now subst.
  - intros b Hb. rewrite forallb_forall in Ho. specialize (Ho b).
    rewrite in_seq in Ho. specialize (Ho ltac:(lia)).
    now apply Bool.eqb_prop in Ho.
Qed.

Lemma code_of_inj (seg : UserSegment.t) (a b : nat) :
  (a < 100)%nat -> (b < 100)%nat ->
  code_of (prefix_of seg) a = code_of (prefix_of seg) b -> a = b.
Proof.
  intros Ha Hb E.
  destruct (two_digit_facts seg a Ha) as [_ Hab].
  destruct (two_digit_facts seg b Hb) as [_ Hba].
  specialize (Hab b Hb). specialize (Hba a Ha).
  rewrite E, ltb_irrefl in Hab. rewrite <- E, ltb_irrefl in Hba.
  symmetry in Hab, Hba. apply Nat.ltb_ge in Hab, Hba. lia.
Qed.

Lemma code_of_prefix (p : string) (k : nat) : prefix p (code_of p k) = true.
Proof. apply prefix_iff. now eexists. Qed.

Lemma newInvites_codes (p : string) (s : nat) (seg : UserSegment.t)
  (n : nat) :
  newInvites p (Js.Num (Z.of_nat s)) seg n
  = map (fun j => unused (code_of p (s + j)) seg) (seq 0 n).
Proof.
  unfold newInvites. apply map_ext. intros j.
  unfold unused, virtual_invite, code_of. simpl Js.add.
  now rewrite Nat2Z.inj_add.
Qed.

Lemma NoDup_map_on {A B : Type} (f : A -> B) (l : list A) :
  (forall a b, In a l -> In b l -> f a = f b -> a = b) ->
  NoDup l -> NoDup (map f l).
Proof.
  intros Hinj Hl. induction Hl as [|x l Hx Hl IH]; simpl; constructor.
  - intros Hin. apply in_map_iff in Hin. destruct Hin as (y & E & Hy).
    assert (y = x) by (apply Hinj; simpl; auto). now subst.
  - apply IH. intros a b Ha Hb. apply Hinj; now right.
Qed.

(** X26: the counterpart of C3 that the code does satisfy.  Online, with
    the service reached and distinct stored codes, when the codes of the
    prefix are numbered up to [m] (none when [m] is 0) and the new
    numbers stay below 100, generation appends exactly the codes
    numbered [m + 1 .. m + n]: it starts right after the highest number
    and reuses none. *)
Lemma batchGenerate_below_100 (w : World) (seg : UserSegment.t)
  (n m : nat) :
  let p := prefix_of seg in
  let existing := invites (db (supabase w)) in
  reachable (supabase w) = true ->
  has_duplicate (map InviteCode.code existing) = false ->
  (forall i, In i existing -> prefix p (InviteCode.code i) = true ->
             exists k, (k <= m)%nat /\ InviteCode.code i = code_of p k) ->
  (m = 0%nat \/ In (code_of p m) (map InviteCode.code existing)) ->
  (m + n < 100)%nat ->
  invites (db (supabase (exec (batchGenerate false) (choosing seg n w))))
  = (existing ++
     map (fun j => unused (code_of p (m + 1 + j)) seg) (seq 0 n))%list.
Proof.
  intros p existing Hup Hdup Hform Hm Hlt.
  rewrite (batchGenerate_online (choosing seg n w) Hup).
  cbn [choosing adminPanel with_adminPanel genSegment genAmount supabase].
  fold p.
  assert (Hstart :
            match lastInvite p (db (supabase w)) with
            | Some i =>
                Js.add (Js.parseInt (Js.replace p "" (InviteCode.code i)))
                  (Js.Num 1)
            | None => Js.Num 1
            end = Js.Num (Z.of_nat (m + 1))).
  { destruct (lastInvite p (db (supabase w))) as [i|] eqn:El.
    - destruct (lastInvite_some _ _ _ El) as (Hin & Hp & Htop).
      destruct (Hform i Hin Hp) as (k & Hk & Ek).
      assert (k = m) as ->.
      { destruct Hm as [->|Hm]; [lia|].
        apply in_map_iff in Hm. destruct Hm as (r & Er & Hr).
        assert (Hpr : prefix p (InviteCode.code r) = true)
          by (rewrite Er; apply code_of_prefix).
        specialize (Htop r Hr Hpr). rewrite Ek, Er in Htop.
        destruct (two_digit_facts seg k ltac:(lia)) as [_ Ho].
        fold p in Ho. rewrite (Ho m ltac:(lia)) in Htop.
        apply Nat.ltb_ge in Htop. lia. }
      rewrite Ek.
      destruct (two_digit_facts seg m ltac:(lia)) as [Hparse _].
      fold p in Hparse. rewrite Hparse. simpl. f_equal. lia.
    - destruct Hm as [->|Hm]; [reflexivity|]. exfalso.
      apply in_map_iff in Hm. destruct Hm as (r & Er & Hr).
      destruct (lastInvite_exists p (db (supabase w)) r Hr) as [x Hx].
      + rewrite Er. apply code_of_prefix.
      + congruence. }
  rewrite Hstart, newInvites_codes.
  unfold insert_invites. fold existing.
  rewrite map_app, has_duplicate_app; [reflexivity|exact Hdup| |].
  - rewrite map_map. simpl.
    apply has_duplicate_false_iff.
    apply NoDup_map_on; [|apply seq_NoDup].
    intros a b Ha Hb E. apply in_seq in Ha, Hb.
    apply (code_of_inj seg) in E; lia.
  - intros x Hx Hnew.
    rewrite map_map in Hnew. simpl in Hnew.
    apply in_map_iff in Hnew. destruct Hnew as (j & Ej & Hj).
    apply in_seq in Hj.
    apply in_map_iff in Hx. destruct Hx as (r & Er & Hr).
    assert (Hpr : prefix p (InviteCode.code r) = true)
      by (rewrite Er, <- Ej; apply code_of_prefix).
    destruct (Hform r Hr Hpr) as (k & Hk & Ek).
    rewrite Er, <- Ej in Ek.
    apply (code_of_inj seg) in Ek; lia.
Qed.

End TwoDigits.

(* ================================================================== *)
(** ** The client's configuration                                     *)
(* ================================================================== *)

Section ClientConfiguration.

Import supabaseClient.

(** X1: the client is never created with an empty URL or key; outside
    mock mode it is created with exactly the two configured values, and
    the URL it gets holds no "placeholder"; with the URL missing or
    empty it gets the placeholder URL, and mock mode is on. *)
Theorem client_configuration (env : option Env) :
  supabaseUrl env <> "" /\ supabaseAnonKey env <> ""
  /\ (isMockMode env = false ->
      url env = Some (supabaseUrl env)
      /\ key env = Some (supabaseAnonKey env)
      /\ Js.includes "placeholder" (supabaseUrl env) = false)
  /\ (Js.falsy (url env) = true ->
      supabaseUrl env = "https://placeholder.supabase.co"
      /\ isMockMode env = true)
  /\ (Js.falsy (key env) = true ->
      supabaseAnonKey env = "placeholder-key" /\ isMockMode env = true).
Proof.
  unfold supabaseUrl, supabaseAnonKey, isMockMode.
  destruct (url env) as [[|c u]|], (key env) as [[|c' k]|];
    cbn [Js.falsy orb];
    repeat apply conj; try discriminate; try reflexivity; intros H;
    try discriminate H; repeat apply conj; try reflexivity;
    try (now rewrite orb_true_r); try exact H.
Qed.

End ClientConfiguration.

(* ================================================================== *)
(** ** Printing and reading back the number of a code                 *)
(* ================================================================== *)

Section CodeNumbers.






Lemma usize_ge (d : Decimal.uint) : (0 <= Z.of_N (Unsigned.usize d))%Z.
Proof. apply N2Z.is_nonneg. Qed.








End CodeNumbers.

(* ================================================================== *)
(** ** Generation: numbering, atomicity, validation of what is stored *)
(* ================================================================== *)

Section MoreGeneration.

(** The two ways an insert of invites ends. *)
Lemma insert_invites_cases (rows : list InviteCode.t) (d : Database) :
  (fst (insert_invites rows d) <> None
   /\ snd (insert_invites rows d) = d
   /\ has_duplicate (map InviteCode.code (invites d ++ rows)%list) = true)
  \/ (fst (insert_invites rows d) = None
      /\ snd (insert_invites rows d) = set_invites (invites d ++ rows)%list d
      /\ has_duplicate (map InviteCode.code (invites d ++ rows)%list) = false).
Proof.
  unfold insert_invites.
  destruct (has_duplicate _); [left|right]; repeat split; discriminate.
Qed.

(** The whole of an online generation: what is stored, what the toast
    says, and how the action ends. *)
Lemma batchGenerate_online_state (w : World) :
  let d := db (supabase w) in
  let seg := genSegment (adminPanel w) in
  let p := prefix_of seg in
  let n := genAmount (adminPanel w) in
  let startNum :=
    match (if reachable (supabase w) then lastInvite p d else None) with
    | Some i =>
        Js.add (Js.parseInt (Js.replace p "" (InviteCode.code i))) (Js.Num 1)
    | None => Js.Num 1
    end in
  let r := if reachable (supabase w)
           then insert_invites (newInvites p startNum seg n) d
           else (Some network_error, d) in
  let w' := exec (batchGenerate false) w in
  db (supabase w') = snd r
  /\ toast (ui (app w'))
     = Some (match fst r with
             | Some e => {| msg := "Error generando: " ++ Error.message e;
                            toast_type := error_toast |}
             | None => {| msg := "Generados "
                                 ++ Js.toString (Js.Num (Z.of_nat n))
                                 ++ " códigos (" ++ p ++ "...)";
                          toast_type := success |}
             end)
  /\ generating (adminPanel w') = false
  /\ reachable (supabase w') = reachable (supabase w)
  /\ user_photos (supabase w') = user_photos (supabase w)
  /\ result (batchGenerate false) w = Return tt.
Proof.
  intros d seg p n startNum r w'. subst w'.
  unfold batchGenerate, result, read, mutate, request, database, write,
    showToast, setToast, setGenerating.
  unfold exec, bind, gets, modify, ret.
  cbn -[insert_invites newInvites lastInvite Js.toString append].
  fold d seg p n. subst r startNum.
  destruct (reachable (supabase w)) eqn:Hup;
    cbn -[insert_invites newInvites lastInvite Js.toString append]; fold d.
  - destruct (lastInvite p d) as [i|];
      cbn -[insert_invites newInvites lastInvite Js.toString append];
      rewrite ?Hup;
      cbn -[insert_invites newInvites lastInvite Js.toString append];
      subst d n p seg;
      match goal with
      | |- context [fst (insert_invites ?r ?d)] =>
          destruct (fst (insert_invites r d));
          cbn -[insert_invites newInvites lastInvite Js.toString append];
          rewrite ?Hup; repeat split
      end.
  - rewrite ?Hup. cbn. rewrite ?Hup. repeat split.
Qed.


Lemma insert_invites_appended (rows : list InviteCode.t) (d : Database) :
  invites (snd (insert_invites rows d)) = appended rows (invites d).
Proof.
  unfold insert_invites, appended. now destruct (has_duplicate _).
Qed.


End MoreGeneration.


Section Atomicity.

Lemma newInvites_length (p : string) (s : Js.number) (seg : UserSegment.t)
  (n : nat) : List.length (newInvites p s seg n) = n.
Proof. unfold newInvites. now rewrite length_map, length_seq. Qed.

Lemma newInvites_fresh (s : Js.number) (seg : UserSegment.t) (n : nat) :
  Forall (fresh_row seg) (newInvites (prefix_of seg) s seg n).
Proof.
  unfold newInvites. apply Forall_forall. intros i Hi.
  apply in_map_iff in Hi. destruct Hi as (j & <- & _).
  repeat split. cbn [InviteCode.code]. apply prefix_iff. now eexists.
Qed.

Lemma other_tables_insert (rows : list InviteCode.t) (d : Database) :
  other_tables (snd (insert_invites rows d)) = other_tables d.
Proof. unfold insert_invites. now destruct (has_duplicate _). Qed.

(** X3: an online generation stores its whole batch or nothing.  It
    always runs to its end and clears [generating]; it touches no table
    but [invites] and no stored object; [invites] is then what it was,
    with an error toast, or what it was followed by exactly [genAmount]
    rows, all unused, of the chosen segment and under its prefix, with a
    success toast, and then no two stored codes are equal.  When the
    service is not reached the table is what it was. *)
Theorem batchGenerate_all_or_nothing (w : World) :
  let seg := genSegment (adminPanel w) in
  let w' := exec (batchGenerate false) w in
  let before := invites (db (supabase w)) in
  let after := invites (db (supabase w')) in
  result (batchGenerate false) w = Return tt
  /\ generating (adminPanel w') = false
  /\ other_tables (db (supabase w')) = other_tables (db (supabase w))
  /\ user_photos (supabase w') = user_photos (supabase w)
  /\ ((after = before
       /\ exists e, toast (ui (app w'))
                    = Some {| msg := "Error generando: " ++ e;
                              toast_type := error_toast |})
      \/ (exists rows,
             after = (before ++ rows)%list
             /\ List.length rows = genAmount (adminPanel w)
             /\ Forall (fresh_row seg) rows
             /\ distinct_codes (supabase w')
             /\ toast_type_of (toast (ui (app w'))) = Some success))
  /\ (reachable (supabase w) = false -> after = before).
Proof.
  intros seg w' before after.
  destruct (batchGenerate_online_state w) as (Hdb & Ht & Hg & _ & Hp & Hr).
  fold w' in Hdb, Ht, Hg, Hp. fold seg in Hdb, Ht.
  subst after before. unfold distinct_codes. rewrite Hdb.
  repeat apply conj; auto.
  - destruct (reachable (supabase w)); [|reflexivity].
    apply other_tables_insert.
  - destruct (reachable (supabase w)).
    + match goal with
      | |- context [insert_invites ?r ?d] =>
          destruct (insert_invites_cases r d) as [(He & -> & _)|(He & -> & Hd)];
          rewrite ?He in Ht
      end.
      * left. split; [reflexivity|].
        rewrite Ht. destruct (fst (insert_invites _ _)) as [e|]; [|now elim He].
        now exists (Error.message e).
      * right. eexists. split; [reflexivity|].
        rewrite newInvites_length. split; [reflexivity|].
        split; [apply newInvites_fresh|]. split; [exact Hd|].
        now rewrite Ht.
    + left. split; [reflexivity|]. rewrite Ht. now eexists.
  - now intros ->.
Qed.

Lemma filter_none {A : Type} (f : A -> bool) (l : list A) :
  (forall x, In x l -> f x = false) -> filter f l = [].
Proof.
  induction l as [|a l IH]; intros H; [reflexivity|]. simpl.
  rewrite (H a) by now left. apply IH. intros x Hx. apply H. now right.
Qed.

Lemma filter_unique {A : Type} (f : A -> string) (l : list A) (i : A) :
  NoDup (map f l) -> In i l ->
  filter (fun x => String.eqb (f x) (f i)) l = [i].
Proof.
  induction l as [|a l IH]; intros Hnd Hin; [destruct Hin|].
  cbn [map] in Hnd. inversion Hnd as [|? ? Ha Hl]; subst.
  cbn [filter]. destruct Hin as [->|Hin].
  - rewrite String.eqb_refl. f_equal. apply filter_none.
    intros x Hx. apply String.eqb_neq. intros E. apply Ha.
    rewrite <- E. now apply in_map.
  - assert (Hne : String.eqb (f a) (f i) = false).
    { apply String.eqb_neq. intros E. apply Ha. rewrite E.
      now apply in_map. }
    rewrite Hne. now apply IH.
Qed.

(** With distinct stored codes and the service reached, a stored code
    validates to its own row. *)
Lemma validateCode_stored (w : World) (i : InviteCode.t) :
  reachable (supabase w) = true -> distinct_codes (supabase w) ->
  In i (invites (db (supabase w))) -> InviteCode.code i <> ADMIN_SETUP ->
  result (validateCode false (InviteCode.code i)) w
  = if InviteCode.is_used i then Throw AlreadyUsed else Return (Some i).
Proof.
  intros Hup Hd Hin Hne. unfold result.
  rewrite (validateCode_online _ _ Hne). cbn [fst]. rewrite Hup.
  unfold rows_with.
  rewrite (filter_unique InviteCode.code); [reflexivity| |exact Hin].
  now apply has_duplicate_false_iff.
Qed.

(** X4: generation keeps the stored codes distinct, and what it stores
    can be redeemed.  Online, with the service reached and no two stored
    codes equal, no two stored codes are equal after [batchGenerate],
    and validating the code of any stored row but the sentinel then
    finds that very row: returned when it is unused, refused as already
    used otherwise. *)
Theorem stored_codes_validate (w : World) :
  reachable (supabase w) = true -> distinct_codes (supabase w) ->
  let w' := exec (batchGenerate false) w in
  distinct_codes (supabase w')
  /\ forall i,
       In i (invites (db (supabase w'))) ->
       InviteCode.code i <> ADMIN_SETUP ->
       result (validateCode false (InviteCode.code i)) w'
       = if InviteCode.is_used i then Throw AlreadyUsed
         else Return (Some i).
Proof.
  intros Hup Hd w'.
  destruct (batchGenerate_online_state w) as (Hdb & _ & _ & Hup' & _).
  fold w' in Hdb, Hup'. rewrite Hup in Hdb, Hup'.
  assert (Hd' : distinct_codes (supabase w')).
  { unfold distinct_codes. rewrite Hdb.
    match goal with
    | |- context [insert_invites ?r ?d] =>
        destruct (insert_invites_cases r d) as [(_ & -> & _)|(_ & -> & H)]
    end; [exact Hd|exact H]. }
  split; [exact Hd'|]. intros i Hin Hne.
  now apply validateCode_stored.
Qed.

Lemma upper_char_not_a (c : ascii) : Ascii.eqb (Js.upper_char c) "a" = false.
Proof. destruct c as [[] [] [] [] [] [] [] []]; reflexivity. Qed.

Lemma toUpperCase_no_a (s : string) : has_char "a" (Js.toUpperCase s) = false.
Proof.
  induction s as [|c s IH]; [reflexivity|].
  cbn [Js.toUpperCase has_char]. now rewrite upper_char_not_a.
Qed.

Lemma has_duplicate_twice (x : string) (l r : list string) :
  has_duplicate (l ++ x :: x :: r) = true.
Proof.
  induction l as [|a l IH]; simpl.
  - now rewrite String.eqb_refl.
  - rewrite IH. apply orb_true_r.
Qed.

(** X5: a last code whose suffix is no number poisons the batch.  When
    the row the query returns as the last one of the prefix has a suffix
    [parseInt] reads as [NaN], every row of the batch gets the one code
    [prefix ++ "NaN"]: a batch of two or more is refused as a whole, and
    the code is one the login form, which upper-cases what is typed,
    never submits. *)
Theorem batchGenerate_unreadable_number (w : World) (i : InviteCode.t) :
  let seg := genSegment (adminPanel w) in
  let p := prefix_of seg in
  let d := db (supabase w) in
  let n := genAmount (adminPanel w) in
  let after := invites (db (supabase (exec (batchGenerate false) w))) in
  reachable (supabase w) = true ->
  lastInvite p d = Some i ->
  Js.parseInt (Js.replace p "" (InviteCode.code i)) = Js.NaN ->
  after = appended (repeat (unused (p ++ "NaN") seg) n) (invites d)
  /\ ((2 <= n)%nat -> after = invites d)
  /\ forall typed, Js.toUpperCase typed <> p ++ "NaN".
Proof.
  intros seg p d n after Hup Hl Hnan. subst after.
  rewrite (batchGenerate_online w Hup). fold seg p d n.
  rewrite insert_invites_appended, Hl, Hnan.
  assert (Hrows : newInvites p (Js.add Js.NaN (Js.Num 1)) seg n
                  = repeat (unused (p ++ "NaN") seg) n).
  { transitivity (repeat (unused (p ++ "NaN") seg)
                    (List.length (seq 0 n))); [|now rewrite length_seq].
    unfold newInvites.
    induction (seq 0 n) as [|a l IH]; [reflexivity|].
    cbn [map repeat List.length]. now rewrite IH. }
  rewrite Hrows. split; [reflexivity|]. split.
  - intros Hn. unfold appended.
    destruct n as [|[|k]]; try lia. cbn [repeat].
    rewrite map_app. cbn [map]. now rewrite has_duplicate_twice.
  - intros typed E.
    assert (H := toUpperCase_no_a typed). rewrite E, has_char_app in H.
    apply orb_false_iff in H. destruct H as [_ H]. discriminate H.
Qed.

End Atomicity.

Lemma stored_codes_validate_witness :
  let w' := exec (batchGenerate false)
              (choosing UserSegment.YOUNG 2 (page demo_backend 0)) in
  result (validateCode false "G15-J04") w'
  = Return (Some (unused "G15-J04" UserSegment.YOUNG))
  /\ result (validateCode false "G15-J02") w' = Throw AlreadyUsed.
Proof.
  destruct (stored_codes_validate
              (choosing UserSegment.YOUNG 2 (page demo_backend 0))
              eq_refl eq_refl) as [_ H].
  split.
  - apply (H (unused "G15-J04" UserSegment.YOUNG)).
    + vm_compute. tauto.
    + discriminate.
  - apply (H {| InviteCode.code := "G15-J02";
                InviteCode.segment := UserSegment.YOUNG;
                InviteCode.is_used := true;
                InviteCode.used_by := Some "u-17" |}).
    + vm_compute. tauto.
    + discriminate.
Defined.

Lemma batchGenerate_unreadable_number_witness :
  let w := choosing UserSegment.YOUNG 2
             (page (backend_with [unused "G15-JVIP" UserSegment.YOUNG]
                      accepting) 0) in
  invites (db (supabase (exec (batchGenerate false) w)))
  = [unused "G15-JVIP" UserSegment.YOUNG].
Proof.
  intros w.
  destruct (batchGenerate_unreadable_number w
              (unused "G15-JVIP" UserSegment.YOUNG)
              eq_refl eq_refl eq_refl) as (_ & H & _).
  apply H. cbn. lia.
Defined.

Lemma batchGenerate_below_100_witness :
  invites (db (supabase
     (exec (batchGenerate false)
        (choosing UserSegment.YOUNG 3
           (page (backend_with [unused "G15-J01" UserSegment.YOUNG;
                                unused "G15-J02" UserSegment.YOUNG]
                    accepting) 0)))))
  = unused_rows UserSegment.YOUNG
      ["G15-J01"; "G15-J02"; "G15-J03"; "G15-J04"; "G15-J05"].
Proof.
  rewrite (batchGenerate_below_100
             (page (backend_with [unused "G15-J01" UserSegment.YOUNG;
                                  unused "G15-J02" UserSegment.YOUNG]
                      accepting) 0)
             UserSegment.YOUNG 3 2).
  - reflexivity.
  - reflexivity.
  - reflexivity.
  - intros i [<-|[<-|[]]] _; [exists 1%nat|exists 2%nat]; split;
      (lia || reflexivity).
  - right. cbn. tauto.
  - lia.
Defined.

(* ================================================================== *)
(** ** The exported guest list                                        *)
(* ================================================================== *)

Section Csv.

Lemma split_append (sep : ascii) (x r : string) :
  has_char sep x = false ->
  Js.split sep (x ++ String sep r) = x :: Js.split sep r.
Proof.
  induction x as [|c x IH]; intros H.
  - cbn [append Js.split]. now rewrite Ascii.eqb_refl.
  - cbn [has_char] in H. apply orb_false_iff in H. destruct H as [Hc Hx].
    cbn [append Js.split]. rewrite Hc, (IH Hx). reflexivity.
Qed.

Lemma split_join (sep : ascii) (l : list string) :
  l <> [] -> Forall (fun x => has_char sep x = false) l ->
  Js.split sep (JsArray.join (String sep "") l) = l.
Proof.
  induction l as [|x l IH]; intros Hne Hl; [now elim Hne|].
  inversion Hl as [|? ? Hx Hl']; subst.
  destruct l as [|y l].
  - cbn [JsArray.join]. now apply split_without_sep.
  - change (JsArray.join (String sep "") (x :: y :: l))
      with (x ++ String sep (JsArray.join (String sep "") (y :: l))).
    rewrite split_append by exact Hx. f_equal. apply IH; [discriminate|exact Hl'].
Qed.

Lemma has_char_join (c : ascii) (sep : string) (l : list string) :
  has_char c sep = false -> Forall (fun x => has_char c x = false) l ->
  has_char c (JsArray.join sep l) = false.
Proof.
  intros Hs Hl. induction Hl as [|x l Hx Hl IH]; [reflexivity|].
  destruct l as [|y l]; [exact Hx|].
  change (JsArray.join sep (x :: y :: l))
    with (x ++ sep ++ JsArray.join sep (y :: l)).
  now rewrite !has_char_app, Hx, Hs, IH.
Qed.

(** X6: the exported text reads back as the guest list exactly when no
    cell needs quoting.  If no cell of a guest's row holds a comma or a
    line feed, splitting the text at line feeds and each line at commas
    gives the header cells followed by every guest's five cells, in
    order; a name that holds a comma, written as it is, does not come
    back as one cell. *)
Theorem csv_reads_back (guests : list Guest) :
  (forall g f, In g guests -> In f (csvRow g) ->
               has_char "," f = false /\ has_char "010" f = false) ->
  map (Js.split ",") (Js.split "010" (csvBody guests))
  = csvHeaders :: map csvRow guests
  /\ forall g, has_char "," (UserProfile.name (guest g)) = true ->
       Js.split "," (JsArray.join "," (csvRow g)) <> csvRow g.
Proof.
  intros Hclean. split.
  - unfold csvBody.
    change newline with (String "010" "").
    rewrite split_join; [|discriminate|].
    + cbn [map]. f_equal.
      rewrite map_map, map_map.
      apply map_ext_in. intros g Hg.
      change "," with (String "," "").
      apply split_join; [discriminate|].
      apply Forall_forall. intros f Hf. now apply (Hclean g f).
    + constructor; [reflexivity|].
      apply Forall_forall. intros line Hline.
      rewrite map_map in Hline. apply in_map_iff in Hline.
      destruct Hline as (g & <- & Hg).
      apply has_char_join; [reflexivity|].
      apply Forall_forall. intros f Hf. now apply (Hclean g f).
  - intros g Hcomma E.
    assert (H := split_no_sep "," (JsArray.join "," (csvRow g))).
    rewrite E in H. inversion H as [|? ? Hname _]; subst.
    cbn in Hname. congruence.
Qed.

End Csv.

Lemma csv_reads_back_witness :
  let g := {| guest :=
                {| UserProfile.user_id := "u-42";
                   UserProfile.name := "Ana";
                   UserProfile.segment := UserSegment.YOUNG;
                   UserProfile.is_celiac := true;
                   UserProfile.avatar_url := None;
                   UserProfile.created_at := "2026-03-01T10:00:00Z";
                   UserProfile.table := None;
                   UserProfile.rsvp_status := None;
                   UserProfile.rsvp_updated_at := None |};
              invite := Some (unused "G15-J01" UserSegment.YOUNG) |} in
  map (Js.split ",") (Js.split "010" (csvBody [g]))
  = [csvHeaders; ["Ana"; "G15-J01"; "YOUNG"; "SI"; "-"]].
Proof.
  intros g.
  refine (proj1 (csv_reads_back [g] _)).
  intros g' f [<-|[]] Hf. cbn in Hf.
  repeat (destruct Hf as [<-|Hf]; [split; reflexivity|]). destruct Hf.
Defined.

(* ================================================================== *)
(** ** Actions and the state of the page                              *)
(* ================================================================== *)

Section Leaves.

Context {B : Type} (q : World -> B).

Lemma leaves_ret {A : Type} (a : A) : leaves q (ret a).
Proof. intros w. reflexivity. Qed.

Lemma leaves_throw {A : Type} (e : Error.t) : leaves q (@throw A e).
Proof. intros w. reflexivity. Qed.

Lemma leaves_gets {A : Type} (f : World -> A) : leaves q (gets f).
Proof. intros w. reflexivity. Qed.

Lemma leaves_modify (f : World -> World) :
  (forall w, q (f w) = q w) -> leaves q (modify f).
Proof. intros H w. apply H. Qed.

Lemma leaves_bind {A C : Type} (m : M A) (k : A -> M C) :
  leaves q m -> (forall a, leaves q (k a)) -> leaves q (bind m k).
Proof.
  intros Hm Hk w. rewrite exec_bind.
  destruct (result m w); [rewrite Hk|]; apply Hm.
Qed.

Lemma leaves_try_catch {A : Type} (m : M A) (h : Error.t -> M A) :
  leaves q m -> (forall e, leaves q (h e)) -> leaves q (try_catch m h).
Proof.
  intros Hm Hh w. rewrite exec_try_catch.
  destruct (result m w); [|rewrite Hh]; apply Hm.
Qed.

Lemma leaves_try_finally {A : Type} (m : M A) (f : M unit) :
  leaves q m -> leaves q f -> leaves q (try_finally m f).
Proof.
  intros Hm Hf w. specialize (Hm w). specialize (Hf (exec m w)).
  unfold exec, try_finally in *.
  destruct (m w) as [r w1]. cbn [snd] in *.
  destruct (f w1) as [[|e] w2]; cbn [snd] in *; congruence.
Qed.

Lemma leaves_when (b : bool) (m : M unit) :
  leaves q m -> leaves q (when b m).
Proof. intros H. destruct b; [exact H|apply leaves_ret]. Qed.

Hypothesis Hlocal : local q.

Lemma leaves_request (c : Call) : leaves q (request c).
Proof. apply leaves_modify. intros w. apply Hlocal. Qed.

Lemma leaves_auth_request (c : Call) : leaves q (auth_request c).
Proof.
  apply leaves_bind; [apply leaves_request|intros _; apply leaves_gets].
Qed.

Lemma leaves_read {A : Type} (c : Call) (r : Database -> option A) :
  leaves q (read c r).
Proof.
  apply leaves_bind; [apply leaves_request|intros _].
  apply leaves_bind; [apply leaves_gets|intros []].
  - apply leaves_bind; [apply leaves_gets|intros d; apply leaves_ret].
  - apply leaves_ret.
Qed.

Lemma leaves_mutate (c : Call) (f : Database -> option Error.t * Database) :
  leaves q (mutate c f).
Proof.
  apply leaves_bind; [apply leaves_request|intros _].
  apply leaves_bind; [apply leaves_gets|intros []].
  - apply leaves_bind; [apply leaves_gets|intros e].
    apply leaves_bind; [|intros _; apply leaves_ret].
    apply leaves_modify. intros w. apply Hlocal.
  - apply leaves_ret.
Qed.

Lemma leaves_mutate_ok (c : Call) (f : Database -> Database) :
  leaves q (mutate_ok c f).
Proof. apply leaves_mutate. Qed.

Lemma leaves_upload (bucket path : string) : leaves q (upload bucket path).
Proof.
  apply leaves_bind; [apply leaves_request|intros _].
  apply leaves_bind; [apply leaves_gets|intros []].
  - apply leaves_bind; [apply leaves_gets|intros objs].
    destruct (existsb _ _); [apply leaves_ret|].
    apply leaves_bind; [|intros _; apply leaves_ret].
    apply leaves_modify. intros w. apply Hlocal.
  - apply leaves_ret.
Qed.

Lemma leaves_subscribe (t : string) : leaves q (subscribe t).
Proof.
  apply leaves_bind; [apply leaves_request|intros _].
  apply leaves_bind; [apply leaves_gets|intros l].
  apply leaves_bind; [|intros _; apply leaves_ret].
  apply leaves_modify. intros w. apply Hlocal.
Qed.

End Leaves.

Ltac local_side :=
  solve [ unfold local; intros; reflexivity ].

Ltac leaves_step :=
  lazymatch goal with
  | |- leaves _ (bind _ _) => apply leaves_bind; [|intros ?]
  | |- leaves _ (ret _) => apply leaves_ret
  | |- leaves _ (throw _) => apply leaves_throw
  | |- leaves _ (gets _) => apply leaves_gets
  | |- leaves _ (try_catch _ _) => apply leaves_try_catch; [|intros ?]
  | |- leaves _ (try_finally _ _) => apply leaves_try_finally
  | |- leaves _ (when _ _) => apply leaves_when
  | |- leaves _ (modify _) => apply leaves_modify; intros ?; reflexivity
  | |- leaves _ (request _) => apply leaves_request; local_side
  | |- leaves _ (auth_request _) => apply leaves_auth_request; local_side
  | |- leaves _ (read _ _) => apply leaves_read; local_side
  | |- leaves _ (mutate_ok _ _) => apply leaves_mutate_ok; local_side
  | |- leaves _ (mutate _ _) => apply leaves_mutate; local_side
  | |- leaves _ (upload _ _) => apply leaves_upload; local_side
  | |- leaves _ (subscribe _) => apply leaves_subscribe; local_side
  | |- leaves _ (match ?x with _ => _ end) => destruct x eqn:?
  | |- leaves _ (let _ := _ in _) => cbv zeta
  | |- leaves _ _ => solve [ intros ?; reflexivity ]
  end.

Ltac leaves_tac := repeat leaves_step.


(* ================================================================== *)
(** ** Entering: one profile per identity, one use per invite     *)
(* ================================================================== *)

Section Entering.

Variable toISOString : Z -> string.

Lemma loadUserData_leaves_global (isMockMode : bool) (userId : string) :
  leaves (fun w => global (app w)) (loadUserData isMockMode toISOString userId).
Proof. unfold loadUserData. leaves_tac. Qed.

(** Where [loginUser] leaves the session. *)
Lemma loginUser_global (isMockMode : bool) (p : UserProfile.t) (w : World) :
  global (app (exec (loginUser isMockMode toISOString p) w))
  = {| user := Some p;
       isAdmin := if needs_setup p then isAdmin (global (app w))
                  else UserSegment.eqb (UserProfile.segment p)
                         UserSegment.ADMIN
                       || isAdmin (global (app w));
       loading := loading (global (app w));
       view := if needs_setup p then View.PROFILE_SETUP else View.HOME |}.
Proof.
  unfold loginUser. unfold setUser at 1. rewrite exec_bind_modify.
  match goal with
  | |- context [exec (if ?c then _ else _) _] =>
      change c with (needs_setup p)
  end.
  destruct (needs_setup p).
  - reflexivity.
  - destruct (UserSegment.eqb (UserProfile.segment p) UserSegment.ADMIN);
      unfold when; cbv iota.
    + unfold setIsAdmin at 1. rewrite exec_bind_modify.
      unfold setView at 1. rewrite exec_bind_modify.
      rewrite loadUserData_leaves_global. reflexivity.
    + match goal with
      | |- context [exec (bind (ret tt) ?k) ?w0] =>
          change (exec (bind (ret tt) k) w0) with (exec (k tt) w0)
      end.
      cbv beta. unfold setView at 1. rewrite exec_bind_modify.
      rewrite loadUserData_leaves_global. reflexivity.
Qed.

(** What [createProfileAndEnter] does online, when the service is
    reached: it looks the identity up, stores a profile only when it
    finds none, marks the invite only then and only when it is a guest
    invite, and enters with the profile that is stored. *)
Lemma createProfileAndEnter_online (userId : string) (invite : InviteCode.t)
  (w : World) :
  reachable (supabase w) = true ->
  exec (createProfileAndEnter false toISOString userId invite) w
  = match single (profiles_of userId (supabase w)) with
    | Some p =>
        exec (loginUser false toISOString p ;; setLoading false)
          (logged (Select "profiles") w)
    | None =>
        let new := newProfile toISOString (now w) userId invite in
        exec (loginUser false toISOString new ;; setLoading false)
          (if consumes invite
           then served [Update "invites"; Insert "profiles"; Select "profiles"]
                  (fun d => set_invites
                     (map (mark_used (InviteCode.code invite) userId)
                          (invites d))
                     (set_profiles (profiles d ++ [new])%list d)) w
           else served [Insert "profiles"; Select "profiles"]
                  (fun d => set_profiles (profiles d ++ [new])%list d) w)
    end.
Proof.
  intros Hup.
  unfold createProfileAndEnter, profiles_of, logged, served.
  fold (consumes invite).
  unfold read, mutate_ok, mutate, request, write, database, exec, bind,
    gets, modify, ret.
  cbn -[loginUser setLoading consumes]. rewrite Hup.
  cbn -[loginUser setLoading consumes].
  destruct (single _) as [p|].
  - reflexivity.
  - cbn -[loginUser setLoading consumes]. rewrite Hup.
    cbn -[loginUser setLoading consumes].
    destruct (consumes invite); cbn -[loginUser setLoading]; rewrite ?Hup;
      cbn -[loginUser setLoading]; reflexivity.
Qed.


Lemma returns_mutate (c : Call) (f : Database -> option Error.t * Database) :
  returns (mutate c f).
Proof.
  intros w. unfold result, mutate, request, write, bind, gets, modify, ret.
  cbn. destruct (reachable (supabase w)); cbn; eauto.
Qed.

Lemma createProfileAndEnter_returns (isMockMode : bool) (userId : string)
  (invite : InviteCode.t) :
  returns (createProfileAndEnter isMockMode toISOString userId invite).
Proof.
  unfold createProfileAndEnter.
  repeat (returns_step
          || (apply returns_mutate)
          || (apply loginUser_returns)
          || (unfold mutate_ok)
          || (unfold setLoading; apply returns_modify)).
Qed.

Lemma loginUser_keeps_reachable (isMockMode : bool) (p : UserProfile.t) :
  keeps reachable (loginUser isMockMode toISOString p).
Proof. unfold loginUser, loadUserData. keeps_tac. Qed.

(** What entering leaves behind: the backend as [loginUser] found it but
    for the requests of [loadUserData], and the session of the profile. *)
Lemma enter_state (p : UserProfile.t) (w : World) :
  let w' := exec (loginUser false toISOString p ;; setLoading false) w in
  stored (supabase w') = stored (supabase w)
  /\ reachable (supabase w') = reachable (supabase w)
  /\ user (global (app w')) = Some p
  /\ view (global (app w'))
     = (if needs_setup p then View.PROFILE_SETUP else View.HOME)
  /\ isAdmin (global (app w'))
     = (if needs_setup p then isAdmin (global (app w))
        else UserSegment.eqb (UserProfile.segment p) UserSegment.ADMIN
             || isAdmin (global (app w)))
  /\ loading (global (app w')) = false.
Proof.
  intros w'. subst w'.
  assert (Hr : result (loginUser false toISOString p) w = Return tt).
  { destruct (loginUser_returns false toISOString p w) as [[] H]. exact H. }
  rewrite exec_bind, Hr.
  assert (Hg := loginUser_global false p w).
  set (w1 := exec (loginUser false toISOString p) w) in *.
  change (exec (setLoading false) w1)
    with (with_global (fun g => {| user := user g; isAdmin := isAdmin g;
                                   loading := false; view := view g |}) w1).
  cbn [with_global with_app supabase app global user view isAdmin loading].
  rewrite Hg. cbn [user view isAdmin loading].
  repeat apply conj; try reflexivity.
  - apply (loginUser_keeps_stored false toISOString p w).
  - apply (loginUser_keeps_reachable false p w).
Qed.

(** X7: one profile per identity.  Online, with the service reached,
    [createProfileAndEnter] for an identity that has no profile stores
    exactly one, built from the invite, and enters with it; entering
    again under the same identity, with whatever invite, stores nothing
    more, marks no invite, and enters with the profile stored first, so
    the segment of the first invite stays. *)
Theorem createProfileAndEnter_once (userId : string)
  (invite invite' : InviteCode.t) (w : World) :
  reachable (supabase w) = true ->
  profiles_of userId (supabase w) = [] ->
  let new := newProfile toISOString (now w) userId invite in
  let w1 := exec (createProfileAndEnter false toISOString userId invite) w in
  let w2 := exec (createProfileAndEnter false toISOString userId invite') w1 in
  profiles (db (supabase w1)) = (profiles (db (supabase w)) ++ [new])%list
  /\ user (global (app w1)) = Some new
  /\ stored (supabase w2) = stored (supabase w1)
  /\ user (global (app w2)) = Some new.
Proof.
  intros Hup Hnone new w1 w2.
  assert (E1 := createProfileAndEnter_online userId invite w Hup).
  rewrite Hnone in E1. cbn [single] in E1. cbv zeta in E1. fold new w1 in E1.
  match type of E1 with
  | _ = exec _ ?x => set (wb := x) in *
  end.
  destruct (enter_state new wb) as (Hs & Hr & Hu & _).
  rewrite <- E1 in Hs, Hr, Hu.
  assert (Hp1 : profiles (db (supabase w1))
                = (profiles (db (supabase w)) ++ [new])%list).
  { change (profiles (db (supabase w1))) with (profiles (fst (stored (supabase w1)))).
    rewrite Hs. subst wb. now destruct (consumes invite). }
  assert (Hup1 : reachable (supabase w1) = true).
  { rewrite Hr. subst wb. destruct (consumes invite); exact Hup. }
  assert (Hone : profiles_of userId (supabase w1) = [new]).
  { unfold profiles_of in *. rewrite Hp1, filter_app, Hnone.
    cbn. now rewrite String.eqb_refl. }
  assert (E2 := createProfileAndEnter_online userId invite' w1 Hup1).
  rewrite Hone in E2. cbn [single] in E2. fold w2 in E2.
  destruct (enter_state new (logged (Select "profiles") w1)) as (Hs2 & _ & Hu2 & _).
  rewrite <- E2 in Hs2, Hu2.
  repeat apply conj; assumption.
Qed.

End Entering.

Lemma createProfileAndEnter_once_witness :
  let w := page demo_backend 1773507600000 in
  let w1 := exec (createProfileAndEnter false demo_clock "u-7"
                    (unused "G15-J01" UserSegment.YOUNG)) w in
  let w2 := exec (createProfileAndEnter false demo_clock "u-7"
                    (virtual_invite ADMIN_SETUP UserSegment.ADMIN)) w1 in
  option_map UserProfile.segment (user (global (app w2)))
  = Some UserSegment.YOUNG
  /\ List.length (profiles (db (supabase w2))) = 1%nat.
Proof.
  cbv zeta.
  destruct (createProfileAndEnter_once demo_clock "u-7"
              (unused "G15-J01" UserSegment.YOUNG)
              (virtual_invite ADMIN_SETUP UserSegment.ADMIN)
              (page demo_backend 1773507600000)
              eq_refl eq_refl) as (Hp & _ & Hs & Hu).
  split.
  - rewrite Hu. reflexivity.
  - match goal with
    | |- List.length (profiles (db (supabase ?x))) = _ =>
        change (profiles (db (supabase x)))
          with (profiles (fst (stored (supabase x))))
    end.
    rewrite Hs. cbn [stored fst]. rewrite Hp. reflexivity.
Defined.
Section Consumption.

Variable toISOString : Z -> string.

Lemma map_code_mark_used (c uid : string) (l : list InviteCode.t) :
  map InviteCode.code (map (mark_used c uid) l) = map InviteCode.code l.
Proof.
  rewrite map_map. apply map_ext. intros i. unfold mark_used.
  now destruct (String.eqb _ _).
Qed.

(** X8: entering with a guest invite consumes it, and only it.  Online,
    with the service reached, for an identity without a profile:
    [createProfileAndEnter] with an invite of a guest segment, other
    than the sentinel, marks every stored row of that code as used by
    the identity and leaves the rows of every other code as they were,
    so that, the stored codes being distinct, validating the code again
    is refused as already used; with an invite of the administrator
    segment, or with the sentinel, the invites are left as they were. *)
Theorem createProfileAndEnter_consumes (userId : string)
  (invite : InviteCode.t) (w : World) :
  reachable (supabase w) = true ->
  profiles_of userId (supabase w) = [] ->
  let w1 := exec (createProfileAndEnter false toISOString userId invite) w in
  let before := invites (db (supabase w)) in
  let after := invites (db (supabase w1)) in
  (consumes invite = false -> after = before)
  /\ (consumes invite = true ->
      after = map (mark_used (InviteCode.code invite) userId) before
      /\ (forall j, In j before ->
            InviteCode.code j <> InviteCode.code invite -> In j after)
      /\ (forall j, In j after ->
            InviteCode.code j = InviteCode.code invite ->
            InviteCode.is_used j = true
            /\ InviteCode.used_by j = Some userId)
      /\ (distinct_codes (supabase w) -> In invite before ->
          result (validateCode false (InviteCode.code invite)) w1
          = Throw AlreadyUsed)).
Proof.
  intros Hup Hnone w1 before after.
  assert (E1 := createProfileAndEnter_online toISOString userId invite w Hup).
  rewrite Hnone in E1. cbn [single] in E1. cbv zeta in E1. fold w1 in E1.
  match type of E1 with
  | _ = exec _ ?x => set (wb := x) in *
  end.
  destruct (enter_state toISOString
              (newProfile toISOString (now w) userId invite) wb)
    as (Hs & Hr & _).
  rewrite <- E1 in Hs, Hr.
  assert (Hafter : after = invites (db (supabase wb))).
  { subst after.
    change (invites (db (supabase w1)))
      with (invites (fst (stored (supabase w1)))).
    now rewrite Hs. }
  split.
  - intros Hc. rewrite Hafter. subst wb. now rewrite Hc.
  - intros Hc.
    assert (Hmap : after
                   = map (mark_used (InviteCode.code invite) userId) before).
    { rewrite Hafter. subst wb. now rewrite Hc. }
    split; [exact Hmap|]. rewrite Hmap. split; [|split].
    + intros j Hj Hne. apply in_map_iff. exists j. split; [|exact Hj].
      unfold mark_used. apply String.eqb_neq in Hne. now rewrite Hne.
    + intros j Hj Hcode. apply in_map_iff in Hj.
      destruct Hj as (k & <- & _). unfold mark_used in *.
      destruct (String.eqb (InviteCode.code k) (InviteCode.code invite)) eqn:E.
      * now split.
      * apply String.eqb_neq in E. now elim E.
    + intros Hd Hin.
      assert (Hup1 : reachable (supabase w1) = true).
      { rewrite Hr. subst wb. now rewrite Hc. }
      assert (Hd1 : distinct_codes (supabase w1)).
      { unfold distinct_codes. fold after. rewrite Hmap.
        now rewrite map_code_mark_used. }
      assert (Hne : InviteCode.code invite <> ADMIN_SETUP).
      { unfold consumes in Hc. apply andb_true_iff in Hc.
        destruct Hc as [_ Hc]. apply negb_true_iff in Hc.
        now apply String.eqb_neq in Hc. }
      set (marked := mark_used (InviteCode.code invite) userId invite).
      assert (Hm : In marked (invites (db (supabase w1)))).
      { fold after. rewrite Hmap. now apply in_map. }
      assert (Hcode : InviteCode.code marked = InviteCode.code invite).
      { subst marked. unfold mark_used. now rewrite String.eqb_refl. }
      assert (Hused : InviteCode.is_used marked = true).
      { subst marked. unfold mark_used. now rewrite String.eqb_refl. }
      rewrite <- Hcode in Hne |- *.
      rewrite (validateCode_stored w1 marked Hup1 Hd1 Hm Hne).
      now rewrite Hused.
Qed.

End Consumption.

Lemma createProfileAndEnter_consumes_witness :
  let w1 := exec (createProfileAndEnter false demo_clock "u-7"
                    (unused "G15-J01" UserSegment.YOUNG))
              (page demo_backend 1773507600000) in
  result (validateCode false "G15-J01") w1 = Throw AlreadyUsed.
Proof.
  cbv zeta.
  destruct (createProfileAndEnter_consumes demo_clock "u-7"
              (unused "G15-J01" UserSegment.YOUNG)
              (page demo_backend 1773507600000) eq_refl eq_refl)
    as (_ & H).
  destruct (H eq_refl) as (_ & _ & _ & Hv).
  apply Hv; [reflexivity|]. left. reflexivity.
Defined.

(* ================================================================== *)
(** ** The e-mail form                                            *)
(* ================================================================== *)

Section MagicLink.

Variable toISOString : Z -> string.

Lemma validateCode_returns_row (code : string) (w : World) (i : InviteCode.t) :
  code <> ADMIN_SETUP ->
  result (validateCode false code) w = Return (Some i) ->
  InviteCode.code i = code /\ InviteCode.is_used i = false
  /\ In i (invites (db (supabase w))).
Proof.
  intros Hne H. unfold result in H.
  rewrite (validateCode_online _ _ Hne) in H. cbn [fst] in H.
  destruct (reachable (supabase w)); [|discriminate H].
  unfold rows_with in H.
  destruct (filter _ _) as [|j [|]] eqn:E; try discriminate H.
  cbn [single] in H.
  destruct (InviteCode.is_used j) eqn:Eu; [discriminate H|].
  injection H as <-.
  assert (Hin : In j (filter (fun i => String.eqb (InviteCode.code i) code)
                        (invites (db (supabase w)))))
    by (rewrite E; now left).
  apply filter_In in Hin. destruct Hin as [Hin Hc].
  apply String.eqb_eq in Hc. auto.
Qed.

(** The e-mail form on a valid guest code: one look-up, one request for
    a link. *)
Lemma handleEmailAuth_guest (w : World) (i : InviteCode.t) :
  let code := Js.toUpperCase (inviteCode (ui (app w))) in
  let mail := email (auth (app w)) in
  code <> ADMIN_SETUP -> mail <> "" ->
  result (validateCode false code) w = Return (Some i) ->
  let w2 := logged (SignInWithOtp mail code)
              (logged (Select "invites")
                 (exec (setLoading true ;; setAuthError "") w)) in
  exec (handleEmailAuth false toISOString) w
  = match AuthResponse.error (identity (supabase w) (calls (supabase w2))) with
    | Some err =>
        exec (setAuthError (or_else (Error.message err) "Error") ;;
              setLoading false) w2
    | None =>
        exec (modify (with_pending_invite_code (Some code)) ;;
              setMagicLinkSent true ;; setLoading false) w2
    end.
Proof.
  intros code mail Hc Hne Hv w2.
  destruct (validateCode_returns_row code w i Hc Hv) as (Hcode & _).
  unfold handleEmailAuth.
  rewrite !exec_bind_gets. fold code. subst w2 mail.
  destruct (email (auth (app w))) as [|a s] eqn:E; [contradiction|].
  unfold setLoading at 1. rewrite exec_bind_modify.
  unfold setAuthError at 1. rewrite exec_bind_modify.
  match goal with |- exec _ ?w1 = _ => set (w1' := w1) end.
  assert (Hv' : validateCode false code w1'
                = (Return (Some i), logged (Select "invites") w1')).
  { rewrite (surjective_pairing (validateCode false code w1')).
    f_equal.
    - change (fst (validateCode false code w1'))
        with (result (validateCode false code) w1').
      rewrite <- Hv. now apply validateCode_result_frame.
    - now apply validateCode_exec. }
  assert (Hs : String.eqb (InviteCode.code i) "ADMIN-SETUP" = false).
  { rewrite Hcode. now apply String.eqb_neq. }
  unfold exec at 1, try_catch, bind at 1. rewrite Hv'. cbv iota beta.
  rewrite Hs. cbv iota.
  unfold auth_request, request, bind at 1 2, modify at 1, gets at 1.
  cbv iota beta.
  match goal with
  | |- _ = match AuthResponse.error ?x with _ => _ end => set (r := x)
  end.
  change (AuthResponse.error (identity _ _)) with (AuthResponse.error r).
  destruct (AuthResponse.error r) as [err|]; reflexivity.
Qed.


(** X9: asking for a link consumes nothing.  Online, on a code that
    validates to a stored unused row, the e-mail form issues the look-up
    and one request for a link carrying the address and the upper-cased
    code, stores nothing and lets nobody in; when the identity service
    accepts, the notice is shown and the code is kept for later in the
    browser, and when it refuses, its message is shown and nothing else
    changes.  Either way the code still validates to the same row
    afterwards, so it can be submitted again under any address. *)
Theorem magic_link_consumes_nothing (w : World) (i : InviteCode.t) :
  let code := Js.toUpperCase (inviteCode (ui (app w))) in
  let mail := email (auth (app w)) in
  code <> ADMIN_SETUP -> mail <> "" ->
  result (validateCode false code) w = Return (Some i) ->
  let w' := exec (handleEmailAuth false toISOString) w in
  let r := identity (supabase w)
             (SignInWithOtp mail code :: Select "invites"
                :: calls (supabase w)) in
  issued (handleEmailAuth false toISOString) w
  = [Select "invites"; SignInWithOtp mail code]
  /\ stored (supabase w') = stored (supabase w)
  /\ user (global (app w')) = user (global (app w))
  /\ view (global (app w')) = view (global (app w))
  /\ loading (global (app w')) = false
  /\ (AuthResponse.error r = None ->
      magicLinkSent (auth (app w')) = true
      /\ pending_invite_code w' = Some code
      /\ authError (ui (app w')) = "")
  /\ (forall err, AuthResponse.error r = Some err ->
      magicLinkSent (auth (app w')) = magicLinkSent (auth (app w))
      /\ pending_invite_code w' = pending_invite_code w
      /\ authError (ui (app w')) = or_else (Error.message err) "Error")
  /\ result (validateCode false code) w' = Return (Some i).
Proof.
  intros code mail Hc Hne Hv w' r.
  assert (E := handleEmailAuth_guest w i Hc Hne Hv).
  fold code mail w' in E. cbv zeta in E.
  change (identity (supabase w) (calls (supabase _))) with r in E.
  assert (Hcalls : calls (supabase w')
                   = ([SignInWithOtp mail code; Select "invites"]
                        ++ calls (supabase w))%list
                   /\ stored (supabase w') = stored (supabase w)).
  { rewrite E. destruct (AuthResponse.error r); split; reflexivity. }
  destruct Hcalls as [Hcalls Hst].
  split; [exact (issued_of _ w _ Hcalls)|].
  split; [exact Hst|].
  split; [rewrite E; now destruct (AuthResponse.error r)|].
  split; [rewrite E; now destruct (AuthResponse.error r)|].
  split; [rewrite E; now destruct (AuthResponse.error r)|].
  split; [intros Hr; rewrite E, Hr; repeat split|].
  split; [intros err Hr; rewrite E, Hr; repeat split|].
  rewrite <- Hv. unfold result.
  rewrite !(validateCode_online _ _ Hc). cbn [fst].
  unfold rows_with.
  injection Hst as Hdb _. rewrite Hdb.
  assert (Hup : reachable (supabase w') = reachable (supabase w)).
  { rewrite E. now destruct (AuthResponse.error r). }
  now rewrite Hup.
Qed.

End MagicLink.

Lemma magic_link_witness :
  let w := guest_typing "g15-j01" in
  let w' := exec (handleEmailAuth false demo_clock) w in
  issued (handleEmailAuth false demo_clock) w
  = [Select "invites"; SignInWithOtp "guest@example.com" "G15-J01"]
  /\ magicLinkSent (auth (app w')) = true
  /\ result (validateCode false "G15-J01") w'
     = Return (Some (unused "G15-J01" UserSegment.YOUNG)).
Proof.
  cbv zeta.
  destruct (magic_link_consumes_nothing demo_clock (guest_typing "g15-j01")
              (unused "G15-J01" UserSegment.YOUNG))
    as (Hi & _ & _ & _ & _ & Hok & _ & Hv);
    [discriminate|discriminate|reflexivity|].
  split; [exact Hi|]. split; [|exact Hv].
  now destruct (Hok eq_refl).
Defined.
Section AdminEntry.

Variable toISOString : Z -> string.

(** The e-mail form on the sentinel, in either mode: a sign-in, a
    sign-up only after a sign-in refused as an invalid login, and entry
    under the identity either of them resolved. *)
Lemma handleEmailAuth_sentinel (isMockMode : bool) (w : World) :
  let mail := email (auth (app w)) in
  let pass := password (auth (app w)) in
  Js.toUpperCase (inviteCode (ui (app w))) = ADMIN_SETUP ->
  mail <> "" -> pass <> "" ->
  let w1 := logged (SignInWithPassword mail pass)
              (exec (setLoading true ;; setAuthError "") w) in
  let w2 := logged (SignUp mail pass) w1 in
  let r := identity (supabase w) (calls (supabase w1)) in
  let up := identity (supabase w) (calls (supabase w2)) in
  let enter uid :=
    exec (createProfileAndEnter isMockMode toISOString uid
            (virtual_invite ADMIN_SETUP UserSegment.ADMIN)) in
  let fail err :=
    exec (setAuthError (or_else (Error.message err) "Error") ;;
          setLoading false) in
  exec (handleEmailAuth isMockMode toISOString) w
  = match AuthResponse.error r with
    | None =>
        match AuthResponse.user r with
        | Some uid => enter uid w1
        | None => w1
        end
    | Some err =>
        if Js.includes "Invalid login" (Error.message err) then
          match AuthResponse.error up with
          | Some upError => fail upError w2
          | None =>
              match AuthResponse.user up with
              | Some uid => enter uid w2
              | None => fail (Error.make "Verificá tu email.") w2
              end
          end
        else fail err w1
    end.
Proof.
  intros mail pass Hcode Hm Hp w1 w2 r up enter fail.
  subst w1 w2 r up enter fail mail pass.
  unfold handleEmailAuth.
  rewrite !exec_bind_gets. rewrite Hcode.
  destruct (email (auth (app w))) as [|a s] eqn:E; [contradiction|].
  destruct (password (auth (app w))) as [|a' s'] eqn:E'; [contradiction|].
  unfold setLoading at 1. rewrite exec_bind_modify.
  unfold setAuthError at 1. rewrite exec_bind_modify.
  match goal with |- exec _ ?w1 = _ => set (w0 := w1) end.
  assert (Hv : validateCode isMockMode ADMIN_SETUP
               = ret (Some (virtual_invite ADMIN_SETUP UserSegment.ADMIN)))
    by (unfold validateCode; now destruct isMockMode).
  rewrite Hv.
  unfold exec at 1, try_catch, bind at 1, ret at 1. cbv iota beta.
  change (String.eqb (InviteCode.code
            (virtual_invite ADMIN_SETUP UserSegment.ADMIN)) "ADMIN-SETUP")
    with true. cbv iota.
  unfold auth_request at 1, request at 1, bind at 1 2, modify at 1, gets at 1.
  cbv iota beta.
  match goal with
  | |- _ = match AuthResponse.error ?x with _ => _ end => set (r := x)
  end.
  change (AuthResponse.error (identity _ (calls (supabase
            (with_supabase _ w0))))) with (AuthResponse.error r).
  change (AuthResponse.user (identity _ (calls (supabase
            (with_supabase _ w0))))) with (AuthResponse.user r).
  destruct (AuthResponse.error r) as [err|].
  - destruct (Js.includes "Invalid login" (Error.message err));
      [|reflexivity].
    unfold auth_request at 1, request at 1, bind at 1 2, modify at 1,
      gets at 1.
    cbv iota beta.
    match goal with
    | |- _ = match AuthResponse.error ?x with _ => _ end => set (up := x)
    end.
    change (AuthResponse.error (identity _ _)) with (AuthResponse.error up).
    change (AuthResponse.user (identity _ _)) with (AuthResponse.user up).
    destruct (AuthResponse.error up) as [upError|]; [reflexivity|].
    destruct (AuthResponse.user up) as [uid|]; [|reflexivity].
    match goal with
    | |- context [createProfileAndEnter ?m ?t ?u ?i ?x] =>
        destruct (createProfileAndEnter_returns t m u i x) as [[] Hr];
        unfold result in Hr;
        rewrite (surjective_pairing (createProfileAndEnter m t u i x)), Hr
    end.
    reflexivity.
  - destruct (AuthResponse.user r) as [uid|]; [|reflexivity].
    match goal with
    | |- context [createProfileAndEnter ?m ?t ?u ?i ?x] =>
        destruct (createProfileAndEnter_returns t m u i x) as [[] Hr];
        unfold result in Hr;
        rewrite (surjective_pairing (createProfileAndEnter m t u i x)), Hr
    end.
    reflexivity.
Qed.


(** X10: the sentinel makes an administrator of any identity the
    identity service resolves.  Online, with the service reached, with
    the sentinel in the code field and an address and a password typed:
    when the sign-in succeeds for an identity, or is refused as an
    invalid login and the sign-up that follows succeeds for one, an
    identity without a profile gets a stored profile of the
    administrator segment named "Administrador" and is let in at home
    with [isAdmin] set, no invite being touched; an identity that has a
    profile is let in with that profile and nothing is stored. *)
Theorem sentinel_makes_administrator (w : World) (uid : string) :
  let mail := email (auth (app w)) in
  let pass := password (auth (app w)) in
  let asked := SignInWithPassword mail pass :: calls (supabase w) in
  let r := identity (supabase w) asked in
  let up := identity (supabase w) (SignUp mail pass :: asked) in
  let new := newProfile toISOString (now w) uid
               (virtual_invite ADMIN_SETUP UserSegment.ADMIN) in
  let w' := exec (handleEmailAuth false toISOString) w in
  Js.toUpperCase (inviteCode (ui (app w))) = ADMIN_SETUP ->
  mail <> "" -> pass <> "" ->
  reachable (supabase w) = true ->
  (AuthResponse.error r = None /\ AuthResponse.user r = Some uid)
  \/ (exists err,
         AuthResponse.error r = Some err
         /\ Js.includes "Invalid login" (Error.message err) = true
         /\ AuthResponse.error up = None
         /\ AuthResponse.user up = Some uid) ->
  (profiles_of uid (supabase w) = [] ->
   global (app w')
   = {| user := Some new; isAdmin := true; loading := false;
        view := View.HOME |}
   /\ UserProfile.segment new = UserSegment.ADMIN
   /\ UserProfile.name new = "Administrador"
   /\ profiles (db (supabase w')) = (profiles (db (supabase w)) ++ [new])%list
   /\ invites (db (supabase w')) = invites (db (supabase w)))
  /\ (forall p, profiles_of uid (supabase w) = [p] ->
        user (global (app w')) = Some p
        /\ stored (supabase w') = stored (supabase w)).
Proof.
  intros mail pass asked r up new w' Hcode Hm Hp Hup Hres.
  assert (E := handleEmailAuth_sentinel false w Hcode Hm Hp).
  cbv zeta in E. fold mail pass w' in E.
  change (identity (supabase w) (calls (supabase (logged (SignUp mail pass) _))))
    with up in E.
  change (identity (supabase w) (calls (supabase _))) with r in E.
  assert (Hex : exists wa,
             w' = exec (createProfileAndEnter false toISOString uid
                          (virtual_invite ADMIN_SETUP UserSegment.ADMIN)) wa
             /\ db (supabase wa) = db (supabase w)
             /\ user_photos (supabase wa) = user_photos (supabase w)
             /\ reachable (supabase wa) = true
             /\ now wa = now w).
  { destruct Hres as [[Hr Hu]|(err & Hr & Hi & Hup1 & Hu)].
    - rewrite Hr, Hu in E. eexists. split; [exact E|]. now repeat split.
    - rewrite Hr, Hi, Hup1, Hu in E. eexists. split; [exact E|].
      now repeat split. }
  destruct Hex as (wa & Ew & Hdb & Hph & Hupa & Hnow).
  assert (Ea := createProfileAndEnter_online toISOString uid
                  (virtual_invite ADMIN_SETUP UserSegment.ADMIN) wa Hupa).
  rewrite <- Ew in Ea.
  unfold profiles_of in *. rewrite Hdb, Hnow in Ea. fold new in Ea.
  split.
  - intros Hnone. rewrite Hnone in Ea. cbn [single] in Ea. cbv zeta in Ea.
    change (consumes (virtual_invite ADMIN_SETUP UserSegment.ADMIN))
      with false in Ea. cbv iota in Ea.
    match type of Ea with _ = exec _ ?x => set (wb := x) in * end.
    destruct (enter_state toISOString new wb)
      as (Hs & _ & Hu & Hv & Ha & Hl).
    rewrite <- Ea in Hs, Hu, Hv, Ha, Hl.
    change (needs_setup new) with false in Hv, Ha. cbv iota in Hv, Ha.
    change (UserSegment.eqb (UserProfile.segment new) UserSegment.ADMIN)
      with true in Ha. cbn [orb] in Ha.
    injection Hs as Hs _.
    repeat apply conj; try reflexivity.
    + destruct (global (app w')). cbn in *. congruence.
    + rewrite Hs. subst wb. cbn. now rewrite Hdb.
    + rewrite Hs. subst wb. cbn. now rewrite Hdb.
  - intros p Hone. rewrite Hone in Ea. cbn [single] in Ea.
    destruct (enter_state toISOString p (logged (Select "profiles") wa))
      as (Hs & _ & Hu & _).
    rewrite <- Ea in Hs, Hu. split; [exact Hu|].
    rewrite Hs. unfold stored. cbn. now rewrite Hdb, Hph.
Qed.

End AdminEntry.

(** In front of a service that lets anybody sign up, a visitor without
    any account ends up as the administrator. *)
Lemma sentinel_makes_administrator_witness :
  let w := typing "admin-setup" "anyone@example.com" "secret"
             (page (open_backend guest_list) 1773507600000) in
  let w' := exec (handleEmailAuth false demo_clock) w in
  isAdmin (global (app w')) = true
  /\ view (global (app w')) = View.HOME
  /\ map UserProfile.segment (profiles (db (supabase w')))
     = [UserSegment.ADMIN].
Proof.
  cbv zeta.
  set (w := typing "admin-setup" "anyone@example.com" "secret"
              (page (open_backend guest_list) 1773507600000)).
  destruct (sentinel_makes_administrator demo_clock w "u-new")
    as [H _]; try reflexivity; try discriminate.
  - right. exists (Error.make "Invalid login credentials").
    repeat split.
  - destruct (H eq_refl) as (Hg & _ & _ & Hp & _).
    rewrite Hg, Hp. repeat split.
Defined.
Section AdminRefused.

Variable toISOString : Z -> string.

(** X11: how the sentinel's sign-in fails.  In either mode, with the
    sentinel in the code field and an address and a password typed: a
    sign-in refused for any reason other than an invalid login is
    reported with the service's message and no sign-up is attempted; a
    sign-in refused as an invalid login is followed by exactly one
    sign-up, whose refusal is reported with its message, and whose
    success without an identity is reported as a request to verify the
    address.  In each case nothing is stored, nobody is let in and the
    spinner is cleared. *)
Theorem sentinel_refused (isMockMode : bool) (w : World) :
  let mail := email (auth (app w)) in
  let pass := password (auth (app w)) in
  let asked := SignInWithPassword mail pass :: calls (supabase w) in
  let r := identity (supabase w) asked in
  let up := identity (supabase w) (SignUp mail pass :: asked) in
  let w' := exec (handleEmailAuth isMockMode toISOString) w in
  let refused_with (m : string) (l : list Call) :=
    issued (handleEmailAuth isMockMode toISOString) w = l
    /\ authError (ui (app w')) = m
    /\ loading (global (app w')) = false
    /\ user (global (app w')) = user (global (app w))
    /\ view (global (app w')) = view (global (app w))
    /\ stored (supabase w') = stored (supabase w) in
  Js.toUpperCase (inviteCode (ui (app w))) = ADMIN_SETUP ->
  mail <> "" -> pass <> "" ->
  (forall err,
      AuthResponse.error r = Some err ->
      Js.includes "Invalid login" (Error.message err) = false ->
      refused_with (or_else (Error.message err) "Error")
        [SignInWithPassword mail pass])
  /\ (forall err upError,
        AuthResponse.error r = Some err ->
        Js.includes "Invalid login" (Error.message err) = true ->
        AuthResponse.error up = Some upError ->
        refused_with (or_else (Error.message upError) "Error")
          [SignInWithPassword mail pass; SignUp mail pass])
  /\ (forall err,
        AuthResponse.error r = Some err ->
        Js.includes "Invalid login" (Error.message err) = true ->
        AuthResponse.error up = None -> AuthResponse.user up = None ->
        refused_with "Verificá tu email."
          [SignInWithPassword mail pass; SignUp mail pass]).
Proof.
  intros mail pass asked r up w' refused_with Hcode Hm Hp.
  assert (E := handleEmailAuth_sentinel toISOString isMockMode w Hcode Hm Hp).
  cbv zeta in E. fold mail pass w' in E.
  change (identity (supabase w) (calls (supabase (logged (SignUp mail pass) _))))
    with up in E.
  change (identity (supabase w) (calls (supabase _))) with r in E.
  subst refused_with. cbv beta.
  repeat apply conj.
  - intros err Hr Hi. rewrite Hr, Hi in E.
    split; [apply (issued_of _ w [SignInWithPassword mail pass]);
            fold w'; now rewrite E|].
    rewrite E. now repeat split.
  - intros err upError Hr Hi Hup. rewrite Hr, Hi, Hup in E.
    split; [apply (issued_of _ w [SignUp mail pass;
                                  SignInWithPassword mail pass]);
            fold w'; now rewrite E|].
    rewrite E. now repeat split.
  - intros err Hr Hi Hup Hu. rewrite Hr, Hi, Hup, Hu in E.
    split; [apply (issued_of _ w [SignUp mail pass;
                                  SignInWithPassword mail pass]);
            fold w'; now rewrite E|].
    rewrite E. now repeat split.
Qed.

End AdminRefused.

Lemma sentinel_refused_witness :
  let w := typing "admin-setup" "anyone@example.com" "secret"
             (page (backend_with guest_list locked_out) 1773507600000) in
  issued (handleEmailAuth false demo_clock) w
  = [SignInWithPassword "anyone@example.com" "secret"]
  /\ authError (ui (app (exec (handleEmailAuth false demo_clock) w)))
     = "Email not confirmed".
Proof.
  cbv zeta.
  destruct (sentinel_refused demo_clock false
              (typing "admin-setup" "anyone@example.com" "secret"
                 (page (backend_with guest_list locked_out) 1773507600000)))
    as (H & _); try reflexivity; try discriminate.
  destruct (H (Error.make "Email not confirmed") eq_refl eq_refl)
    as (Hi & Ha & _).
  split; [exact Hi|exact Ha].
Defined.

(* ================================================================== *)
(** ** What a session leaves on the page                          *)
(* ================================================================== *)

Section SessionData.

Variable toISOString : Z -> string.

Lemma loginUser_exec (isMockMode : bool) (p : UserProfile.t) (w : World) :
  exec (loginUser isMockMode toISOString p) w
  = if needs_setup p
    then exec (setView View.PROFILE_SETUP) (exec (setUser (Some p)) w)
    else exec (loadUserData isMockMode toISOString (UserProfile.user_id p))
           (exec (setView View.HOME)
              (exec (when (UserSegment.eqb (UserProfile.segment p)
                             UserSegment.ADMIN) (setIsAdmin true))
                 (exec (setUser (Some p)) w))).
Proof.
  unfold loginUser. unfold setUser at 1. rewrite exec_bind_modify.
  match goal with
  | |- context [exec (if ?c then _ else _) _] =>
      change c with (needs_setup p)
  end.
  destruct (needs_setup p); [reflexivity|].
  destruct (UserSegment.eqb (UserProfile.segment p) UserSegment.ADMIN);
    reflexivity.
Qed.

Lemma loadUserData_rsvp (userId : string) (w : World) :
  rsvp (data (app (exec (loadUserData false toISOString userId) w)))
  = match stored_rsvp userId (supabase w) with
    | Some r => Some r
    | None => rsvp (data (app w))
    end.
Proof.
  unfold loadUserData, stored_rsvp, subscribe, read, request, database,
    exec, bind, gets, modify, ret.
  cbn -[order_desc firstn List.rev filter].
  destruct (reachable (supabase w)) eqn:Hup;
    cbn -[order_desc firstn List.rev filter].
  - destruct (single _) as [r|];
      cbn -[order_desc firstn List.rev filter]; rewrite ?Hup;
      cbn -[order_desc firstn List.rev filter]; rewrite ?Hup;
      reflexivity.
  - rewrite ?Hup. cbn. rewrite ?Hup. reflexivity.
Qed.

Lemma handleLogout_data (isMockMode : bool) (w : World) :
  data (app (exec (handleLogout isMockMode) w)) = data (app w)
  /\ db (supabase (exec (handleLogout isMockMode) w)) = db (supabase w)
  /\ reachable (supabase (exec (handleLogout isMockMode) w))
     = reachable (supabase w).
Proof. destruct isMockMode; repeat split. Qed.

(** X12: logging out does not clear what the guest loaded.  After
    [handleLogout], in either mode, the answer, the messages and the
    photos on the page are those of the guest who left.  Online, the
    guest who logs in next sees the stored answer of their own when
    exactly one is stored and the service is reached, and the answer of
    the guest who left otherwise.  The earlier revision's logout does
    clear the answer and the messages. *)
Theorem logout_keeps_loaded_data (isMockMode : bool) (p : UserProfile.t)
  (w : World) :
  let w1 := exec (handleLogout isMockMode) w in
  let w2 := exec (loginUser false toISOString p) w1 in
  let earlier := exec (EarlierSession.handleLogout isMockMode) w in
  data (app w1) = data (app w)
  /\ rsvp (data (app w2))
     = (if needs_setup p then rsvp (data (app w))
        else match stored_rsvp (UserProfile.user_id p) (supabase w) with
             | Some r => Some r
             | None => rsvp (data (app w))
             end)
  /\ rsvp (data (app earlier)) = None
  /\ messages (data (app earlier)) = [].
Proof.
  intros w1 w2 earlier.
  destruct (handleLogout_data isMockMode w) as (Hd & Hdb & Hup).
  fold w1 in Hd, Hdb, Hup.
  split; [exact Hd|]. split.
  - subst w2. rewrite loginUser_exec.
    destruct (needs_setup p).
    + change (rsvp (data (app (exec (setView View.PROFILE_SETUP)
                                 (exec (setUser (Some p)) w1)))))
        with (rsvp (data (app w1))).
      now rewrite Hd.
    + rewrite loadUserData_rsvp.
      assert (Hs : forall x, stored_rsvp (UserProfile.user_id p)
                     (supabase
                        (exec (setView View.HOME)
                           (exec (when x (setIsAdmin true))
                              (exec (setUser (Some p)) w1))))
                   = stored_rsvp (UserProfile.user_id p) (supabase w)).
      { intros x. unfold stored_rsvp.
        replace (supabase (exec (setView View.HOME)
                             (exec (when x (setIsAdmin true))
                                (exec (setUser (Some p)) w1))))
          with (supabase w1) by (now destruct x).
        now rewrite Hdb, Hup. }
      rewrite Hs.
      replace (rsvp (data (app (exec (setView View.HOME)
                 (exec (when (UserSegment.eqb (UserProfile.segment p)
                                UserSegment.ADMIN) (setIsAdmin true))
                    (exec (setUser (Some p)) w1))))))
        with (rsvp (data (app w1)))
        by (now destruct (UserSegment.eqb _ _)).
      now rewrite Hd.
  - subst earlier. destruct isMockMode; split; reflexivity.
Qed.

End SessionData.

(* ================================================================== *)
(** ** Answers                                                    *)
(* ================================================================== *)

Section Rsvp.

Variable toISOString : Z -> string.

Lemma filter_replace {A : Type} (P : A -> bool) (new : A) (l : list A) :
  P new = true ->
  filter P (map (fun x => if P x then new else x) l)
  = repeat new (List.length (filter P l)).
Proof.
  intros Hn. induction l as [|a l IH]; [reflexivity|].
  cbn [map filter]. destruct (P a) eqn:E.
  - rewrite Hn. cbn [List.length repeat]. now rewrite IH.
  - rewrite E. exact IH.
Qed.

Lemma existsb_filter {A : Type} (P : A -> bool) (l : list A) :
  existsb P l = negb (Nat.eqb (List.length (filter P l)) 0).
Proof.
  induction l as [|a l IH]; [reflexivity|].
  cbn [existsb filter]. destruct (P a); [reflexivity|exact IH].
Qed.

Lemma upsert_rsvp_lookup (new : RSVP.t) (l : list RSVP.t) :
  let P := fun r => String.eqb (RSVP.user_id r) (RSVP.user_id new) in
  (List.length (filter P l) <= 1)%nat ->
  filter P (upsert_rsvp new l) = [new]
  /\ forall r, P r = false -> (In r (upsert_rsvp new l) <-> In r l).
Proof.
  intros P Hle.
  assert (Hn : P new = true) by apply String.eqb_refl.
  unfold upsert_rsvp. fold P. rewrite existsb_filter.
  destruct (List.length (filter P l)) as [|[|k]] eqn:El; [| |lia];
    cbn [Nat.eqb negb].
  - apply length_zero_iff_nil in El. split.
    + rewrite filter_app, El. cbn. now rewrite Hn.
    + intros r Hr. rewrite in_app_iff. cbn. split; [|tauto].
      intros [H|[<-|[]]]; [exact H|congruence].
  - split.
    + pose proof (filter_replace P new l Hn) as H. rewrite El in H. exact H.
    + intros r Hr. rewrite in_map_iff. split.
      * intros (x & Ex & Hx).
        assert (Ex' : (if P x then new else x) = r) by exact Ex.
        destruct (P x) eqn:Epx; congruence.
      * intros Hin. exists r. split; [|exact Hin].
        change ((if P r then new else r) = r). now rewrite Hr.
Qed.

(** X13: the answer is shown before it is stored, and stays shown when
    storing fails.  Online, for a logged-in guest, [updateRsvp] puts the
    new answer on the page whatever the service does.  When the service
    is not reached the stored answers are what they were, under an
    error toast, so the page and the store disagree.  When it is
    reached, and at most one answer was stored for the guest, exactly
    that answer is stored for the guest afterwards, so a reload shows
    it again, and the answers of every other guest are as they were. *)
Theorem updateRsvp_optimistic (status : RsvpStatus.t) (u : UserProfile.t)
  (w : World) :
  user (global (app w)) = Some u ->
  let uid := UserProfile.user_id u in
  let new := {| RSVP.user_id := uid; RSVP.status := status;
                RSVP.note := None; RSVP.updated_at := toISOString (now w) |} in
  let mine := fun r => String.eqb (RSVP.user_id r) uid in
  let w' := exec (updateRsvp false toISOString status) w in
  rsvp (data (app w')) = Some new
  /\ (reachable (supabase w) = false ->
      db (supabase w') = db (supabase w)
      /\ toast_type_of (toast (ui (app w'))) = Some error_toast)
  /\ (reachable (supabase w) = true ->
      (List.length (filter mine (rsvps (db (supabase w)))) <= 1)%nat ->
      stored_rsvp uid (supabase w') = Some new
      /\ forall r, mine r = false ->
           (In r (rsvps (db (supabase w'))) <-> In r (rsvps (db (supabase w))))).
Proof.
  intros Hu uid new mine w'.
  assert (E : w' = exec
                (err <- mutate_ok (Upsert "rsvps")
                          (fun d => set_rsvps (upsert_rsvp new (rsvps d)) d) ;;
                 match err with
                 | Some _ =>
                     showToast "Error de red: No se pudo guardar" error_toast
                 | None => showToast "Asistencia actualizada" success
                 end)
                (exec (setRsvp (Some new)) w)).
  { subst w'. unfold updateRsvp. rewrite exec_bind_gets, Hu.
    rewrite exec_bind_gets. unfold setRsvp at 1.
    now rewrite exec_bind_modify. }
  destruct (reachable (supabase w)) eqn:Hup.
  - assert (E' : w' = exec (showToast "Asistencia actualizada" success)
                   (served [Upsert "rsvps"]
                      (fun d => set_rsvps (upsert_rsvp new (rsvps d)) d)
                      (exec (setRsvp (Some new)) w))).
    { rewrite E.
      unfold mutate_ok, mutate, request, write, exec, bind, gets, modify, ret.
      cbn. rewrite Hup. reflexivity. }
    rewrite E'. split; [reflexivity|]. split; [discriminate|].
    intros _ Hle. unfold stored_rsvp. cbn. rewrite Hup.
    destruct (upsert_rsvp_lookup new (rsvps (db (supabase w))) Hle)
      as [Hf Ho].
    cbn [RSVP.user_id new] in Hf. fold uid in Hf. split.
    + now rewrite Hf.
    + exact Ho.
  - assert (E' : w' = exec (showToast "Error de red: No se pudo guardar"
                              error_toast)
                   (logged (Upsert "rsvps") (exec (setRsvp (Some new)) w))).
    { rewrite E.
      unfold mutate_ok, mutate, request, write, exec, bind, gets, modify, ret.
      cbn. rewrite Hup. reflexivity. }
    rewrite E'. split; [reflexivity|]. split; [|discriminate].
    intros _. split; reflexivity.
Qed.

End Rsvp.

Lemma updateRsvp_optimistic_witness :
  let u := newProfile demo_clock 0 "u-42" (unused "G15-J01" UserSegment.YOUNG) in
  let w := exec (setUser (Some u)) (page offline_backend 1773507600000) in
  let w' := exec (updateRsvp false demo_clock RsvpStatus.CONFIRMED) w in
  option_map RSVP.status (rsvp (data (app w'))) = Some RsvpStatus.CONFIRMED
  /\ rsvps (db (supabase w')) = [].
Proof.
  cbv zeta.
  destruct (updateRsvp_optimistic demo_clock RsvpStatus.CONFIRMED
              (newProfile demo_clock 0 "u-42"
                 (unused "G15-J01" UserSegment.YOUNG))
              (exec (setUser (Some (newProfile demo_clock 0 "u-42"
                       (unused "G15-J01" UserSegment.YOUNG))))
                 (page offline_backend 1773507600000)) eq_refl)
    as (Hr & Hoff & _).
  split.
  - rewrite Hr. reflexivity.
  - destruct (Hoff eq_refl) as [Hdb _]. now rewrite Hdb.
Defined.

(* ================================================================== *)
(** ** Photos: upload, moderation, gallery                        *)
(* ================================================================== *)

Section Photos.

Variable toISOString : Z -> string.








End Photos.



(* ================================================================== *)
(** ** Chat                                                       *)
(* ================================================================== *)

Section Chat.

Variable toISOString : Z -> string.


End Chat.

Section ChatWindow.

Variable toISOString : Z -> string.

Section Sorting.

Context {A : Type} (col : A -> string).






End Sorting.






End ChatWindow.


(* ================================================================== *)
(** ** The administrator's guest list                             *)
(* ================================================================== *)

Section GuestList.

Variable localeCompare : string -> string -> Z.

Lemma insert_guest_perm (x : Guest) (l : list Guest) :
  Permutation.Permutation (insert_guest localeCompare x l) (x :: l).
Proof.
  induction l as [|y l IH]; cbn [insert_guest];
    [apply Permutation.Permutation_refl|].
  destruct (_ <=? _)%Z; [apply Permutation.Permutation_refl|].
  apply (Permutation.perm_trans (Permutation.perm_skip y IH)).
  apply Permutation.perm_swap.
Qed.

Lemma sort_guests_perm (l : list Guest) :
  Permutation.Permutation (sort_guests localeCompare l) l.
Proof.
  induction l as [|x l IH]; cbn [sort_guests];
    [apply Permutation.Permutation_refl|].
  apply (Permutation.perm_trans (insert_guest_perm _ _)).
  now apply Permutation.perm_skip.
Qed.



Lemma inviteMap_acc (ivs : list InviteCode.t) (key : string)
  (acc : option InviteCode.t) :
  let step := fun m i =>
    match InviteCode.used_by i with
    | Some (String c u) => if String.eqb (String c u) key then Some i else m
    | _ => m
    end in
  (forall i, fold_left step ivs acc = Some i ->
     acc = Some i
     \/ (In i ivs /\ InviteCode.used_by i = Some key /\ key <> ""))
  /\ (acc <> None -> fold_left step ivs acc <> None)
  /\ (forall i, In i ivs -> InviteCode.used_by i = Some key -> key <> "" ->
        fold_left step ivs acc <> None).
Proof.
  intros step. revert acc.
  induction ivs as [|j ivs IH]; intros acc; cbn [fold_left].
  - repeat split; auto; try (now intros i []).
  - destruct (IH (step acc j)) as (H1 & H2 & H3). repeat split.
    + intros i Hi. destruct (H1 i Hi) as [Hs|(Hin & Hu & Hk)].
      * unfold step in Hs.
        destruct (InviteCode.used_by j) as [[|c u]|] eqn:Eu; auto.
        destruct (String.eqb (String c u) key) eqn:Ek; auto.
        injection Hs as <-. apply String.eqb_eq in Ek. right.
        repeat split; [now left|congruence|].
        intros ->. discriminate Ek.
      * right. repeat split; auto. now right.
    + intros Hacc. apply H2. unfold step.
      destruct (InviteCode.used_by j) as [[|c u]|]; auto.
      destruct (String.eqb _ _); [discriminate|exact Hacc].
    + intros i [->|Hin] Hu Hk.
      * apply H2. unfold step. rewrite Hu.
        destruct key as [|c u]; [now elim Hk|].
        rewrite String.eqb_refl. discriminate.
      * now apply (H3 i).
Qed.

Lemma fetchGuests_state (w : World) :
  let w' := exec (fetchGuests localeCompare) w in
  result (fetchGuests localeCompare) w = Return false
  /\ stored (supabase w') = stored (supabase w)
  /\ guests (adminPanel w')
     = if reachable (supabase w)
       then combined localeCompare (profiles (db (supabase w)))
              (invites (db (supabase w)))
       else guests (adminPanel w).
Proof.
  unfold fetchGuests, read, request, database, setGuests, result, exec, bind,
    gets, modify, ret.
  cbn -[combined].
  destruct (reachable (supabase w)) eqn:Hup;
    repeat (cbn -[combined]; rewrite ?Hup); repeat split.
Qed.

(** X18: the guest list has one row per profile, each with the invite
    that names it.  [fetchGuests] always ends with [loadingData]
    cleared and stores nothing.  When the service is not reached the
    list on the page is left as it was.  When it is reached, the rows
    are the stored profiles, each once, in some order; the invite
    attached to a row is a stored invite whose [used_by] is that row's
    identity; and a row whose identity is named by the [used_by] of a
    stored invite has an invite attached. *)
Theorem fetchGuests_rows (w : World) :
  let w' := exec (fetchGuests localeCompare) w in
  let d := db (supabase w) in
  result (fetchGuests localeCompare) w = Return false
  /\ stored (supabase w') = stored (supabase w)
  /\ (reachable (supabase w) = false ->
      guests (adminPanel w') = guests (adminPanel w))
  /\ (reachable (supabase w) = true ->
      Permutation.Permutation (map guest (guests (adminPanel w')))
        (profiles d)
      /\ (forall g i, In g (guests (adminPanel w')) -> invite g = Some i ->
            In i (invites d)
            /\ InviteCode.used_by i = Some (UserProfile.user_id (guest g)))
      /\ (forall g i, In g (guests (adminPanel w')) -> In i (invites d) ->
            InviteCode.used_by i = Some (UserProfile.user_id (guest g)) ->
            UserProfile.user_id (guest g) <> "" ->
            invite g <> None)).
Proof.
  intros w' d.
  destruct (fetchGuests_state w) as (Hr & Hs & Hg). fold w' in Hs, Hg.
  split; [exact Hr|]. split; [exact Hs|]. split.
  - intros Hup. now rewrite Hup in Hg.
  - intros Hup. rewrite Hup in Hg. fold d in Hg. rewrite Hg.
    unfold combined.
    set (attach := fun p => {| guest := p;
                               invite := inviteMap (invites d)
                                           (UserProfile.user_id p) |}).
    assert (Hin : forall g, In g (sort_guests localeCompare
                                    (map attach (profiles d))) ->
                            invite g = inviteMap (invites d)
                                         (UserProfile.user_id (guest g))).
    { intros g Hg'.
      apply (Permutation.Permutation_in _ (sort_guests_perm _)) in Hg'.
      apply in_map_iff in Hg'. now destruct Hg' as (p & <- & _). }
    split; [|split].
    + apply (Permutation.perm_trans
               (Permutation.Permutation_map guest (sort_guests_perm _))).
      rewrite map_map. cbn. rewrite map_id.
      apply Permutation.Permutation_refl.
    + intros g i Hg' Hi. rewrite (Hin g Hg') in Hi.
      destruct (inviteMap_acc (invites d) (UserProfile.user_id (guest g)) None)
        as (H1 & _).
      destruct (H1 i Hi) as [Hn|(Hi' & Hu & _)]; [discriminate|].
      now split.
    + intros g i Hg' Hi Hu Hne. rewrite (Hin g Hg').
      destruct (inviteMap_acc (invites d) (UserProfile.user_id (guest g)) None)
        as (_ & _ & H3).
      now apply (H3 i).
Qed.



End GuestList.

(* ================================================================== *)
(** ** The profile setup form                                     *)
(* ================================================================== *)

Section ProfileSetupForm.

Variable toISOString : Z -> string.

Lemma mutate_ok_run (c : Call) (f : Database -> Database) (w : World) :
  mutate_ok c f w
  = if reachable (supabase w)
    then (Return None, served [c] f w)
    else (Return (Some network_error), logged c w).
Proof.
  unfold mutate_ok, mutate, request, write, served, logged, bind, gets,
    modify, ret.
  cbn. destruct (reachable (supabase w)) eqn:Hup;
    repeat (cbn; rewrite ?Hup); reflexivity.
Qed.

Lemma then_ret {A B : Type} (m : M A) (b : B) (w : World) :
  returns m -> (m ;; ret b) w = (Return b, exec m w).
Proof.
  intros Hm. destruct (Hm w) as [a Ha]. unfold result, exec, bind in *.
  destruct (m w) as [r w1]. cbn in *. now subst.
Qed.

Lemma saveProfile_exec (isMockMode : bool) (u : UserProfile.t)
  (s : ProfileSetup.state) (w : World) :
  let n := ProfileSetup.name s in
  let c := ProfileSetup.isCeliac s in
  let uid := UserProfile.user_id u in
  let entered x :=
    exec (setView View.HOME) (exec (setUser (Some (renamed n c u))) x) in
  saveProfile isMockMode toISOString u s w
  = match Js.trimStart n with
    | EmptyString =>
        (Return s, exec (showToast "Ingresá tu nombre" error_toast) w)
    | _ =>
        if isMockMode
        then (Return (ProfileSetup.setSaving true s), entered w)
        else if reachable (supabase w)
        then (Return (ProfileSetup.setSaving true s),
              exec (loadUserData false toISOString uid)
                (entered
                   (served [Update "profiles"]
                      (fun d => set_profiles
                                  (map (rename_row uid n c) (profiles d)) d)
                      w)))
        else (Return (ProfileSetup.setSaving false s),
              exec (showToast "Error guardando perfil" error_toast)
                (logged (Update "profiles") w))
    end.
Proof.
  intros n c uid entered. subst n c uid entered.
  unfold saveProfile.
  destruct (Js.trimStart (ProfileSetup.name s)); [reflexivity|].
  destruct isMockMode; [reflexivity|].
  unfold bind at 1. rewrite mutate_ok_run.
  destruct (reachable (supabase w)); [|reflexivity].
  unfold setUser at 1, setView at 1, bind at 1 2, modify at 1 2.
  rewrite then_ret by apply loadUserData_returns.
  reflexivity.
Qed.



End ProfileSetupForm.


(* ================================================================== *)
(** ** Chat subscriptions                                         *)
(* ================================================================== *)

Section ChatSubscriptions.

Variable toISOString : Z -> string.




End ChatSubscriptions.


(* ================================================================== *)
(** ** The page as a transition system                            *)
(* ================================================================== *)

Section Sessions.

Variable toISOString : Z -> string.
Variable localeCompare : string -> string -> Z.

Lemma enters_of_leaves {A : Type} (m : M A) : leaves session m -> enters m.
Proof. intros H w. left. apply H. Qed.

Lemma enters_bind_l {A B : Type} (m : M A) (k : A -> M B) :
  leaves session m -> (forall a, enters (k a)) -> enters (bind m k).
Proof.
  intros Hm Hk w. rewrite exec_bind.
  destruct (result m w) as [a|e]; [|left; apply Hm].
  assert (Hs := Hm w).
  destruct (Hk a (exec m w)) as [H|[p H]].
  - left. congruence.
  - right. exists p. rewrite H. unfold entered_as.
    unfold session in Hs. injection Hs as _ Ha _. now rewrite Ha.
Qed.

Lemma enters_bind_r {A B : Type} (m : M A) (k : A -> M B) :
  enters m -> (forall a, leaves session (k a)) -> enters (bind m k).
Proof.
  intros Hm Hk w. rewrite exec_bind.
  destruct (result m w) as [a|e]; [|apply Hm].
  destruct (Hm w) as [H|[p H]]; [left|right; exists p]; now rewrite Hk.
Qed.

Lemma enters_try_catch {A : Type} (m : M A) (h : Error.t -> M A) :
  enters m -> (forall e, leaves session (h e)) -> enters (try_catch m h).
Proof.
  intros Hm Hh w. rewrite exec_try_catch.
  destruct (result m w) as [a|e]; [apply Hm|].
  destruct (Hm w) as [H|[p H]]; [left|right; exists p]; now rewrite Hh.
Qed.

Lemma enters_loginUser (isMockMode : bool) (p : UserProfile.t) :
  enters (loginUser isMockMode toISOString p).
Proof.
  intros w. right. exists p.
  unfold session, entered_as. now rewrite loginUser_global.
Qed.

Ltac enters_step :=
  lazymatch goal with
  | |- enters (loginUser _ _ _) => apply enters_loginUser
  | |- enters (bind (loginUser _ _ _) _) =>
      apply enters_bind_r; [apply enters_loginUser|intros ?; leaves_tac]
  | |- enters (bind _ _) =>
      first [ apply enters_bind_l; [solve [leaves_tac]|intros ?]
            | apply enters_bind_r; [|intros ?; solve [leaves_tac]] ]
  | |- enters (try_catch _ _) =>
      apply enters_try_catch; [|intros ?; solve [leaves_tac]]
  | |- enters (match ?x with _ => _ end) => destruct x eqn:?
  | |- enters (let _ := _ in _) => cbv zeta
  | |- enters _ => apply enters_of_leaves; solve [leaves_tac]
  end.

Lemma enters_createProfileAndEnter (isMockMode : bool) (userId : string)
  (invite : InviteCode.t) :
  enters (createProfileAndEnter isMockMode toISOString userId invite).
Proof. unfold createProfileAndEnter. repeat enters_step. Qed.

Lemma enters_handleEmailAuth (isMockMode : bool) :
  enters (handleEmailAuth isMockMode toISOString).
Proof.
  unfold handleEmailAuth, validateCode.
  repeat (enters_step || apply enters_createProfileAndEnter).
Qed.

Lemma enters_mount (isMockMode : bool) :
  enters (mount isMockMode toISOString).
Proof.
  unfold mount, initApp.
  repeat enters_step.
Qed.

End Sessions.
Section PageInvariant.

Variable isMockMode : bool.
Variable toISOString : Z -> string.
Variable localeCompare : string -> string -> Z.

Lemma session_ok_same (w w' : World) :
  session w' = session w -> session_ok w -> session_ok w'.
Proof.
  unfold session, session_ok. cbv zeta. intros H.
  injection H as -> -> ->. auto.
Qed.

Lemma session_ok_entered (w w' : World) (p : UserProfile.t) :
  session_ok w -> view (global (app w)) = View.AUTH ->
  session w' = entered_as p w -> session_ok w'.
Proof.
  unfold session, entered_as, session_ok. cbv zeta.
  intros (Hauth & _) Hv H. destruct (Hauth Hv) as [_ Ha].
  injection H as -> -> ->. rewrite Ha, orb_false_r.
  destruct (needs_setup p) eqn:En; repeat split; try discriminate.
  intros Hadm. exists p. split; [reflexivity|].
  now destruct (UserProfile.segment p).
Qed.

Lemma session_ok_enters {A : Type} (m : M A) (w : World) :
  enters m -> session_ok w -> view (global (app w)) = View.AUTH ->
  session_ok (exec m w).
Proof.
  intros Hm Hok Hv. destruct (Hm w) as [H|[p H]].
  - now apply (session_ok_same w).
  - now apply (session_ok_entered w _ p).
Qed.

Lemma on_auth_enters (c : Control.auth) :
  enters (on_auth isMockMode toISOString c).
Proof.
  destruct c; cbn [on_auth]; try apply enters_handleEmailAuth;
    apply enters_of_leaves;
    unfold handleAuth, validateCode, volver, cambiarCodigo; leaves_tac.
Qed.

Lemma on_home_leaves (c : Control.home) :
  c <> Control.settings -> c <> Control.logout ->
  leaves session (on_home isMockMode toISOString c).
Proof.
  intros Hs Hl. destruct c; try contradiction; cbn [on_home];
    unfold updateRsvp, sendMessage, handleUpload, the_user_id; leaves_tac.
Qed.

Lemma on_panel_leaves (c : Control.panel) :
  c <> Control.volverAHome ->
  leaves session (on_panel isMockMode toISOString localeCompare c).
Proof.
  intros Hv. destruct c; try contradiction; cbn [on_panel];
    unfold onActiveTab, fetchGuests, batchGenerate, updateTable,
      moderatePhoto, fetchPhotos; leaves_tac.
Qed.

Lemma on_callback_leaves (c : Control.callback) :
  leaves session (on_callback c).
Proof.
  destruct c; cbn [on_callback]; unfold onChatInsert, onThemeUpdate;
    leaves_tac.
Qed.

Lemma step_session_ok (w w' : World) :
  session_ok w -> step isMockMode toISOString localeCompare w w' ->
  session_ok w'.
Proof.
  intros Hok Hstep.
  destruct Hstep as [w c [_ Hv]|w u form [_ Hv] Hu|w c [_ Hv] Hadm
                    |w c [_ Hv]|w c].
  - apply session_ok_enters; [apply on_auth_enters|exact Hok|exact Hv].
  - unfold exec. rewrite saveProfile_exec. cbv zeta.
    pose proof Hok as (_ & _ & Hadm & _).
    assert (Hin : session_ok
                    (exec (setView View.HOME)
                       (exec (setUser
                                (Some (renamed (ProfileSetup.name form)
                                         (ProfileSetup.isCeliac form) u))) w))).
    { unfold session_ok. cbn. repeat split; try discriminate.
      intros Ha. destruct (Hadm Ha) as (u0 & Hu0 & Hseg).
      eexists. split; [reflexivity|]. cbn. congruence. }
    destruct (Js.trimStart _); [exact Hok|].
    destruct isMockMode; [exact Hin|].
    destruct (reachable (supabase w)); [|exact Hok].
    cbn [snd].
    match goal with
    | |- session_ok (exec (loadUserData false toISOString ?i) ?x) =>
        apply (session_ok_same x);
        [apply (f_equal (fun g => (user g, isAdmin g, view g))
                  (loadUserData_leaves_global toISOString false i x))
        |exact Hin]
    end.
  - destruct c.
    + unfold session_ok in *. cbn. specialize (Hadm eq_refl).
      destruct Hok as (_ & Hu & Ha & _). rewrite Hv in Hu.
      repeat split; try discriminate; auto.
      intros _. apply Hu. discriminate.
    + unfold session_ok. destruct isMockMode; cbn;
        repeat split; try discriminate; congruence.
    + apply (session_ok_same w); [|exact Hok].
      apply on_home_leaves; discriminate.
    + apply (session_ok_same w); [|exact Hok].
      apply on_home_leaves; discriminate.
    + apply (session_ok_same w); [|exact Hok].
      apply on_home_leaves; discriminate.
  - destruct c;
      try (apply (session_ok_same w); [|exact Hok];
           apply on_panel_leaves; discriminate).
    cbn [on_panel]. unfold volverAHome. unfold setView at 1.
    rewrite exec_bind_modify.
    destruct Hok as (_ & Hu & Ha & _).
    assert (Hne : user (global (app w)) <> None)
      by (apply Hu; rewrite Hv; discriminate).
    destruct (user (global (app w))) as [u|] eqn:Eu; [|now elim Hne].
    match goal with |- context [exec _ ?x] => set (w0 := x) end.
    assert (Ht : the_user_id w0 = (Return (UserProfile.user_id u), w0)).
    { unfold the_user_id, bind, gets. subst w0. cbn. rewrite Eu.
      reflexivity. }
    rewrite exec_bind. unfold result, exec at 2. rewrite Ht. cbn [fst snd].
    apply (session_ok_same w0);
      [apply (f_equal (fun g => (user g, isAdmin g, view g))
                (loadUserData_leaves_global toISOString isMockMode _ w0))|].
    unfold session_ok. subst w0. cbn. rewrite Eu.
    repeat split; try discriminate. exact Ha.
  - apply (session_ok_same w); [|exact Hok]. apply on_callback_leaves.
Qed.

(** X22: the admin panel is shown to administrators only.  In every
    state the page goes through after it is loaded and mounted, in
    either mode and whatever the backend holds and answers: nobody is
    logged in while the login form is shown and somebody is whenever
    another view is; the administrator flag is set only while the
    session's profile is of the administrator segment; and whenever
    the admin panel is shown, the session's profile is of the
    administrator segment. *)
Theorem admin_panel_only_for_administrators (b : Backend) (t : Z)
  (w : World) :
  reaches isMockMode toISOString localeCompare
    (exec (mount isMockMode toISOString) (page b t)) w ->
  session_ok w
  /\ (view (global (app w)) = View.ADMIN ->
      exists u, user (global (app w)) = Some u
                /\ UserProfile.segment u = UserSegment.ADMIN).
Proof.
  intros Hreach.
  assert (Hok : session_ok w).
  { induction Hreach as [|w w' _ IH Hstep].
    - apply session_ok_enters; [apply enters_mount| |reflexivity].
      unfold session_ok. cbn. repeat split; try discriminate.
      intros H. now elim H.
    - now apply (step_session_ok w). }
  split; [exact Hok|].
  intros Hv. destruct Hok as (_ & _ & Ha & Hp). auto.
Qed.

End PageInvariant.
Lemma admin_panel_witness :
  view (global (app admin_in_panel)) = View.ADMIN
  /\ exists u, user (global (app admin_in_panel)) = Some u
               /\ UserProfile.segment u = UserSegment.ADMIN.
Proof.
  split; [reflexivity|].
  refine (proj2 (admin_panel_only_for_administrators false demo_clock
                   (fun _ _ => 0%Z) demo_backend 1773507600000
                   admin_in_panel _) eq_refl).
  unfold admin_in_panel, admin_at_home.
  eapply reaches_step;
    [|apply step_home; [split; reflexivity|intros _; reflexivity]].
  repeat (eapply reaches_step; [|apply step_auth; split; reflexivity]).
  apply reaches_here.
Defined.
Lemma earlier_handleAuth_anonymous_first_witness :
  let w := typing "g15-j01" "" ""
             (page (backend_with guest_list anonymous_off) 1773507600000) in
  let w' := exec (Earlier.handleAuth false
                    (createProfileAndEnter false demo_clock)) w in
  calls (supabase w') = [SignInAnonymously; Select "invites"]
  /\ authMode (auth (app w')) = AuthMode.EMAIL_REQUIRED.
Proof.
  cbv zeta.
  destruct (earlier_handleAuth_anonymous_first
              (createProfileAndEnter false demo_clock)
              (typing "g15-j01" "" ""
                 (page (backend_with guest_list anonymous_off) 1773507600000))
              (unused "G15-J01" UserSegment.YOUNG)
              (Error.make "Anonymous sign-ins are disabled"))
    as [Hc Hm]; try reflexivity; try discriminate.
  split; [exact Hc|exact Hm].
Defined.

Lemma earlier_handleAuth_mock_witness :
  let w := guest_typing "whatever" in
  user (global (app (exec (Earlier.handleAuth true
                             (createProfileAndEnter true demo_clock)) w)))
  = Some (newProfile demo_clock 1773507600000 "mock-user-1773507600000"
            (unused "WHATEVER" UserSegment.YOUNG)).
Proof.
  cbv zeta.
  unfold exec.
  rewrite (earlier_handleAuth_mock (createProfileAndEnter true demo_clock)
             (guest_typing "whatever")) by discriminate.
  reflexivity.
Defined.

(* ================================================================== *)
(** ** Input guards and mounting                                  *)
(* ================================================================== *)

Section Guards.

Variable toISOString : Z -> string.
Variable localeCompare : string -> string -> Z.

(** A text is blank when it holds white space only. *)
Lemma trimStart_blank (s : string) :
  all_chars Js.is_space s = true <-> Js.trimStart s = "".
Proof.
  induction s as [|c s IH]; [now split|].
  cbn [all_chars Js.trimStart]. destruct (Js.is_space c).
  - exact IH.
  - split; discriminate.
Qed.

(** X23: empty input never leaves the page.  In either mode, none of
    these stores anything or issues a request: validating an empty
    code, or sending the e-mail form without an address, or with the
    sentinel and an address but no password, each of which only shows
    its own message; sending a chat message of white space only,
    choosing no file,
    seating a guest without an identity, and answering while nobody is
    logged in, each of which changes nothing at all. *)
Theorem empty_input_stays_local (isMockMode : bool) (w : World) :
  (inviteCode (ui (app w)) = "" ->
   exec (handleAuth isMockMode) w
   = exec (setAuthError "Ingresá tu código") w)
  /\ (email (auth (app w)) = "" ->
      exec (handleEmailAuth isMockMode toISOString) w
      = exec (setAuthError "Ingresá tu email") w)
  /\ (email (auth (app w)) <> "" ->
      Js.toUpperCase (inviteCode (ui (app w))) = ADMIN_SETUP ->
      password (auth (app w)) = "" ->
      exec (handleEmailAuth isMockMode toISOString) w
      = exec (setAuthError "Ingresá una contraseña" ;; setLoading false) w)
  /\ (forall text, all_chars Js.is_space text = true ->
        exec (sendMessage isMockMode toISOString text) w = w)
  /\ exec (handleUpload isMockMode toISOString None) w = w
  /\ (forall newTable, exec (updateTable "" newTable) w = w)
  /\ (user (global (app w)) = None ->
      forall status, exec (updateRsvp isMockMode toISOString status) w = w).
Proof.
  repeat apply conj.
  - intros H. unfold handleAuth. now rewrite exec_bind_gets, H.
  - intros H. unfold handleEmailAuth. now rewrite !exec_bind_gets, H.
  - intros Hm Hc Hp. unfold handleEmailAuth.
    rewrite !exec_bind_gets, Hc, Hp.
    destruct (email (auth (app w))) as [|a s]; [now elim Hm|].
    assert (Hv : validateCode isMockMode ADMIN_SETUP
                 = ret (Some (virtual_invite ADMIN_SETUP UserSegment.ADMIN)))
      by (unfold validateCode; now destruct isMockMode).
    rewrite Hv. reflexivity.
  - intros text H. apply trimStart_blank in H.
    unfold sendMessage. now rewrite H.
  - reflexivity.
  - reflexivity.
  - intros H status. unfold updateRsvp. now rewrite exec_bind_gets, H.
Qed.

Lemma initApp_online_session (w : World) :
  let r := identity (supabase w)
             (GetSession :: Select "event_config" :: Select "theme_config"
                :: calls (supabase w)) in
  let online := exec (initApp false toISOString) w in
  session online
  = match AuthResponse.user r with
    | Some uid =>
        match (if reachable (supabase w)
               then single (profiles_of uid (supabase w)) else None) with
        | Some p => entered_as p w
        | None => session w
        end
    | None => session w
    end
  /\ loading (global (app online)) = false.
Proof.
  intros r online. subst r online.
  unfold initApp, profiles_of, auth_request, read, request, database,
    setTheme, setEventConfig, setLoading, exec, bind, gets, modify, ret.
  cbn -[loginUser].
  destruct (reachable (supabase w)) eqn:Hup;
    repeat (cbn -[loginUser]; rewrite ?Hup).
  - destruct (single (theme_config (db (supabase w)))) as [t|];
      repeat (cbn -[loginUser]; rewrite ?Hup);
      destruct (single (event_config (db (supabase w)))) as [e|];
      repeat (cbn -[loginUser]; rewrite ?Hup);
      (destruct (AuthResponse.user _) as [uid|];
       repeat (cbn -[loginUser]; rewrite ?Hup);
       [|split; reflexivity];
       destruct (single (filter _ _)) as [p|];
       repeat (cbn -[loginUser]; rewrite ?Hup);
       [|split; reflexivity];
       match goal with
       | |- context [loginUser false toISOString p ?x] =>
           assert (Hg := loginUser_global toISOString false p x);
           destruct (loginUser_returns false toISOString p x) as [[] Hr];
           unfold exec, result in Hg, Hr;
           destruct (loginUser false toISOString p x) as [o w'];
           cbn [fst snd] in Hg, Hr; subst o; cbn;
           unfold session, entered_as; cbn in Hg |- *; rewrite Hg; cbn;
           split; reflexivity
       end).
  - destruct (AuthResponse.user _) as [uid|];
      repeat (cbn -[loginUser]; rewrite ?Hup);
      split; reflexivity.
Qed.

(** X24: what mounting restores.  [initApp] always ends with the
    spinner cleared.  In mock mode it sets the default theme and the
    demo event and reaches no backend.  Online it asks for the theme,
    the event and the session: without a session the login form stays;
    with a session whose identity has exactly one stored profile, the
    service being reached, the guest is let in as [loginUser] does for
    that profile; with a session whose identity has no such profile the
    login form stays although the guest is signed in. *)
Theorem initApp_restores_session (w : World) :
  let r := identity (supabase w)
             (GetSession :: Select "event_config" :: Select "theme_config"
                :: calls (supabase w)) in
  let online := exec (initApp false toISOString) w in
  let mock := exec (initApp true toISOString) w in
  loading (global (app online)) = false
  /\ loading (global (app mock)) = false
  /\ supabase mock = supabase w
  /\ session mock = session w
  /\ theme (data (app mock)) = DEFAULT_THEME
  /\ eventConfig (data (app mock)) = MOCK_EVENT_CONFIG
  /\ (AuthResponse.user r = None -> session online = session w)
  /\ (forall uid p,
        AuthResponse.user r = Some uid ->
        reachable (supabase w) = true ->
        profiles_of uid (supabase w) = [p] ->
        session online = entered_as p w)
  /\ (forall uid,
        AuthResponse.user r = Some uid ->
        (reachable (supabase w) = false
         \/ single (profiles_of uid (supabase w)) = None) ->
        session online = session w).
Proof.
  intros r online mock.
  destruct (initApp_online_session w) as [Hs Hl]. fold r online in Hs, Hl.
  repeat apply conj; try reflexivity.
  - exact Hl.
  - intros Hr. now rewrite Hs, Hr.
  - intros uid p Hr Hup Hp. now rewrite Hs, Hr, Hup, Hp.
  - intros uid Hr Hor. rewrite Hs, Hr.
    destruct Hor as [Hup|Hn]; [now rewrite Hup|].
    rewrite Hn. now destruct (reachable (supabase w)).
Qed.

End Guards.

(* ================================================================== *)
(** ** The spinner                                                *)
(* ================================================================== *)

Section Spinner.

Variable isMockMode : bool.
Variable toISOString : Z -> string.
Variable localeCompare : string -> string -> Z.

Lemma on_callback_leaves_global (c : Control.callback) :
  leaves (fun w => global (app w)) (on_callback c).
Proof.
  destruct c; cbn [on_callback]; unfold onChatInsert, onThemeUpdate;
    leaves_tac.
Qed.

Lemma spinner_is_final (w w' : World) :
  loading (global (app w)) = true ->
  reaches isMockMode toISOString localeCompare w w' ->
  global (app w') = global (app w).
Proof.
  intros Hl Hreach. induction Hreach as [|w1 w2 _ IH Hstep]; [reflexivity|].
  assert (Hl1 : loading (global (app w1)) = true) by now rewrite IH.
  rewrite <- IH.
  destruct Hstep as [? ? [Hf _]|? ? ? [Hf _] _|? ? [Hf _] _|? ? [Hf _]|? c];
    try congruence.
  apply on_callback_leaves_global.
Qed.

(** X25: a sign-in that answers with neither an error nor an identity
    leaves the page on its spinner for good.  In either mode, with the
    sentinel in the code field and an address and a password typed,
    when the identity service answers the sign-in without an error and
    without an identity, the e-mail form ends with [loading] still set
    and nobody let in; and from a state in which [loading] is set no
    control of the page fires, so the session and the spinner stay as
    they are in every state the page goes through from there. *)
Theorem signin_without_identity_hangs (w w' : World) :
  let mail := email (auth (app w)) in
  let pass := password (auth (app w)) in
  let r := identity (supabase w)
             (SignInWithPassword mail pass :: calls (supabase w)) in
  let w1 := exec (handleEmailAuth isMockMode toISOString) w in
  Js.toUpperCase (inviteCode (ui (app w))) = ADMIN_SETUP ->
  mail <> "" -> pass <> "" ->
  AuthResponse.error r = None -> AuthResponse.user r = None ->
  loading (global (app w1)) = true
  /\ session w1 = session w
  /\ stored (supabase w1) = stored (supabase w)
  /\ (reaches isMockMode toISOString localeCompare w1 w' ->
      loading (global (app w')) = true /\ session w' = session w).
Proof.
  intros mail pass r w1 Hcode Hm Hp He Hu.
  assert (E := handleEmailAuth_sentinel toISOString isMockMode w Hcode Hm Hp).
  cbv zeta in E. fold mail pass w1 in E.
  change (identity (supabase w) (calls (supabase (logged (SignUp mail pass) _))))
    with (identity (supabase w)
            (SignUp mail pass :: SignInWithPassword mail pass
               :: calls (supabase w))) in E.
  change (identity (supabase w) (calls (supabase _))) with r in E.
  rewrite He, Hu in E.
  assert (Hl : loading (global (app w1)) = true) by now rewrite E.
  assert (Hs : session w1 = session w) by now rewrite E.
  repeat apply conj; try assumption.
  - now rewrite E.
  - intros Hreach.
    assert (Hg := spinner_is_final w1 w' Hl Hreach).
    unfold session in *. rewrite Hg. now split.
Qed.

End Spinner.

Lemma signin_without_identity_witness :
  loading (global (app
     (exec (handleEmailAuth false demo_clock)
        (typing "admin-setup" "admin@example.com" "secret"
           (page (backend_with guest_list silent) 1773507600000)))))
  = true.
Proof.
  refine (proj1 (signin_without_identity_hangs false demo_clock
                   (fun _ _ => 0%Z)
                   (typing "admin-setup" "admin@example.com" "secret"
                      (page (backend_with guest_list silent) 1773507600000))
                   (page demo_backend 0) _ _ _ _ _));
    try reflexivity; discriminate.
Defined.
